(** * EmoRadar: the intervention engine

    A shallow embedding of [src/intervention_engine.py] (class
    [InterventionEngine]) and the properties of its decision pipeline:
    concern identification, urgency grading, strategy selection, timing
    lookup and outcome estimation.

    Python values are embedded as the inductive type [Py.pyval]; a call that
    may raise returns a [Py.result]; the ambient [random] module is an explicit
    source of draws threaded through the functions that use it. *)

From Stdlib Require Import ZArith QArith Qround Qabs Qpower Lqa Lia List Ascii String.
From Stdlib Require Import DecimalString PrimFloat FloatOps SpecFloat.
From stdpp Require Import base option gmap strings.
Import ListNotations.

Set Warnings "-inexact-float".
Local Open Scope string_scope.

(** ** The two enumerations of the module *)

Inductive InterventionType : Type :=
| IMMEDIATE      (* "immediate": stop current activity *)
| ADAPTIVE       (* "adaptive": modify current approach *)
| SUPPORTIVE     (* "supportive": provide additional support *)
| MOTIVATIONAL   (* "motivational": boost confidence/engagement *)
| COGNITIVE.     (* "cognitive": address cognitive load *)

Inductive LearningPhase : Type :=
| INTRODUCTION | PRACTICE | APPLICATION | ASSESSMENT | REVIEW.

#[global] Instance InterventionType_eq_dec : EqDecision InterventionType.
Proof. solve_decision. Defined.

#[global] Instance LearningPhase_eq_dec : EqDecision LearningPhase.
Proof. solve_decision. Defined.

(** [InterventionType.X.value] *)
Definition value (t : InterventionType) : string :=
  match t with
  | IMMEDIATE => "immediate"
  | ADAPTIVE => "adaptive"
  | SUPPORTIVE => "supportive"
  | MOTIVATIONAL => "motivational"
  | COGNITIVE => "cognitive"
  end.

(** ** Python values, exceptions and the operators the engine applies *)

Module Py.

(** The values a [Dict[str, Any]] of this program holds.  An [int] is a [Z].
    A [float] is a finite binary64 number, held as the rational it stands
    for: comparisons are exact, as Python's are between [int] and [float],
    and arithmetic rounds to the nearest binary64 number ([round64] below).
    The infinities and NaN are not represented, neither as scores nor as
    the result of a float operation that leaves the finite range; zero has
    no sign.  The improvement factors of the outcome estimate, which are
    constants, are primitive binary64 floats. *)
Inductive pyval : Type :=
| VNone
| VBool (b : bool)
| VInt (z : Z)
| VFloat (q : Q)
| VStr (s : string)
| VType (t : InterventionType)
| VPhase (p : LearningPhase).

Inductive exn : Type :=
| TypeError (msg : string)
| KeyError (key : string)
| IndexError (msg : string)
| ValueError (msg : string)
| OverflowError (msg : string).

Inductive result (A : Type) : Type :=
| Ok (a : A)
| Raise (e : exn).
Arguments Ok {A} a.
Arguments Raise {A} e.

Definition bind {A B} (r : result A) (k : A -> result B) : result B :=
  match r with
  | Ok a => k a
  | Raise e => Raise e
  end.

(** [a or b] and [a and b] on conditions that may raise: the right operand
    is evaluated only when the left one does not decide. *)
Definition or_else (a b : result bool) : result bool :=
  bind a (fun x => if x then Ok true else b).
Definition and_then (a b : result bool) : result bool :=
  bind a (fun x => if x then b else Ok false).

(** [type(v).__name__] *)
Definition type_name (v : pyval) : string :=
  match v with
  | VNone => "NoneType"
  | VBool _ => "bool"
  | VInt _ => "int"
  | VFloat _ => "float"
  | VStr _ => "str"
  | VType _ => "InterventionType"
  | VPhase _ => "LearningPhase"
  end.

(** The number a value stands for in arithmetic and ordering, if any
    ([bool] is a subclass of [int]). *)
Definition as_number (v : pyval) : option Q :=
  match v with
  | VBool b => Some (if b then 1%Q else 0%Q)
  | VInt z => Some (inject_Z z)
  | VFloat q => Some q
  | _ => None
  end.

Definition Q_ltb (x y : Q) : bool :=
  match Qcompare x y with
  | Lt => true
  | _ => false
  end.

Definition not_supported (op : string) (a b : pyval) : exn :=
  TypeError ("'" ++ op ++ "' not supported between instances of '"
             ++ type_name a ++ "' and '" ++ type_name b ++ "'").

(** [a < b] *)
Definition lt (a b : pyval) : result bool :=
  match as_number a, as_number b with
  | Some x, Some y => Ok (Q_ltb x y)
  | _, _ =>
      match a, b with
      | VStr s, VStr t => Ok (String.ltb s t)
      | _, _ => Raise (not_supported "<" a b)
      end
  end.

(** [a > b] *)
Definition gt (a b : pyval) : result bool :=
  match as_number a, as_number b with
  | Some x, Some y => Ok (Q_ltb y x)
  | _, _ =>
      match a, b with
      | VStr s, VStr t => Ok (String.ltb t s)
      | _, _ => Raise (not_supported ">" a b)
      end
  end.

(** The integer a value stands for, if it is an [int] or a [bool]. *)
Definition as_int (v : pyval) : option Z :=
  match v with
  | VBool b => Some (if b then 1%Z else 0%Z)
  | VInt z => Some z
  | _ => None
  end.

(** *** Float arithmetic

    The result of a float operation is the exact result rounded to the
    nearest binary64 number, ties to the even mantissa: 53 bits of mantissa,
    and no exponent below -1074 (gradual underflow).  The exponent is not
    bounded above: a result of magnitude 2 ^ 1024 or more, which Python
    returns as [inf], is outside the floats represented here; only the
    conversion of an [int], which raises there, checks that bound. *)

(** The exponent [l] with [2 ^ l <= q < 2 ^ (l + 1)], for [0 < q]. *)
Definition floor_log2 (q : Q) : Z :=
  let l := (Z.log2 (Qnum q) - Z.log2 (Zpos (Qden q)))%Z in
  if Qle_bool (2 ^ l) q then l else (l - 1)%Z.

(** The integer nearest to [q], the even one of the two at a tie. *)
Definition nearest_even (q : Q) : Z :=
  let n := Qfloor q in
  match (q - inject_Z n ?= 1 # 2)%Q with
  | Lt => n
  | Gt => (n + 1)%Z
  | Eq => if Z.even n then n else (n + 1)%Z
  end.

(** [0 < q] rounded to a multiple of the power of two that leaves 53 bits. *)
Definition round_magnitude (q : Q) : Q :=
  let e := Z.max (floor_log2 q - 52) (-1074) in
  (inject_Z (nearest_even (q / 2 ^ e)) * 2 ^ e)%Q.

Definition round64 (q : Q) : Q :=
  let q := Qred q in
  match Qnum q with
  | Z0 => 0%Q
  | Zpos _ => Qred (round_magnitude q)
  | Zneg _ => Qred (- round_magnitude (- q))
  end.

(** The float an [int] operand of a float operation is converted to: the
    nearest one, and an OverflowError when that is beyond the largest. *)
Definition float_of_int (z : Z) : result Q :=
  let r := round64 (inject_Z z) in
  if Qle_bool (2 ^ 1024) (Qabs r)
  then Raise (OverflowError "int too large to convert to float")
  else Ok r.

(** The operand of a float operation as a float, if it is a number. *)
Definition to_float (v : pyval) : option (result Q) :=
  match v with
  | VFloat q => Some (Ok q)
  | _ => option_map float_of_int (as_int v)
  end.

(** [a - b]: the exact [int] when both operands are [int] or [bool];
    otherwise both are converted to [float] and the difference is rounded. *)
Definition sub (a b : pyval) : result pyval :=
  match as_int a, as_int b with
  | Some x, Some y => Ok (VInt (x - y))
  | _, _ =>
      match to_float a, to_float b with
      | Some x, Some y =>
          bind x (fun x => bind y (fun y => Ok (VFloat (round64 (x - y)))))
      | _, _ =>
          Raise (TypeError ("unsupported operand type(s) for -: '"
                            ++ type_name a ++ "' and '" ++ type_name b ++ "'"))
      end
  end.

(** [d.get(k, dflt)] and [d[k]] on a dictionary with string keys. *)
Definition get (d : gmap string pyval) (k : string) (dflt : pyval) : pyval :=
  default dflt (d !! k).

Definition getitem (d : gmap string pyval) (k : string) : result pyval :=
  match d !! k with
  | Some v => Ok v
  | None => Raise (KeyError k)
  end.

(** [max(items, key=lambda x: x[1])]: the first item whose key no later key
    exceeds; the running maximum is replaced only on a strict [>]. *)
Fixpoint max_go {A} (best : A * pyval) (rest : list (A * pyval))
  : result (A * pyval) :=
  match rest with
  | [] => Ok best
  | item :: rest' =>
      bind (gt (snd item) (snd best))
           (fun b => max_go (if b then item else best) rest')
  end.

Definition max_by_key {A} (items : list (A * pyval)) : result (A * pyval) :=
  match items with
  | [] => Raise (ValueError "max() arg is an empty sequence")
  | first :: rest => max_go first rest
  end.

End Py.

Export Py.

#[global] Instance result_bind : MBind result := fun A B k r => Py.bind r k.
#[global] Instance result_ret : MRet result := @Py.Ok.

Declare Scope py_scope.
Infix "|||" := Py.or_else (at level 50, left associativity) : py_scope.
Infix "&&&" := Py.and_then (at level 40, left associativity) : py_scope.
Delimit Scope py_scope with py.
Local Open Scope py_scope.

(** ** Concern identification and urgency grading *)

Definition _identify_primary_concern (emotion_data : gmap string pyval)
  : result string :=
  let concerns : list (string * pyval) := [] in
  (* Check each emotional dimension *)
  fires ← gt (get emotion_data "frustration" (VInt 5)) (VInt 7);
  concerns ← (if fires : bool
              then w ← getitem emotion_data "frustration";
                   Ok (concerns ++ [("high_frustration", w)])%list
              else Ok concerns);
  fires ← gt (get emotion_data "confusion" (VInt 5)) (VInt 7);
  concerns ← (if fires : bool
              then w ← getitem emotion_data "confusion";
                   Ok (concerns ++ [("high_confusion", w)])%list
              else Ok concerns);
  fires ← lt (get emotion_data "engagement" (VInt 5)) (VInt 4);
  concerns ← (if fires : bool
              then v ← getitem emotion_data "engagement";
                   w ← sub (VInt 10) v;
                   Ok (concerns ++ [("low_engagement", w)])%list
              else Ok concerns);
  fires ← lt (get emotion_data "confidence" (VInt 5)) (VInt 4);
  concerns ← (if fires : bool
              then v ← getitem emotion_data "confidence";
                   w ← sub (VInt 10) v;
                   Ok (concerns ++ [("low_confidence", w)])%list
              else Ok concerns);
  (* Return highest priority concern *)
  match concerns with
  | _ :: _ => top ← max_by_key concerns; Ok (fst top)
  | [] =>
      (* Check for optimal state *)
      optimal ← gt (get emotion_data "engagement" (VInt 5)) (VInt 7)
                &&& gt (get emotion_data "confidence" (VInt 5)) (VInt 6)
                &&& lt (get emotion_data "frustration" (VInt 5)) (VInt 4);
      if optimal : bool then Ok "optimal_state" else Ok "neutral_state"
  end.

Definition _calculate_intervention_urgency (emotion_data : gmap string pyval)
  : result string :=
  (* Critical indicators *)
  critical_frustration ← gt (get emotion_data "frustration" (VInt 5)) (VInt 8);
  critical_confusion ← gt (get emotion_data "confusion" (VInt 5)) (VInt 8);
  critical_disengagement ← lt (get emotion_data "engagement" (VInt 5)) (VInt 2);
  if (critical_frustration || critical_confusion || critical_disengagement)%bool
  then Ok "critical"
  else
    (* High priority indicators *)
    high_frustration ← gt (get emotion_data "frustration" (VInt 5)) (VInt 6);
    high_confusion ← gt (get emotion_data "confusion" (VInt 5)) (VInt 6);
    low_engagement ← lt (get emotion_data "engagement" (VInt 5)) (VInt 4);
    if (high_frustration || high_confusion || low_engagement)%bool
    then Ok "high"
    else
      (* Medium priority indicators *)
      moderate_concerns ←
        gt (get emotion_data "frustration" (VInt 5)) (VInt 4)
        ||| gt (get emotion_data "confusion" (VInt 5)) (VInt 5)
        ||| lt (get emotion_data "engagement" (VInt 5)) (VInt 6)
        ||| lt (get emotion_data "confidence" (VInt 5)) (VInt 5);
      if moderate_concerns : bool then Ok "medium" else Ok "low".

(** ** Ordered dictionaries with declaration order, and string helpers *)

(** A dict literal whose iteration order matters is an association list in
    declaration order (the keys of the literals below are distinct). *)
Fixpoint lookup_item {K V} `{EqDecision K} (k : K) (d : list (K * V)) : option V :=
  match d with
  | [] => None
  | (k', v) :: d' => if decide (k = k') then Some v else lookup_item k d'
  end.

(** [list(d.keys())] *)
Definition keys {K V} (d : list (K * V)) : list K := map fst d.

Definition is_lower (c : ascii) : bool :=
  let n := nat_of_ascii c in (Nat.leb 97 n && Nat.leb n 122)%bool.
Definition is_upper (c : ascii) : bool :=
  let n := nat_of_ascii c in (Nat.leb 65 n && Nat.leb n 90)%bool.
Definition to_upper (c : ascii) : ascii :=
  if is_lower c then ascii_of_nat (nat_of_ascii c - 32) else c.
Definition to_lower (c : ascii) : ascii :=
  if is_upper c then ascii_of_nat (nat_of_ascii c + 32) else c.

(** [str.title()] on ASCII text: a letter is upper-cased when it follows a
    character that is not a letter, and lower-cased otherwise. *)
Fixpoint title_from (after_letter : bool) (s : string) : string :=
  match s with
  | EmptyString => EmptyString
  | String c rest =>
      if (is_lower c || is_upper c)%bool
      then String (if after_letter then to_lower c else to_upper c)
                  (title_from true rest)
      else String c (title_from false rest)
  end.
Definition title (s : string) : string := title_from false s.

(** ** The [random] module *)

Module Random.

(** The generator is the sequence of outcomes it is still to produce: one
    entry is consumed by each [_randbelow(n)], reduced into [range(n)]. *)
Definition source : Type := list nat.

Definition randbelow (n : nat) (g : source) : nat * source :=
  match g with
  | [] => (0, [])
  | r :: g' => (r mod n, g')
  end.

(** [random.choice(seq)] is [seq[_randbelow(len(seq))]]. *)
Definition choice {A} (seq : list A) (g : source) : result (A * source) :=
  let '(i, g') := randbelow (length seq) g in
  match seq !! i with
  | Some x => Ok (x, g')
  | None => Raise (IndexError "Cannot choose from an empty sequence")
  end.

(** The loop of [random.sample] over a copy of the population (the branch
    taken for populations of at most 21 elements): at round [i] the element
    at a drawn index below [n - i] is selected and its slot is refilled
    with the last element not yet selected. *)
Fixpoint sample_rounds {A} (pool : list A) (n i rounds : nat) (g : source)
  : result (list A * source) :=
  match rounds with
  | O => Ok ([], g)
  | S rounds' =>
      let '(j, g') := randbelow (n - i) g in
      match pool !! j, pool !! (n - i - 1) with
      | Some x, Some y =>
          match sample_rounds (<[j := y]> pool) n (S i) rounds' g' with
          | Ok (rest, g'') => Ok (x :: rest, g'')
          | Raise e => Raise e
          end
      | _, _ => Raise (IndexError "list index out of range")
      end
  end.

Definition sample {A} (population : list A) (k : nat) (g : source)
  : result (list A * source) :=
  let n := length population in
  if Nat.ltb n k
  then Raise (ValueError "Sample larger than population or is negative")
  else sample_rounds population n 0 k g.

End Random.

(** ** The knowledge tables of [InterventionEngine.__init__] *)

Definition intervention_strategies
  : list (string * list (InterventionType * list string)) :=
  [
    ("high_frustration",
     [
      (IMMEDIATE,
        ["Take a 5-minute mindful breathing break";
         "Step away and do light physical activity";
         "Switch to a completely different subject for 10 minutes";
         "Talk through the problem out loud or with someone"]);
      (ADAPTIVE,
        ["Break the current problem into smaller, manageable steps";
         "Use visual aids or diagrams to represent the concept";
         "Find real-world analogies that relate to your experience";
         "Try working backwards from the solution"]);
      (SUPPORTIVE,
        ["Access additional examples of similar problems";
         "Watch explanatory videos on the topic";
         "Join a study group or find a learning partner";
         "Schedule time with a tutor or instructor"])
     ]);
    ("high_confusion",
     [
      (COGNITIVE,
        ["Create a concept map to organize related ideas";
         "Write a summary of what you do understand so far";
         "Identify specific points of confusion to focus on";
         "Use the 'explain it to a 5-year-old' technique"]);
      (ADAPTIVE,
        ["Return to prerequisite concepts and review";
         "Approach the topic from a different angle or method";
         "Use multiple learning modalities (visual, audio, kinesthetic)";
         "Practice with easier examples before tackling hard ones"]);
      (SUPPORTIVE,
        ["Seek clarification on confusing terminology";
         "Find additional resources with different explanations";
         "Ask specific questions rather than 'I don't get it'";
         "Work with examples that build complexity gradually"])
     ]);
    ("low_engagement",
     [
      (MOTIVATIONAL,
        ["Connect the material to your personal interests or goals";
         "Set small, achievable milestones with rewards";
         "Find the 'why' behind what you're learning";
         "Challenge yourself with a fun, related puzzle"]);
      (ADAPTIVE,
        ["Switch to more interactive learning methods";
         "Incorporate gamification or competition elements";
         "Use multimedia content (videos, podcasts, apps)";
         "Apply learning through hands-on projects"]);
      (SUPPORTIVE,
        ["Study with peers or in a group setting";
         "Change your learning environment for freshness";
         "Set shorter study sessions with clear objectives";
         "Track progress visually to see improvement"])
     ]);
    ("low_confidence",
     [
      (MOTIVATIONAL,
        ["Review recent successes and progress made";
         "Start with easier problems to build momentum";
         "Focus on effort and improvement rather than perfection";
         "Remind yourself that struggle is part of learning"]);
      (SUPPORTIVE,
        ["Practice positive self-talk and growth mindset";
         "Break challenges into very small, manageable pieces";
         "Celebrate small wins and incremental progress";
         "Seek encouragement from mentors or study partners"]);
      (ADAPTIVE,
        ["Use scaffolding techniques with guided practice";
         "Work with templates or structured approaches";
         "Practice similar problems before trying new ones";
         "Build confidence with mastery-based learning"])
     ]);
    ("optimal_state",
     [
      (ADAPTIVE,
        ["Increase challenge level to maintain optimal difficulty";
         "Explore advanced applications of current concepts";
         "Teach the concept to someone else to deepen understanding";
         "Connect current learning to broader knowledge network"]);
      (SUPPORTIVE,
        ["Document insights and breakthrough moments";
         "Apply learning to creative or novel problems";
         "Explore related topics that spark curiosity";
         "Prepare to help others who might be struggling"])
     ])
  ].

(** Context-specific modifications based on learning phase (no function of
    the engine reads this table). *)
Definition phase_modifiers : list (LearningPhase * list (string * string)) :=
  [ (INTRODUCTION,
     [("focus", "building foundation");
      ("patience_level", "high");
      ("complexity_reduction", "maximum")]);
    (PRACTICE,
     [("focus", "skill development");
      ("patience_level", "medium");
      ("complexity_reduction", "moderate")]);
    (APPLICATION,
     [("focus", "real-world connection");
      ("patience_level", "medium");
      ("complexity_reduction", "minimal")]);
    (ASSESSMENT,
     [("focus", "performance optimization");
      ("patience_level", "low");
      ("complexity_reduction", "none")]) ].

(** ** Strategy selection *)

Module Iv.
(** The dictionary returned by [_generate_interventions]. *)
Record t : Type := Build {
  type : pyval;
  actions : list string;
  explanation : string;
  success_indicators : list string
}.
End Iv.

Definition _generate_intervention_explanation
    (concern : string) (intervention_type : InterventionType) (urgency : string)
  : string :=
  let explanations :=
    [ ("high_frustration",
       "Student showing signs of learning frustration. "
       ++ title (value intervention_type)
       ++ " intervention needed to prevent negative learning spiral.");
      ("high_confusion",
       "Cognitive confusion detected. "
       ++ title (value intervention_type)
       ++ " support will help clarify concepts and reduce cognitive load.");
      ("low_engagement",
       "Engagement levels below optimal range. "
       ++ title (value intervention_type)
       ++ " strategies will help re-energize learning process.");
      ("low_confidence",
       "Confidence indicators suggest student needs encouragement. "
       ++ title (value intervention_type)
       ++ " approach will build self-efficacy.");
      ("optimal_state",
       "Student in excellent learning state. "
       ++ title (value intervention_type)
       ++ " enhancement will maximize learning potential.") ] in
  default ("Emotional state analysis suggests " ++ value intervention_type
           ++ " intervention would be beneficial.")
          (lookup_item concern explanations).

Definition _define_success_indicators (concern : string) : list string :=
  let indicators :=
  [    ("high_frustration",
     ["Decreased facial tension and more relaxed posture";
      "Renewed willingness to attempt problems";
      "Improved emotional regulation"]);
    ("high_confusion",
     ["Clearer understanding demonstrated through questions";
      "Improved accuracy on practice problems";
      "More confident body language"]);
    ("low_engagement",
     ["Increased attention and focus on materials";
      "Active participation in learning activities";
      "Positive emotional responses to content"]);
    ("low_confidence",
     ["Improved posture and self-assured behavior";
      "Willingness to attempt challenging problems";
      "Positive self-statements about ability"])
  ] in
  default ["Improved overall emotional state"; "Better learning engagement"]
          (lookup_item concern indicators).

Definition _generate_interventions
    (primary_concern urgency : string) (phase : pyval) (g : Random.source)
  : result (Iv.t * Random.source) :=
  match lookup_item primary_concern intervention_strategies with
  | None =>
      Ok ({| Iv.type := VType SUPPORTIVE;
             Iv.actions := ["Continue monitoring student progress"];
             Iv.explanation := "No specific intervention needed at this time";
             Iv.success_indicators := ["Maintained engagement"; "Steady progress"] |},
          g)
  | Some strategies =>
      (* Select intervention type based on urgency *)
      '(intervention_type, g) ←
        (if decide (urgency = "critical") then Ok (IMMEDIATE, g)
         else if decide (urgency = "high")
              then Random.choice [IMMEDIATE; ADAPTIVE] g
         else if decide (urgency = "medium")
              then Random.choice [ADAPTIVE; SUPPORTIVE] g
         else Ok (SUPPORTIVE, g));
      (* Get actions for this intervention type *)
      '(intervention_type, actions) ←
        match lookup_item intervention_type strategies with
        | Some acts => Ok (intervention_type, acts)
        | None =>
            (* Fall back to any available strategy *)
            let available_types := keys strategies in
            match available_types !! 0%nat with
            | None => Raise (IndexError "list index out of range")
            | Some first_type =>
                match lookup_item first_type strategies with
                | Some acts => Ok (first_type, acts)
                | None => Raise (KeyError (value first_type))
                end
            end
        end;
      (* Randomize action selection *)
      '(selected_actions, g) ←
        Random.sample actions (Nat.min 2 (length actions)) g;
      let explanation :=
        _generate_intervention_explanation primary_concern intervention_type urgency in
      let success_indicators := _define_success_indicators primary_concern in
      Ok ({| Iv.type := VType intervention_type;
             Iv.actions := selected_actions;
             Iv.explanation := explanation;
             Iv.success_indicators := success_indicators |},
          g)
  end.

(** ** Timing *)

Record Timing : Type := {
  when : string;
  duration : string;
  frequency : string
}.

Definition timing_map : list (string * Timing) :=
  [ ("critical",
     {| when := "immediately";
        duration := "5-10 minutes";
        frequency := "as needed" |});
    ("high",
     {| when := "within next 2-3 minutes";
        duration := "3-5 minutes";
        frequency := "monitor every 5 minutes" |});
    ("medium",
     {| when := "at next natural break";
        duration := "2-3 minutes";
        frequency := "check every 10 minutes" |});
    ("low",
     {| when := "end of current activity";
        duration := "1-2 minutes";
        frequency := "monitor every 15 minutes" |}) ].

(** [timing_map.get(urgency, timing_map['medium'])]: the default argument is
    evaluated before the lookup. *)
Definition timing_map_get (urgency : string) : result Timing :=
  fallback ← match lookup_item "medium" timing_map with
             | Some row => Ok row
             | None => Raise (KeyError "medium")
             end;
  Ok (default fallback (lookup_item urgency timing_map)).

Definition _calculate_intervention_timing
    (emotion_data : gmap string pyval)
    (learning_context : option (gmap string pyval))
  : result Timing :=
  urgency ← _calculate_intervention_urgency emotion_data;
  timing_map_get urgency.

(** ** Outcome estimation *)

(** The integer nearest to [m * 2 ^ e], halves going to the even neighbour. *)
Definition round_half_even (m e : Z) : Z :=
  if (0 <=? e)%Z then (m * 2 ^ e)%Z
  else
    let d := (2 ^ (- e))%Z in
    let q := (m / d)%Z in
    match (2 * (m mod d) ?= d)%Z with
    | Lt => q
    | Gt => (q + 1)%Z
    | Eq => if Z.even q then q else (q + 1)%Z
    end.

(** [format(x, ".0f")] on a binary64 float. *)
Definition format_0f (x : float) : string :=
  match Prim2SF x with
  | S754_nan => "nan"
  | S754_infinity sign => if sign then "-inf" else "inf"
  | S754_zero sign => if sign then "-0" else "0"
  | S754_finite sign m e =>
      (if sign then "-" else "")
      ++ NilZero.string_of_uint (N.to_uint (Z.to_N (round_half_even (Z.pos m) e)))
  end.

Record Outcome : Type := {
  likelihood_of_success : string;
  expected_timeframe : string;
  confidence_level : string
}.

(** Predict improvement based on intervention type *)
Definition improvement_factors : list (InterventionType * float) :=
  [ (IMMEDIATE, 0.8%float);      (* High immediate impact *)
    (ADAPTIVE, 0.6%float);       (* Moderate sustained impact *)
    (SUPPORTIVE, 0.4%float);     (* Gradual improvement *)
    (MOTIVATIONAL, 0.7%float);   (* Good emotional boost *)
    (COGNITIVE, 0.5%float) ].    (* Steady understanding improvement *)

(** [improvement_factors.get(interventions['type'], 0.5)]: a member of an
    enumeration equals only itself, so a key that is not an
    [InterventionType] finds no entry. *)
Definition predicted_improvement (interventions : Iv.t) : float :=
  let intervention_type := Iv.type interventions in
  default 0.5%float
    (match intervention_type with
     | VType t => lookup_item t improvement_factors
     | _ => None
     end).

Definition _predict_intervention_outcome
    (emotion_data : gmap string pyval) (interventions : Iv.t) : Outcome :=
  let current_state := get emotion_data "overall_wellbeing" (VInt 0) in
  let predicted_improvement := predicted_improvement interventions in
  {| likelihood_of_success :=
       format_0f (PrimFloat.mul predicted_improvement 100%float) ++ "%";
     expected_timeframe := "5-15 minutes";
     confidence_level :=
       if PrimFloat.ltb 0.5%float predicted_improvement
       then "moderate" else "low" |}.

(** ** Orchestration *)

Record Recommendation : Type := {
  primary_concern : string;
  urgency_level : string;
  intervention_type : pyval;
  recommended_actions : list string;
  timing : Timing;
  explanation : string;
  success_indicators : list string;
  learning_phase : pyval;
  predicted_outcome : Outcome
}.

(** The truth value of an optional dictionary: [None] and the empty
    dictionary are false. *)
Definition truthy (d : option (gmap string pyval)) : bool :=
  match d with
  | None => false
  | Some m => negb (Nat.eqb (size m) 0)
  end.

Definition analyze_intervention_need
    (emotion_data : gmap string pyval)
    (learning_context : option (gmap string pyval))
    (g : Random.source)
  : result (Recommendation * Random.source) :=
  (* Extract key emotional indicators *)
  let frustration := get emotion_data "frustration" (VInt 5) in
  let confusion := get emotion_data "confusion" (VInt 5) in
  let engagement := get emotion_data "engagement" (VInt 5) in
  let confidence := get emotion_data "confidence" (VInt 5) in
  let excitement := get emotion_data "excitement" (VInt 5) in
  (* Determine primary emotional concern *)
  primary_concern ← _identify_primary_concern emotion_data;
  (* Determine intervention urgency *)
  urgency ← _calculate_intervention_urgency emotion_data;
  (* Get learning phase context *)
  let current_phase :=
    if truthy learning_context
    then get (default ∅ learning_context) "phase" (VPhase PRACTICE)
    else VPhase PRACTICE in
  (* Generate specific interventions *)
  '(interventions, g) ←
    _generate_interventions primary_concern urgency current_phase g;
  (* Calculate optimal intervention timing *)
  timing ← _calculate_intervention_timing emotion_data learning_context;
  Ok ({| primary_concern := primary_concern;
         urgency_level := urgency;
         intervention_type := Iv.type interventions;
         recommended_actions := Iv.actions interventions;
         timing := timing;
         explanation := Iv.explanation interventions;
         success_indicators := Iv.success_indicators interventions;
         learning_phase := current_phase;
         predicted_outcome :=
           _predict_intervention_outcome emotion_data interventions |},
      g).

(** * The emotion detector: validation of a reading

    [src/emotion_detector.py], the two methods of [LearningEmotionDetector]
    that build the mapping the engine reads. *)

Module Detector.

Definition dquote : string := String (ascii_of_nat 34) EmptyString.

(** [a + b]: the exact [int] when both operands are [int] or [bool]; the
    rounded sum of the two operands converted to [float] when both are
    numbers; the concatenation of two strings. *)
Definition add (a b : pyval) : result pyval :=
  match as_int a, as_int b with
  | Some x, Some y => Ok (VInt (x + y))
  | _, _ =>
      match to_float a, to_float b with
      | Some x, Some y => x ← x; y ← y; Ok (VFloat (round64 (x + y)))
      | _, _ =>
          match a, b with
          | VStr s, VStr t => Ok (VStr (s ++ t))
          | VStr _, _ =>
              Raise (TypeError ("can only concatenate str (not " ++ dquote
                                ++ type_name b ++ dquote ++ ") to str"))
          | _, _ =>
              Raise (TypeError ("unsupported operand type(s) for +: '"
                                ++ type_name a ++ "' and '" ++ type_name b
                                ++ "'"))
          end
      end
  end.

(** [a / y] for a float literal [y] other than zero: the rounded quotient
    of [a] converted to [float]. *)
Definition truediv_float (a : pyval) (y : Q) : result pyval :=
  match to_float a with
  | Some x => x ← x; Ok (VFloat (round64 (x / y)))
  | None =>
      Raise (TypeError ("unsupported operand type(s) for /: '"
                        ++ type_name a ++ "' and 'float'"))
  end.

(** Ensure all required fields exist with defaults *)
Definition required_fields : list (string * pyval) :=
  [ ("frustration", VFloat 5);
    ("confusion", VFloat 5);
    ("engagement", VFloat 5);
    ("excitement", VFloat 5);
    ("confidence", VFloat 5);
    ("intervention_needed", VBool false);
    ("suggested_action", VStr "Continue monitoring");
    ("emotional_state", VStr "neutral");
    ("learning_readiness", VFloat 5) ].

(** The loop [for field, default in required_fields.items()]. *)
Definition fill_required (emotion_data : gmap string pyval)
  : gmap string pyval :=
  fold_left
    (fun d '(field, dflt) =>
       match d !! field with
       | None => <[field := dflt]> d
       | Some _ => d
       end)
    required_fields emotion_data.

(** The mapping is updated in place and returned; the result below is that
    mapping after the call. *)
Definition _validate_and_enhance_emotions (emotion_data : gmap string pyval)
  : result (gmap string pyval) :=
  let emotion_data := fill_required emotion_data in
  (* Calculate composite learning metrics *)
  engagement ← getitem emotion_data "engagement";
  confidence ← getitem emotion_data "confidence";
  total ← add engagement confidence;
  excitement ← getitem emotion_data "excitement";
  total ← add total excitement;
  frustration ← getitem emotion_data "frustration";
  total ← sub total frustration;
  confusion ← getitem emotion_data "confusion";
  total ← sub total confusion;
  overall_wellbeing ← truediv_float total 5;
  let emotion_data := <["overall_wellbeing" := overall_wellbeing]> emotion_data in
  (* Determine intervention priority *)
  high_frustration ← (v ← getitem emotion_data "frustration"; gt v (VInt 7));
  high_confusion ← (v ← getitem emotion_data "confusion"; gt v (VInt 8));
  low_engagement ← (v ← getitem emotion_data "engagement"; lt v (VInt 3));
  if (high_frustration || high_confusion || low_engagement)%bool
  then
    let emotion_data := <["intervention_needed" := VBool true]> emotion_data in
    Ok (<["intervention_priority" := VStr "high"]> emotion_data)
  else
    moderate ← (v ← getitem emotion_data "frustration"; gt v (VInt 5))
               ||| (v ← getitem emotion_data "confusion"; gt v (VInt 6));
    if moderate : bool
    then Ok (<["intervention_priority" := VStr "medium"]> emotion_data)
    else Ok (<["intervention_priority" := VStr "low"]> emotion_data).

(** Return neutral emotions when detection fails. *)
Definition _get_fallback_emotions : gmap string pyval :=
  list_to_map
    [ ("frustration", VFloat 5);
      ("confusion", VFloat 5);
      ("engagement", VFloat 5);
      ("excitement", VFloat 5);
      ("confidence", VFloat 5);
      ("intervention_needed", VBool false);
      ("suggested_action",
       VStr "Unable to analyze - please ensure clear image");
      ("emotional_state", VStr "unknown");
      ("learning_readiness", VFloat 5);
      ("overall_wellbeing", VFloat 0);
      ("intervention_priority", VStr "low") ].

End Detector.

(** * The visualizer: session history and learning insights

    [src/emotion_visualizer.py]: the two session functions and
    [EmotionVisualizer.render_learning_insights].  What Streamlit is asked to
    show is the list of the calls made, each with the container it is made
    in. *)

Module Visualizer.

(** A value of a stored reading: a value of the reading itself, or the
    [datetime] entered under "timestamp" (as a point on a time line). *)
Inductive entry : Type :=
| Value (v : pyval)
| Datetime (t : Z).

(** The two attributes of [st.session_state] the module uses; [None] is an
    attribute that does not exist. *)
Record session_state : Type := {
  emotion_history : option (list (gmap string entry));
  session_start_time : option Z
}.

(** [now] is what [datetime.now()] returns in the call. *)
Definition initialize_emotion_session (now : Z) (st : session_state)
  : session_state :=
  let st :=
    match emotion_history st with
    | None => {| emotion_history := Some [];
                 session_start_time := session_start_time st |}
    | Some _ => st
    end in
  match session_start_time st with
  | None => {| emotion_history := emotion_history st;
               session_start_time := Some now |}
  | Some _ => st
  end.

(** [None] stands for the AttributeError of a session that has no
    [emotion_history]. *)
Definition add_emotion_reading (now : Z) (emotion_data : gmap string pyval)
    (st : session_state) : option session_state :=
  let emotion_data_with_time : gmap string entry := Value <$> emotion_data in
  let emotion_data_with_time :=
    <["timestamp" := Datetime now]> emotion_data_with_time in
  match emotion_history st with
  | None => None
  | Some history =>
      let history := (history ++ [emotion_data_with_time])%list in
      (* Keep only last 20 readings to prevent memory issues *)
      let history :=
        if Nat.ltb 20 (length history)
        then drop (length history - 20) history
        else history in
      Some {| emotion_history := Some history;
              session_start_time := session_start_time st |}
  end.

(** The calls to Streamlit and where they render. *)
Inductive container : Type := Page | Column (i : nat).

Inductive st_call : Type :=
| markdown (body : string)
| success (body : string)
| info (body : string)
| error (body : string)
| write (body : string).

(** The calls made, in order, and how the method ends: it returns [None], or
    a comparison raises after the calls before it were made. *)
Definition render_learning_insights (emotion_data : gmap string pyval)
  : list (container * st_call) * result unit :=
  let shown := [(Page, markdown "### 🧠 Learning Insights")] in
  (* col1, col2 = st.columns(2); with col1: *)
  let shown :=
    (shown ++ [(Column 0, markdown "**Current Learning State:**")])%list in
  (* Determine learning phase based on emotions *)
  match
    (high_confusion ← gt (get emotion_data "confusion" (VInt 5)) (VInt 7);
     high_engagement ← gt (get emotion_data "engagement" (VInt 5)) (VInt 7);
     high_excitement ← gt (get emotion_data "excitement" (VInt 5)) (VInt 7);
     high_frustration ← gt (get emotion_data "frustration" (VInt 5)) (VInt 7);
     Ok (high_confusion, high_engagement, high_excitement, high_frustration))
  with
  | Raise exc => (shown, Raise exc)
  | Ok (high_confusion, high_engagement, high_excitement, high_frustration) =>
      let state :=
        if (high_excitement && high_engagement)%bool
        then success "🎉 **Discovery Mode** - Student having breakthrough moments!"
        else if (high_confusion && high_engagement)%bool
        then info "🤔 **Deep Processing** - Student actively working through challenges"
        else if high_frustration : bool
        then error "😤 **Struggle Phase** - Student needs support or break"
        else if high_engagement : bool
        then success "🎯 **Flow State** - Optimal learning conditions"
        else info "😐 **Neutral State** - Standard learning progress" in
      let shown := (shown ++ [(Column 0, state)])%list in
      (* with col2: *)
      let shown :=
        (shown ++ [(Column 1, markdown "**Recommendations:**")])%list in
      match
        (let recommendations : list string := [] in
         low ← lt (get emotion_data "engagement" (VInt 5)) (VInt 4);
         let recommendations :=
           if low : bool
           then (recommendations
                 ++ ["🎮 Add interactive elements to boost engagement"])%list
           else recommendations in
         high ← gt (get emotion_data "confusion" (VInt 5)) (VInt 7);
         let recommendations :=
           if high : bool
           then (recommendations
                 ++ ["📚 Provide additional examples or simpler explanations"])%list
           else recommendations in
         high ← gt (get emotion_data "frustration" (VInt 5)) (VInt 6);
         let recommendations :=
           if high : bool
           then (recommendations
                 ++ ["☕ Suggest a short break or change of activity"])%list
           else recommendations in
         low ← lt (get emotion_data "confidence" (VInt 5)) (VInt 4);
         let recommendations :=
           if low : bool
           then (recommendations
                 ++ ["💪 Offer encouragement and celebrate small wins"])%list
           else recommendations in
         let recommendations :=
           match recommendations with
           | [] => ["✅ Continue current approach - student doing well!"]
           | _ :: _ => recommendations
           end in
         Ok recommendations)
      with
      | Raise exc => (shown, Raise exc)
      | Ok recommendations =>
          (* Show top 3 recommendations *)
          ((shown
            ++ map (fun rec => (Column 1, write ("• " ++ rec)))
                   (take 3 recommendations))%list,
           Ok tt)
      end
  end.

End Visualizer.

(** * Vocabulary of the properties *)

(** The number a score field stands for: the value stored under the key, or
    the neutral 5 when the key is absent; [None] when the stored value is not
    a number. *)
Definition score (d : gmap string pyval) (k : string) : option Q :=
  match d !! k with
  | None => Some 5%Q
  | Some v => as_number v
  end.

(** The four fields the engine compares hold numbers [f], [c], [e], [k]. *)
Record scores (d : gmap string pyval) (f c e k : Q) : Prop := {
  frustration_is : score d "frustration" = Some f;
  confusion_is : score d "confusion" = Some c;
  engagement_is : score d "engagement" = Some e;
  confidence_is : score d "confidence" = Some k
}.

(** The ladder of urgency levels on the numbers read, first match wins. *)
Definition critical_rung (f c e : Q) : Prop := (8 < f \/ 8 < c \/ e < 2)%Q.
Definition high_rung (f c e : Q) : Prop := (6 < f \/ 6 < c \/ e < 4)%Q.
Definition medium_rung (f c e k : Q) : Prop :=
  (4 < f \/ 5 < c \/ e < 6 \/ k < 5)%Q.

(** The position of a level in the order low < medium < high < critical. *)
Definition urgency_rank (u : string) : option nat :=
  if decide (u = "low") then Some 0%nat
  else if decide (u = "medium") then Some 1%nat
  else if decide (u = "high") then Some 2%nat
  else if decide (u = "critical") then Some 3%nat
  else None.

(** The field holds a [float]. *)
Definition float_at (d : gmap string pyval) (key : string) : bool :=
  match d !! key with
  | Some (VFloat _) => true
  | _ => false
  end.

(** The weight [10 - s] of a low score [s], [q] being the number read under
    the field: the difference itself where the field holds an [int] or a
    [bool], and the binary64 number nearest to it where the field holds a
    [float], which is what float subtraction returns. *)
Definition low_weight (d : gmap string pyval) (key : string) (q : Q) : Q :=
  if float_at d key then round64 (10 - q) else (10 - q)%Q.

(** The distress predicates that fire on the numbers read, in evaluation
    order, each with its weight. *)
Definition distress_candidates (d : gmap string pyval) (f c e k : Q)
  : list (string * Q) :=
  ((if Qlt_le_dec 7 f then [("high_frustration", f)] else [])
   ++ (if Qlt_le_dec 7 c then [("high_confusion", c)] else [])
   ++ (if Qlt_le_dec e 4
       then [("low_engagement", low_weight d "engagement" e)] else [])
   ++ (if Qlt_le_dec k 4
       then [("low_confidence", low_weight d "confidence" k)] else []))%list.

(** The optimal-state predicate on the numbers read. *)
Definition optimal_state (f e k : Q) : Prop := (7 < e /\ 6 < k /\ f < 4)%Q.

(** [cands !! i] carries [name] and is the first entry of maximal weight. *)
Definition first_maximum (cands : list (string * Q)) (i : nat) (name : string)
  : Prop :=
  exists w,
    cands !! i = Some (name, w)
    /\ forall j name' w',
         cands !! j = Some (name', w') ->
         (w' <= w)%Q /\ ((j < i)%nat -> (w' < w)%Q).

(** An entry of the list [concerns] built by the code against the candidate
    it stands for: same name, same weight as a number. *)
Definition same_candidate (item : string * pyval) (cand : string * Q) : Prop :=
  fst item = fst cand
  /\ exists q, as_number (snd item) = Some q /\ (q == snd cand)%Q.

(** The score mappings of the worked examples. *)
Definition example_critical : gmap string pyval :=
  <["frustration" := VInt 9]> (<["confusion" := VInt 2]>
  (<["engagement" := VInt 6]> (<["confidence" := VInt 6]> ∅))).

Definition example_optimal : gmap string pyval :=
  <["frustration" := VInt 3]> (<["confusion" := VInt 3]>
  (<["engagement" := VInt 8]> (<["confidence" := VInt 7]> ∅))).

(** Confusion and disengagement tie at weight 9, above frustration at 8. *)
Definition example_tie : gmap string pyval :=
  <["frustration" := VInt 8]> (<["confusion" := VInt 9]>
  (<["engagement" := VInt 1]> (<["confidence" := VFloat 6.5]> ∅))).

(** The rational a finite binary64 number stands for (0 for a zero, and for
    the infinities and NaN, which are not used). *)
Definition of_float (x : float) : Q :=
  match Prim2SF x with
  | S754_finite s m e =>
      Qred ((if s then -1 else 1) * inject_Z (Zpos m) * 2 ^ e)
  | _ => 0%Q
  end.

(** The float scores 7.1 and 2.9: the float 2.9 lies below the decimal, the
    exact difference from 10 lies above the float 7.1, and the difference as
    a float is the float 7.1. *)
Definition example_rounded_tie : gmap string pyval :=
  <["frustration" := VFloat (of_float 7.1)]>
    (<["engagement" := VFloat (of_float 2.9)]> ∅).

(** The type tried first for an urgency level, [draw] being the outcome of
    the generator in [range(2)]. *)
Definition candidate_type (urgency : string) (draw : nat) : InterventionType :=
  if decide (urgency = "critical") then IMMEDIATE
  else if decide (urgency = "high") then nth draw [IMMEDIATE; ADAPTIVE] IMMEDIATE
  else if decide (urgency = "medium") then nth draw [ADAPTIVE; SUPPORTIVE] ADAPTIVE
  else SUPPORTIVE.

(** The candidate itself when the concern's entry declares it, the first
    declared type of the entry otherwise. *)
Definition resolve_type (strategies : list (InterventionType * list string))
    (candidate : InterventionType) : InterventionType :=
  match lookup_item candidate strategies with
  | Some _ => candidate
  | None => hd candidate (keys strategies)
  end.

(** The result for a concern without catalog entry. *)
Definition passive_recommendation : Iv.t :=
  {| Iv.type := VType SUPPORTIVE;
     Iv.actions := ["Continue monitoring student progress"];
     Iv.explanation := "No specific intervention needed at this time";
     Iv.success_indicators := ["Maintained engagement"; "Steady progress"] |}.

(** The six concerns, the four urgency levels, the fields compared by the
    engine and the score fields of an emotion reading. *)
Definition concerns : list string :=
  ["high_frustration"; "high_confusion"; "low_engagement"; "low_confidence";
   "optimal_state"; "neutral_state"].

Definition urgency_levels : list string := ["critical"; "high"; "medium"; "low"].

(** An interventions dictionary of which only the type matters. *)
Definition with_type (v : pyval) : Iv.t :=
  {| Iv.type := v; Iv.actions := []; Iv.explanation := "";
     Iv.success_indicators := [] |}.

(** A field read the same way in two mappings: same entry, or absent in the
    first and the neutral 5 in the second. *)
Definition same_reading (d d' : gmap string pyval) (s : string) : Prop :=
  d' !! s = d !! s \/ (d !! s = None /\ d' !! s = Some (VInt 5)).

Definition compared_fields : list string :=
  ["frustration"; "confusion"; "engagement"; "confidence"].

Definition score_fields : list string :=
  ["frustration"; "confusion"; "engagement"; "excitement"; "confidence";
   "learning_readiness"].

(** The analysis of the first worked example under the draws 7, 4, 1. *)
Definition example_analysis : result (Recommendation * Random.source) :=
  Eval vm_compute in
    analyze_intervention_need example_critical None [7; 4; 1]%nat.

(** The mapping stores under [s] a value that is not a number. *)
Definition non_numeric_at (d : gmap string pyval) (s : string) : Prop :=
  exists v, d !! s = Some v /\ as_number v = None.

(** The text an exception carries. *)
Definition message (e : exn) : string :=
  match e with
  | TypeError msg | KeyError msg | IndexError msg | ValueError msg
  | OverflowError msg => msg
  end.

(** Readings with a text where a number is expected. *)
Definition example_text_excitement : gmap string pyval :=
  <["excitement" := VStr "high"]> example_optimal.

Definition example_text_frustration : gmap string pyval :=
  <["frustration" := VStr "high"]> example_optimal.

(** ** Vocabulary of the further properties *)

(** The generator after the choice of the candidate type: one outcome is
    taken for the levels that choose between two candidates. *)
Definition after_choice (urgency : string) (g : Random.source) : Random.source :=
  if decide (urgency = "critical") then g
  else if decide (urgency = "high") then drop 1 g
  else if decide (urgency = "medium") then drop 1 g
  else g.

(** The conditions under which each distress concern is the one returned: its
    predicate fires, no concern evaluated earlier weighs as much, and no
    concern evaluated later weighs more. *)
Definition frustration_first (f c e k we wk : Q) : Prop :=
  (7 < f /\ (7 < c -> c <= f) /\ (e < 4 -> we <= f)
   /\ (k < 4 -> wk <= f))%Q.
Definition confusion_first (f c e k we wk : Q) : Prop :=
  (7 < c /\ (7 < f -> f < c) /\ (e < 4 -> we <= c)
   /\ (k < 4 -> wk <= c))%Q.
Definition engagement_first (f c e k we wk : Q) : Prop :=
  (e < 4 /\ (7 < f -> f < we) /\ (7 < c -> c < we)
   /\ (k < 4 -> wk <= we))%Q.
Definition confidence_first (f c e k we wk : Q) : Prop :=
  (k < 4 /\ (7 < f -> f < wk) /\ (7 < c -> c < wk)
   /\ (e < 4 -> we < wk))%Q.

(** The compared fields other than [own] hold in [d'] what they hold in
    [d]. *)
Definition others_kept (d d' : gmap string pyval) (own : string) : Prop :=
  forall s, In s compared_fields -> s <> own -> d' !! s = d !! s.

Definition distress_concerns : list string :=
  ["high_frustration"; "high_confusion"; "low_engagement"; "low_confidence"].

(** The type a critical reading is answered with: "immediate" is declared for
    "high_frustration" only, the other entries fall back to their first
    type. *)
Definition critical_type (concern : string) : InterventionType :=
  if decide (concern = "high_frustration") then IMMEDIATE
  else if decide (concern = "high_confusion") then COGNITIVE
  else MOTIVATIONAL.

(** The learning phase a context stands for. *)
Definition context_phase (learning_context : option (gmap string pyval))
  : pyval :=
  match learning_context with
  | Some m => default (VPhase PRACTICE) (m !! "phase")
  | None => VPhase PRACTICE
  end.

Definition with_learning_phase (r : Recommendation) (p : pyval)
  : Recommendation :=
  {| primary_concern := primary_concern r;
     urgency_level := urgency_level r;
     intervention_type := intervention_type r;
     recommended_actions := recommended_actions r;
     timing := timing r;
     explanation := explanation r;
     success_indicators := success_indicators r;
     learning_phase := p;
     predicted_outcome := predicted_outcome r |}.

(** The number of outcomes strategy selection takes: none without catalog
    entry, otherwise two for the actions and one more where the type is chosen
    between two candidates. *)
Definition draws_taken (concern urgency : string) : nat :=
  match lookup_item concern intervention_strategies with
  | None => 0
  | Some _ =>
      if decide (urgency = "high") then 3
      else if decide (urgency = "medium") then 3
      else 2
  end.

(** A reading as the vision model may return it, with the readiness and the
    state left out. *)
Definition example_reading : gmap string pyval :=
  <["frustration" := VInt 8]> (<["confusion" := VInt 4]>
  (<["engagement" := VFloat 2.5]> (<["excitement" := VInt 3]>
  (<["confidence" := VInt 5]>
  (<["intervention_needed" := VBool false]> ∅))))).

(** The five emotion scores of a reading hold numbers (an absent one counts
    as the default 5). *)
Record emotions (d : gmap string pyval) (f c e x k : Q) : Prop := {
  emotion_frustration : score d "frustration" = Some f;
  emotion_confusion : score d "confusion" = Some c;
  emotion_engagement : score d "engagement" = Some e;
  emotion_excitement : score d "excitement" = Some x;
  emotion_confidence : score d "confidence" = Some k
}.

Definition emotion_fields : list string :=
  ["frustration"; "confusion"; "engagement"; "excitement"; "confidence"].

(** The entries validation computes itself. *)
Definition computed_fields : list string :=
  ["overall_wellbeing"; "intervention_priority"; "intervention_needed"].

(** Scores well inside the range of floats: no sum of five of them, nor an
    [int] among them converted to [float], leaves it. *)
Definition score_bound : Z := 10 ^ 300.

Definition in_range (q : Q) : Prop := (Qabs q <= inject_Z score_bound)%Q.

(** An [int] or [bool] value is of magnitude at most [M]. *)
Definition int_within (M : Z) (v : pyval) : Prop :=
  forall z, as_int v = Some z -> (Z.abs z <= M)%Z.

(** The mapping validation leaves for a reading with numeric emotions. *)
Definition validated (d : gmap string pyval) (w : Q) (f c e : Q)
  : gmap string pyval :=
  let d1 := <["overall_wellbeing" := VFloat w]> (Detector.fill_required d) in
  if (Q_ltb 7 f || Q_ltb 8 c || Q_ltb e 3)%bool
  then <["intervention_priority" := VStr "high"]>
         (<["intervention_needed" := VBool true]> d1)
  else if (Q_ltb 5 f || Q_ltb 6 c)%bool
       then <["intervention_priority" := VStr "medium"]> d1
       else <["intervention_priority" := VStr "low"]> d1.

(** The well-being of a reading from the five values stored. *)
Definition wellbeing_value (ve vk vx vf vc : pyval) : result pyval :=
  t ← Detector.add ve vk;
  t ← Detector.add t vx;
  t ← sub t vf;
  t ← sub t vc;
  Detector.truediv_float t 5.

(** A field read the same way in two mappings: same entry, or absent in the
    first and the detector's default 5.0 in the second. *)
Definition default_reading (d d' : gmap string pyval) (s : string) : Prop :=
  d' !! s = d !! s \/ (d !! s = None /\ d' !! s = Some (VFloat 5)).

(** A reading as it is stored: its entries, and the time under "timestamp". *)
Definition stamped (reading : Z * gmap string pyval)
  : gmap string Visualizer.entry :=
  <["timestamp" := Visualizer.Datetime (fst reading)]>
    (Visualizer.Value <$> snd reading).

(** The last [n] elements of a list. *)
Definition last_n {A} (n : nat) (l : list A) : list A :=
  drop (length l - n) l.

(** [add_emotion_reading] called for each reading in turn, [fst] being the
    time of the call. *)
Fixpoint add_readings (readings : list (Z * gmap string pyval))
    (st : Visualizer.session_state) : option Visualizer.session_state :=
  match readings with
  | [] => Some st
  | r :: rest =>
      match Visualizer.add_emotion_reading (fst r) (snd r) st with
      | Some st' => add_readings rest st'
      | None => None
      end
  end.

(** The bodies of the [st.write] calls among the calls made, in order. *)
Definition written (shown : list (Visualizer.container * Visualizer.st_call))
  : list string :=
  omap (fun '(_, call) =>
          match call with
          | Visualizer.write body => Some body
          | _ => None
          end) shown.

(** The recommendations collected for the four conditions, before the cut
    to three. *)
Definition advice (low_engagement high_confusion high_frustration
                   low_confidence : bool) : list string :=
  match
    ((if low_engagement
      then ["🎮 Add interactive elements to boost engagement"] else [])
     ++ (if high_confusion
         then ["📚 Provide additional examples or simpler explanations"]
         else [])
     ++ (if high_frustration
         then ["☕ Suggest a short break or change of activity"] else [])
     ++ (if low_confidence
         then ["💪 Offer encouragement and celebrate small wins"] else []))%list
  with
  | [] => ["✅ Continue current approach - student doing well!"]
  | collected => collected
  end.

Definition bullet (rec : string) : Visualizer.container * Visualizer.st_call :=
  (Visualizer.Column 1, Visualizer.write ("• " ++ rec)).

(** * Properties *)

(** ** Rounding to binary64 *)

Arguments round64 : simpl never.
Arguments float_of_int : simpl never.

Lemma two_power_pos e : (0 < 2 ^ e)%Q.
Proof. now apply Qpower_0_lt. Qed.

Lemma two_power_le a b : (a <= b)%Z -> (2 ^ a <= 2 ^ b)%Q.
Proof. intros H. apply Qpower_le_compat_l; [exact H | discriminate]. Qed.

Lemma two_power_minus a b : (2 ^ (a - b) == 2 ^ a / 2 ^ b)%Q.
Proof. apply Qpower_minus. discriminate. Qed.

Lemma two_power_Z k : (0 <= k)%Z -> (inject_Z (2 ^ k) == 2 ^ k)%Q.
Proof. intros H. now rewrite Zpower_Qpower. Qed.

Lemma Qdiv_le_cross a b c d :
  (0 < b)%Q -> (0 < d)%Q -> (a * d <= c * b)%Q -> (a / b <= c / d)%Q.
Proof.
  intros Hb Hd H. apply Qle_shift_div_r; [exact Hb|].
  assert (c / d * b == c * b / d)%Q as E by (field; lra). rewrite E.
  now apply Qle_shift_div_l.
Qed.

Lemma Qdiv_lt_cross a b c d :
  (0 < b)%Q -> (0 < d)%Q -> (a * d < c * b)%Q -> (a / b < c / d)%Q.
Proof.
  intros Hb Hd H. apply Qlt_shift_div_r; [exact Hb|].
  assert (c / d * b == c * b / d)%Q as E by (field; lra). rewrite E.
  now apply Qlt_shift_div_l.
Qed.

Lemma floor_log2_spec q :
  (0 < q)%Q ->
  (2 ^ floor_log2 q <= q)%Q /\ (q < 2 ^ (floor_log2 q + 1))%Q.
Proof.
  destruct q as [n d]. intros Hq.
  assert (0 < n)%Z as Hn by (unfold Qlt in Hq; simpl in Hq; lia).
  unfold floor_log2. cbn [Qnum Qden].
  set (a := Z.log2 n). set (b := Z.log2 (Z.pos d)).
  assert (0 <= a)%Z as Ha by apply Z.log2_nonneg.
  assert (0 <= b)%Z as Hb by apply Z.log2_nonneg.
  destruct (Z.log2_spec n Hn) as [Ln Un]. fold a in Ln, Un.
  destruct (Z.log2_spec (Z.pos d) eq_refl) as [Ld Ud]. fold b in Ld, Ud.
  assert (2 ^ a <= inject_Z n)%Q as Ln'.
  { rewrite <- two_power_Z by exact Ha. now rewrite <- Zle_Qle. }
  assert (inject_Z n < 2 ^ (a + 1))%Q as Un'.
  { rewrite <- two_power_Z by lia. now rewrite <- Zlt_Qlt. }
  assert (2 ^ b <= inject_Z (Z.pos d))%Q as Ld'.
  { rewrite <- two_power_Z by exact Hb. now rewrite <- Zle_Qle. }
  assert (inject_Z (Z.pos d) < 2 ^ (b + 1))%Q as Ud'.
  { rewrite <- two_power_Z by lia. now rewrite <- Zlt_Qlt. }
  pose proof (two_power_pos a) as Pa. pose proof (two_power_pos b) as Pb.
  pose proof (two_power_pos (a + 1)) as Pa1.
  pose proof (two_power_pos (b + 1)) as Pb1.
  assert (0 < inject_Z (Z.pos d))%Q as Pd by lra.
  assert (0 < inject_Z n)%Q as Pn by lra.
  rewrite (Qmake_Qdiv n d).
  destruct (Qle_bool (2 ^ (a - b)) (inject_Z n / inject_Z (Z.pos d))) eqn:Hb'.
  - apply Qle_bool_iff in Hb'. split; [exact Hb'|].
    replace (a - b + 1)%Z with (a + 1 - b)%Z by lia.
    rewrite two_power_minus. apply Qdiv_lt_cross; [exact Pd | exact Pb |].
    apply Qle_lt_trans with (inject_Z n * inject_Z (Z.pos d))%Q.
    + apply Qmult_le_l; [exact Pn | exact Ld'].
    + apply Qmult_lt_r; [exact Pd | exact Un'].
  - assert (~ (2 ^ (a - b) <= inject_Z n / inject_Z (Z.pos d))%Q) as Hlt.
    { intros H. apply Qle_bool_iff in H. congruence. }
    apply Qnot_le_lt in Hlt. split.
    + replace (a - b - 1)%Z with (a - (b + 1))%Z by lia.
      rewrite two_power_minus. apply Qdiv_le_cross; [exact Pb1 | exact Pd |].
      apply Qle_trans with (2 ^ a * 2 ^ (b + 1))%Q.
      * apply Qmult_le_l; [exact Pa | lra].
      * apply Qmult_le_r; [exact Pb1 | exact Ln'].
    + replace (a - b - 1 + 1)%Z with (a - b)%Z by lia. exact Hlt.
Qed.

Lemma floor_log2_le q q' :
  (0 < q)%Q -> (q <= q')%Q -> (floor_log2 q <= floor_log2 q')%Z.
Proof.
  intros Hq Hle.
  destruct (floor_log2_spec q Hq) as [L _].
  destruct (floor_log2_spec q') as [_ U]; [lra|].
  destruct (Z.le_gt_cases (floor_log2 q) (floor_log2 q')) as [H|H]; [exact H|].
  exfalso. assert (2 ^ (floor_log2 q' + 1) <= 2 ^ floor_log2 q)%Q
    by (apply two_power_le; lia).
  lra.
Qed.

Lemma nearest_even_floor x :
  (Qfloor x <= nearest_even x <= Qfloor x + 1)%Z.
Proof.
  unfold nearest_even.
  destruct (x - inject_Z (Qfloor x) ?= 1 # 2)%Q; [|lia|lia].
  destruct (Z.even (Qfloor x)); lia.
Qed.

Lemma nearest_even_le x y :
  (x <= y)%Q -> (nearest_even x <= nearest_even y)%Z.
Proof.
  intros Hle. pose proof (Qfloor_resp_le x y Hle) as Hfl.
  pose proof (nearest_even_floor x) as Hx.
  pose proof (nearest_even_floor y) as Hy.
  destruct (Z.eq_dec (Qfloor x) (Qfloor y)) as [Heq|Hne]; [|lia].
  clear Hx Hy. unfold nearest_even. rewrite <- Heq.
  destruct (Qcompare_spec (x - inject_Z (Qfloor x)) (1 # 2)),
    (Qcompare_spec (y - inject_Z (Qfloor x)) (1 # 2));
    try lia; try (exfalso; lra); destruct (Z.even (Qfloor x)); lia.
Qed.

Lemma nearest_even_comp x y : (x == y)%Q -> nearest_even x = nearest_even y.
Proof.
  intros H. apply Z.le_antisymm; apply nearest_even_le; lra.
Qed.

Lemma nearest_even_Z z : nearest_even (inject_Z z) = z.
Proof.
  unfold nearest_even. rewrite Qfloor_Z.
  destruct (Qcompare_spec (inject_Z z - inject_Z z) (1 # 2));
    [exfalso; lra | reflexivity | exfalso; lra].
Qed.

Lemma nearest_even_grid k e :
  (0 <= k)%Z -> nearest_even (2 ^ (k + e) / 2 ^ e) = (2 ^ k)%Z.
Proof.
  intros Hk. rewrite <- (nearest_even_Z (2 ^ k)). apply nearest_even_comp.
  rewrite two_power_Z by exact Hk.
  replace k with (k + e - e)%Z at 2 by lia. now rewrite two_power_minus.
Qed.

Lemma round_magnitude_le q q' :
  (0 < q)%Q -> (q <= q')%Q -> (round_magnitude q <= round_magnitude q')%Q.
Proof.
  intros Hq Hle. unfold round_magnitude.
  pose proof (floor_log2_le q q' Hq Hle) as HL.
  set (L := floor_log2 q) in *. set (L' := floor_log2 q') in *.
  set (e := Z.max (L - 52) (-1074)). set (e' := Z.max (L' - 52) (-1074)).
  pose proof (two_power_pos e) as Pe. pose proof (two_power_pos e') as Pe'.
  destruct (Z.eq_dec e e') as [<-|Hne].
  - apply Qmult_le_r; [exact Pe|]. rewrite <- Zle_Qle.
    apply nearest_even_le. apply Qmult_le_r; [now apply Qinv_lt_0_compat|].
    exact Hle.
  - assert (e < e')%Z as Hlt by lia.
    assert (e' = L' - 52)%Z as He' by lia.
    assert (L + 1 <= L')%Z as HLL by lia.
    destruct (floor_log2_spec q Hq) as [_ Uq]. fold L in Uq.
    destruct (floor_log2_spec q') as [Lq' _]; [lra|]. fold L' in Lq'.
    pose proof (two_power_le (L + 1) L' HLL) as Hg.
    apply Qle_trans with (2 ^ L')%Q.
    + apply Qle_trans
        with (inject_Z (nearest_even (2 ^ (L' - e + e) / 2 ^ e)) * 2 ^ e)%Q.
      * apply Qmult_le_r; [exact Pe|]. rewrite <- Zle_Qle.
        apply nearest_even_le. apply Qmult_le_r; [now apply Qinv_lt_0_compat|].
        replace (L' - e + e)%Z with L' by lia. lra.
      * rewrite nearest_even_grid by lia. rewrite two_power_Z by lia.
        rewrite two_power_minus. field_simplify; [lra | lra].
    + apply Qle_trans
        with (inject_Z (nearest_even (2 ^ (52 + e') / 2 ^ e')) * 2 ^ e')%Q.
      * rewrite nearest_even_grid by lia. rewrite two_power_Z by lia.
        replace L' with (52 + e')%Z at 1 by lia.
        rewrite Qpower_plus by discriminate. lra.
      * apply Qmult_le_r; [exact Pe'|]. rewrite <- Zle_Qle.
        apply nearest_even_le. apply Qmult_le_r; [now apply Qinv_lt_0_compat|].
        replace (52 + e')%Z with L' by lia. exact Lq'.
Qed.

Lemma round_magnitude_nonneg q : (0 < q)%Q -> (0 <= round_magnitude q)%Q.
Proof.
  intros Hq. unfold round_magnitude.
  set (e := Z.max _ _). pose proof (two_power_pos e) as Pe.
  apply Qmult_le_0_compat; [|lra].
  replace 0%Q with (inject_Z 0) by reflexivity. rewrite <- Zle_Qle.
  pose proof (nearest_even_floor (q / 2 ^ e)) as H.
  assert (0 <= Qfloor (q / 2 ^ e))%Z; [|lia].
  rewrite <- (Qfloor_Z 0). apply Qfloor_resp_le.
  apply Qle_shift_div_l; [exact Pe | rewrite Qmult_0_l; lra].
Qed.

Lemma sign_cases p :
  (Qnum p = 0%Z /\ p == 0)%Q
  \/ (exists n, Qnum p = Z.pos n /\ 0 < p)%Q
  \/ (exists n, Qnum p = Z.neg n /\ p < 0)%Q.
Proof.
  destruct p as [[|n|n] d].
  - left. split; reflexivity.
  - right. left. exists n. split; reflexivity.
  - right. right. exists n. split; reflexivity.
Qed.

Lemma round64_le q q' : (q <= q')%Q -> (round64 q <= round64 q')%Q.
Proof.
  intros Hle. unfold round64.
  pose proof (Qred_correct q) as Eq. pose proof (Qred_correct q') as Eq'.
  set (p := Qred q) in *. set (p' := Qred q') in *.
  assert (p <= p')%Q as Hp by lra. clearbody p p'. clear Hle Eq Eq' q q'.
  destruct (sign_cases p) as [(-> & Z0) | [(n & -> & P) | (n & -> & N)]],
    (sign_cases p') as [(-> & Z0') | [(n' & -> & P') | (n' & -> & N')]];
    rewrite ?Qred_correct; try lra.
  - now apply round_magnitude_nonneg.
  - now apply round_magnitude_le.
  - pose proof (round_magnitude_nonneg (- p)). lra.
  - pose proof (round_magnitude_nonneg (- p)).
    pose proof (round_magnitude_nonneg p'). lra.
  - pose proof (round_magnitude_le (- p') (- p)). lra.
Qed.

Lemma round64_comp q q' : (q == q')%Q -> round64 q = round64 q'.
Proof. intros H. unfold round64. now rewrite (Qred_complete q q' H). Qed.

(** The rounding agrees with the floats of the machine on sums, differences,
    products and quotients across the range, subnormal results included. *)
Example round64_machine :
  (round64 (10 - of_float 2.9) == of_float (10 - 2.9)%float
   /\ round64 (of_float 0.1 + of_float 0.2) == of_float (0.1 + 0.2)%float
   /\ round64 (of_float 8.5 + of_float 6.25) == of_float (8.5 + 6.25)%float
   /\ round64 (of_float 14.75 / 5) == of_float (14.75 / 5)%float
   /\ round64 (of_float (-123456.789) * of_float 3.3e-5)
      == of_float (-123456.789 * 3.3e-5)%float
   /\ round64 (of_float 1.7e308 / of_float 3) == of_float (1.7e308 / 3)%float
   /\ round64 (of_float 1e-320 / of_float 3) == of_float (1e-320 / 3)%float
   /\ round64 (of_float (-1.7e-308) / of_float 3)
      == of_float (-1.7e-308 / 3)%float
   /\ round64 (inject_Z (2 ^ 53 + 1)) == inject_Z (2 ^ 53)
   /\ round64 (inject_Z (2 ^ 53 + 3)) == inject_Z (2 ^ 53 + 4))%Q.
Proof. repeat split; apply Qeq_bool_eq; vm_compute; reflexivity. Qed.

(** The conversion of an [int] fails from [2 ^ 1024 - 2 ^ 970] on, the first
    integer that rounds beyond the largest float. *)
Example float_of_int_limit :
  float_of_int (2 ^ 1024 - 2 ^ 970 - 1)
  = Ok (inject_Z (2 ^ 1024 - 2 ^ 971))
  /\ float_of_int (2 ^ 1024 - 2 ^ 970)
     = Raise (OverflowError "int too large to convert to float")
  /\ float_of_int (10 ^ 400)
     = Raise (OverflowError "int too large to convert to float").
Proof. repeat split; vm_compute; reflexivity. Qed.

Lemma float_of_int_ten : float_of_int 10 = Ok 10%Q.
Proof. vm_compute. reflexivity. Qed.

(** An [int] of at most five times the bound of the scores converts. *)
Lemma float_of_int_ok z :
  (Z.abs z <= 5 * score_bound)%Z -> exists q, float_of_int z = Ok q.
Proof.
  intros Hz. unfold float_of_int.
  set (r := round64 (inject_Z z)).
  assert (round64 (inject_Z (- (5 * score_bound))) <= r)%Q as Lr
    by (apply round64_le; rewrite <- Zle_Qle; lia).
  assert (r <= round64 (inject_Z (5 * score_bound)))%Q as Ur
    by (apply round64_le; rewrite <- Zle_Qle; lia).
  assert (- (2 ^ 1024) < round64 (inject_Z (- (5 * score_bound))))%Q as Lb
    by (apply Qlt_alt; vm_compute; reflexivity).
  assert (round64 (inject_Z (5 * score_bound)) < 2 ^ 1024)%Q as Ub
    by (apply Qlt_alt; vm_compute; reflexivity).
  destruct (Qle_bool (2 ^ 1024) (Qabs r)) eqn:Hb; [|now exists r].
  exfalso. apply Qle_bool_iff in Hb. revert Hb.
  generalize dependent (2 ^ 1024)%Q. intros top Lb Ub Hb.
  assert (Qabs r < top)%Q by (apply Qabs_Qlt_condition; split; lra). lra.
Qed.

(** ** Reading scores *)

Arguments Q_ltb : simpl never.

Lemma Q_ltb_reflect (x y : Q) : Bool.reflect (x < y)%Q (Q_ltb x y).
Proof.
  unfold Q_ltb. destruct (Qcompare x y) eqn:Hc; constructor.
  - apply Qeq_alt in Hc. rewrite Hc. apply Qlt_irrefl.
  - now apply Qlt_alt.
  - apply Qgt_alt in Hc. intros Hlt. apply (Qlt_irrefl x).
    now apply Qlt_trans with y.
Qed.

Lemma score_get d k q :
  score d k = Some q -> as_number (get d k (VInt 5)) = Some q.
Proof. unfold score, get. now destruct (d !! k). Qed.

Lemma gt_number a n q :
  as_number a = Some q -> gt a (VInt n) = Ok (Q_ltb (inject_Z n) q).
Proof. unfold gt. now intros ->. Qed.

Lemma lt_number a n q :
  as_number a = Some q -> lt a (VInt n) = Ok (Q_ltb q (inject_Z n)).
Proof. unfold lt. now intros ->. Qed.

Lemma gt_score d k n q :
  score d k = Some q ->
  gt (get d k (VInt 5)) (VInt n) = Ok (Q_ltb (inject_Z n) q).
Proof. intros H. now apply gt_number, score_get. Qed.

Lemma lt_score d k n q :
  score d k = Some q ->
  lt (get d k (VInt 5)) (VInt n) = Ok (Q_ltb q (inject_Z n)).
Proof. intros H. now apply lt_number, score_get. Qed.

(** Replace every comparison of a score by its boolean on the number read. *)
Ltac read_scores H :=
  destruct H as [Hf Hc He Hk];
  rewrite ?(gt_score _ _ _ _ Hf), ?(lt_score _ _ _ _ Hf),
          ?(gt_score _ _ _ _ Hc), ?(lt_score _ _ _ _ Hc),
          ?(gt_score _ _ _ _ He), ?(lt_score _ _ _ _ He),
          ?(gt_score _ _ _ _ Hk), ?(lt_score _ _ _ _ Hk).

Ltac split_ltb :=
  repeat match goal with
         | |- context [Q_ltb ?x ?y] =>
             destruct (Q_ltb_reflect x y); simpl
         end.

(** ** The first maximum of the weighted concerns *)

Lemma getitem_score d k q :
  score d k = Some q -> ~ (q == 5)%Q ->
  exists v, d !! k = Some v /\ getitem d k = Ok v /\ as_number v = Some q.
Proof.
  unfold score, getitem. destruct (d !! k) as [v|].
  - intros Hv _. now exists v.
  - intros [= <-] Hne. now destruct Hne.
Qed.

(** [10 - v] on a number: the weight [low_weight] of the field holding it. *)
Lemma sub_from_ten d key v q :
  d !! key = Some v -> as_number v = Some q ->
  exists w q', sub (VInt 10) v = Ok w /\ as_number w = Some q'
               /\ (q' == low_weight d key q)%Q.
Proof.
  intros Hd. unfold low_weight, float_at. rewrite Hd.
  destruct v as [ | b | z | x | | | ]; simpl; try discriminate; intros [= <-].
  - exists (VInt (10 - (if b then 1 else 0))), (inject_Z (10 - (if b then 1 else 0))).
    repeat split. destruct b; reflexivity.
  - exists (VInt (10 - z)), (inject_Z (10 - z)). repeat split.
    unfold Z.sub. rewrite inject_Z_plus, inject_Z_opp. reflexivity.
  - unfold sub, to_float. cbn -[float_of_int round64].
    rewrite float_of_int_ten. cbn -[round64].
    exists (VFloat (round64 (10 - x))), (round64 (10 - x)). repeat split.
Qed.

Lemma max_go_first_maximum (rest : list (string * pyval)) :
  forall rcands best bcand,
    same_candidate best bcand ->
    Forall2 same_candidate rest rcands ->
    exists top i,
      max_go best rest = Ok top
      /\ first_maximum (bcand :: rcands) i (fst top).
Proof.
  induction rest as [|item rest IH]; intros rcands best bcand Hb Hrest.
  - inversion Hrest; subst. exists best, 0%nat. simpl.
    destruct Hb as [Hname _]. destruct bcand as [bn bw]. simpl in *.
    split; [reflexivity|].
    exists bw. split; [now rewrite Hname|].
    intros [|j] n' w'; simpl; [|discriminate].
    intros [= <- <-]. split; [apply Qle_refl | lia].
  - inversion Hrest as [|? cand ? rc Hi Hr]; subst. simpl.
    destruct Hb as [Hbn (qb & Hqb & Eqb)].
    destruct Hi as [Hin (qi & Hqi & Eqi)].
    unfold gt. rewrite Hqi, Hqb. simpl.
    destruct (Q_ltb_reflect qb qi) as [Hlt|Hge].
    + destruct (IH rc item cand) as (top & i & Hgo & Hmax); auto.
      { split; eauto. }
      exists top, (S i). split; [exact Hgo|].
      destruct Hmax as (w & Hnw & Hall).
      exists w. split; [exact Hnw|].
      intros [|j] n' w'; simpl.
      * intros [= ->]. simpl in *.
        destruct (Hall 0%nat (fst cand) (snd cand)) as [Hle _];
          [now destruct cand|].
        split; [lra | intros _; lra].
      * intros Hj. destruct (Hall j n' w' Hj) as [Hle Hlt'].
        split; [exact Hle | intros ?; apply Hlt'; lia].
    + destruct (IH rc best bcand) as (top & i & Hgo & Hmax); auto.
      { split; eauto. }
      destruct Hmax as (w & Hnw & Hall).
      destruct (Hall 0%nat (fst bcand) (snd bcand)) as [Hle0 Hlt0];
        [now destruct bcand|].
      destruct i as [|i].
      * exists top, 0%nat. split; [exact Hgo|].
        exists w. split; [exact Hnw|].
        intros [|[|j]] n' w'; simpl.
        -- intros Hj. apply (Hall 0%nat n' w' Hj).
        -- intros [= ->]. simpl in *. injection Hnw as Hbc. subst bcand.
           simpl in *. split; [lra | lia].
        -- intros Hj. destruct (Hall (S j) n' w' Hj) as [Hle _].
           split; [exact Hle | lia].
      * exists top, (S (S i)). split; [exact Hgo|].
        exists w. split; [exact Hnw|].
        assert (snd bcand < w)%Q as Hbw by (apply Hlt0; lia).
        intros [|[|j]] n' w'; simpl.
        -- intros [= ->]. simpl in *. split; [lra | intros _; lra].
        -- intros [= ->]. simpl in *. split; [lra | intros _; lra].
        -- intros Hj. destruct (Hall (S j) n' w' Hj) as [Hle Hlt'].
           split; [exact Hle | intros ?; apply Hlt'; lia].
Qed.

Lemma max_by_key_first_maximum concerns cands :
  Forall2 same_candidate concerns cands -> cands <> [] ->
  exists top i, max_by_key concerns = Ok top /\ first_maximum cands i (fst top).
Proof.
  intros Hall Hne. destruct Hall as [|item cand rest rcands Hb Hrest].
  - now destruct Hne.
  - simpl. now apply max_go_first_maximum.
Qed.

Lemma distress_candidates_names d f c e k name w :
  In (name, w) (distress_candidates d f c e k) ->
  (name = "high_frustration" /\ (7 < f)%Q /\ w = f)
  \/ (name = "high_confusion" /\ (7 < c)%Q /\ w = c)
  \/ (name = "low_engagement" /\ (e < 4)%Q
      /\ w = low_weight d "engagement" e)
  \/ (name = "low_confidence" /\ (k < 4)%Q
      /\ w = low_weight d "confidence" k).
Proof.
  unfold distress_candidates. rewrite !in_app_iff.
  destruct (Qlt_le_dec 7 f), (Qlt_le_dec 7 c), (Qlt_le_dec e 4),
    (Qlt_le_dec k 4); simpl; intuition congruence.
Qed.

(** ** Concern and urgency of a mapping whose compared fields are numbers *)

Section Readings.

Variables (d : gmap string pyval) (f c e k : Q).
Hypothesis Hscores : scores d f c e k.

Lemma urgency_ladder :
  (critical_rung f c e /\ _calculate_intervention_urgency d = Ok "critical")
  \/ (~ critical_rung f c e /\ high_rung f c e
      /\ _calculate_intervention_urgency d = Ok "high")
  \/ (~ critical_rung f c e /\ ~ high_rung f c e /\ medium_rung f c e k
      /\ _calculate_intervention_urgency d = Ok "medium")
  \/ (~ critical_rung f c e /\ ~ high_rung f c e /\ ~ medium_rung f c e k
      /\ _calculate_intervention_urgency d = Ok "low").
Proof.
  pose proof Hscores as H.
  unfold _calculate_intervention_urgency, or_else.
  unfold critical_rung, high_rung, medium_rung.
  read_scores H. simpl. unfold inject_Z.
  split_ltb; intuition (try reflexivity; try lra).
Qed.

(** The list [concerns] the code builds stands for [distress_candidates], and
    the function returns by the branch on that list. *)
Lemma identify_by_candidates :
  exists concerns,
    Forall2 same_candidate concerns (distress_candidates d f c e k)
    /\ _identify_primary_concern d =
       match concerns with
       | [] => Ok (if (Q_ltb 7 e && Q_ltb 6 k && Q_ltb f 4)%bool
                   then "optimal_state" else "neutral_state")
       | _ :: _ => top ← max_by_key concerns; Ok (fst top)
       end.
Proof.
  pose proof Hscores as H. pose proof H as [Hf' Hc' He' Hk'].
  unfold _identify_primary_concern, distress_candidates, and_then.
  read_scores H. unfold inject_Z.
  destruct (Q_ltb_reflect 7 f) as [Lf|Lf], (Qlt_le_dec 7 f) as [Df|Df];
    try lra;
    [destruct (getitem_score d "frustration" f Hf') as (vf & _ & -> & Nf);
     [lra|] |];
  (destruct (Q_ltb_reflect 7 c) as [Lc|Lc], (Qlt_le_dec 7 c) as [Dc|Dc];
    try lra;
    [destruct (getitem_score d "confusion" c Hc') as (vc & _ & -> & Nc);
     [lra|] |]);
  (destruct (Q_ltb_reflect e 4) as [Le|Le], (Qlt_le_dec e 4) as [De|De];
    try lra;
    [destruct (getitem_score d "engagement" e He') as (ve & Ge & -> & Ne);
     [lra|]; simpl;
     destruct (sub_from_ten d "engagement" ve e Ge Ne)
       as (we & qe & -> & Nwe & Ewe) |]);
  (destruct (Q_ltb_reflect k 4) as [Lk|Lk], (Qlt_le_dec k 4) as [Dk|Dk];
    try lra;
    [destruct (getitem_score d "confidence" k Hk') as (vk & Gk & -> & Nk);
     [lra|]; simpl;
     destruct (sub_from_ten d "confidence" vk k Gk Nk)
       as (wk & qk & -> & Nwk & Ewk) |]);
  cbn -[max_by_key];
  match goal with
  | |- exists cs, _ /\ (max_by_key ?l ≫= _) = _ => exists l
  | |- _ => exists []
  end;
  (split; [| first [reflexivity
                   | destruct (Q_ltb 7 e), (Q_ltb 6 k), (Q_ltb f 4); reflexivity]]);
  repeat (constructor;
          [split; [reflexivity
                  | eexists; split;
                    [eassumption | simpl; first [assumption | lra]]] |]);
  constructor.
Qed.

(** Concern identification returns one of the six concerns, decided on the
    candidates that fire. *)
Lemma identify_outcome :
  (distress_candidates d f c e k = []
   /\ ((optimal_state f e k /\ _identify_primary_concern d = Ok "optimal_state")
       \/ (~ optimal_state f e k
           /\ _identify_primary_concern d = Ok "neutral_state")))
  \/ (distress_candidates d f c e k <> []
      /\ exists i name,
           _identify_primary_concern d = Ok name
           /\ first_maximum (distress_candidates d f c e k) i name).
Proof.
  destruct identify_by_candidates as (cs & Hall & ->).
  destruct Hall as [|item cand rest rcands Hb Hrest].
  - left. split; [reflexivity|]. unfold optimal_state.
    destruct (Q_ltb_reflect 7 e), (Q_ltb_reflect 6 k), (Q_ltb_reflect f 4);
      simpl; intuition.
  - right. split; [discriminate|].
    destruct (max_by_key_first_maximum (item :: rest) (cand :: rcands))
      as (top & i & Hmax & Hfirst); [now constructor | discriminate |].
    exists i, (fst top). rewrite Hmax. now split.
Qed.

Lemma identify_in_concerns :
  exists name, _identify_primary_concern d = Ok name /\ In name concerns.
Proof.
  destruct identify_outcome
    as [(_ & [(_ & Hr) | (_ & Hr)]) | (_ & i & name & Hr & w & Hat & _)].
  - exists "optimal_state". split; [exact Hr | simpl; tauto].
  - exists "neutral_state". split; [exact Hr | simpl; tauto].
  - exists name. split; [exact Hr|].
    apply list_elem_of_lookup_2, list_elem_of_In in Hat.
    apply distress_candidates_names in Hat.
    destruct Hat as [(-> & _) | [(-> & _) | [(-> & _) | (-> & _)]]];
      simpl; tauto.
Qed.

Lemma urgency_in_levels :
  exists u, _calculate_intervention_urgency d = Ok u /\ In u urgency_levels.
Proof.
  destruct urgency_ladder
    as [(_ & ->) | [(_ & _ & ->) | [(_ & _ & _ & ->) | (_ & _ & _ & ->)]]];
    eexists; (split; [reflexivity | simpl; tauto]).
Qed.


(** C2. Urgency grading returns the first matching level of the ladder
    critical, high, medium, low on the numbers read (a missing field reads 5);
    the empty mapping grades "medium" and identifies "neutral_state". *)
Theorem calculate_intervention_urgency_ladder :
  (critical_rung f c e -> _calculate_intervention_urgency d = Ok "critical")
  /\ (~ critical_rung f c e -> high_rung f c e ->
      _calculate_intervention_urgency d = Ok "high")
  /\ (~ critical_rung f c e -> ~ high_rung f c e -> medium_rung f c e k ->
      _calculate_intervention_urgency d = Ok "medium")
  /\ (~ critical_rung f c e -> ~ high_rung f c e -> ~ medium_rung f c e k ->
      _calculate_intervention_urgency d = Ok "low")
  /\ _calculate_intervention_urgency ∅ = Ok "medium"
  /\ _identify_primary_concern ∅ = Ok "neutral_state".
Proof.
  destruct urgency_ladder
    as [(C & ->) | [(C & Hh & ->) | [(C & Hh & M & ->) | (C & Hh & M & ->)]]];
    repeat split; try reflexivity; intros; tauto.
Qed.

(** C10. When concern identification returns one of the four distress
    concerns, urgency grading of the same mapping is at least "medium": each
    distress threshold implies a disjunct of the high or medium rung. *)
Theorem distress_concern_urgency_not_low name :
  _identify_primary_concern d = Ok name ->
  In name ["high_frustration"; "high_confusion"; "low_engagement";
           "low_confidence"] ->
  exists u,
    _calculate_intervention_urgency d = Ok u
    /\ u <> "low" /\ In u ["medium"; "high"; "critical"].
Proof.
  intros Hres Hname.
  assert (high_rung f c e \/ medium_rung f c e k) as Hrung.
  { destruct identify_outcome
      as [(_ & [(_ & Hr) | (_ & Hr)]) | (_ & i & name' & Hr & w & Hat & _)];
      rewrite Hr in Hres; injection Hres as <-.
    - simpl in Hname. intuition discriminate.
    - simpl in Hname. intuition discriminate.
    - apply list_elem_of_lookup_2, list_elem_of_In in Hat.
      apply distress_candidates_names in Hat.
      unfold high_rung, medium_rung.
      destruct Hat as [(_ & P & _) | [(_ & P & _) | [(_ & P & _) | (_ & P & _)]]];
        [left; left; lra | left; right; left; lra
        | left; right; right; lra | right; right; right; right; lra]. }
  destruct urgency_ladder
    as [(C & ->) | [(C & Hh & ->) | [(C & Hh & M & ->) | (C & Hh & M & _)]]].
  - exists "critical". simpl. intuition discriminate.
  - exists "high". simpl. intuition discriminate.
  - exists "medium". simpl. intuition discriminate.
  - tauto.
Qed.

End Readings.

(** ** The worked examples *)

Example identify_examples :
  _identify_primary_concern example_critical = Ok "high_frustration"
  /\ _identify_primary_concern example_optimal = Ok "optimal_state"
  /\ _identify_primary_concern example_tie = Ok "high_confusion"
  /\ _calculate_intervention_urgency example_critical = Ok "critical"
  /\ _calculate_intervention_urgency example_optimal = Ok "low".
Proof. repeat split; vm_compute; reflexivity. Qed.


Lemma calculate_intervention_urgency_ladder_witness :
  _calculate_intervention_urgency example_critical = Ok "critical".
Proof.
  apply (calculate_intervention_urgency_ladder example_critical 9 2 6 6).
  - split; reflexivity.
  - left. reflexivity.
Defined.

Lemma distress_concern_urgency_not_low_witness :
  exists u,
    _calculate_intervention_urgency example_tie = Ok u
    /\ u <> "low" /\ In u ["medium"; "high"; "critical"].
Proof.
  apply (distress_concern_urgency_not_low example_tie 8 9 1 6.5)
    with (name := "high_confusion").
  - split; reflexivity.
  - reflexivity.
  - simpl. tauto.
Defined.

(** ** Monotonicity of the urgency ladder *)

(** C8. Urgency grading is monotone in distress: when frustration and
    confusion do not decrease and engagement and confidence do not increase,
    the level graded does not decrease in the order
    low < medium < high < critical. *)
Theorem urgency_monotone d d' f c e k f' c' e' k' :
  scores d f c e k -> scores d' f' c' e' k' ->
  (f <= f')%Q -> (c <= c')%Q -> (e' <= e)%Q -> (k' <= k)%Q ->
  exists u u' m n,
    _calculate_intervention_urgency d = Ok u
    /\ _calculate_intervention_urgency d' = Ok u'
    /\ urgency_rank u = Some m /\ urgency_rank u' = Some n /\ (m <= n)%nat.
Proof.
  intros H H' Lf Lc Le Lk.
  destruct (urgency_ladder d f c e k H)
    as [(C & ->) | [(C & Hh & ->) | [(C & Hh & M & ->) | (C & Hh & M & ->)]]];
  destruct (urgency_ladder d' f' c' e' k' H')
    as [(C' & ->) | [(C' & Hh' & ->) | [(C' & Hh' & M' & ->) | (C' & Hh' & M' & ->)]]];
  unfold critical_rung, high_rung, medium_rung in *;
  first [ do 4 eexists; repeat split; simpl; lia
        | exfalso; intuition lra ].
Qed.

Lemma urgency_monotone_witness :
  exists u u' m n,
    _calculate_intervention_urgency example_optimal = Ok u
    /\ _calculate_intervention_urgency example_tie = Ok u'
    /\ urgency_rank u = Some m /\ urgency_rank u' = Some n /\ (m <= n)%nat.
Proof.
  apply (urgency_monotone example_optimal example_tie 3 3 8 7 8 9 1 6.5);
    try (split; reflexivity); try lra.
Defined.

(** ** Strategy selection *)

Lemma randbelow_lt n g : (0 < n)%nat -> (fst (Random.randbelow n g) < n)%nat.
Proof.
  intros Hn. destruct g as [|r g]; simpl; [exact Hn|].
  apply Nat.mod_upper_bound. lia.
Qed.

Lemma sample_rounds_ok {A} rounds :
  forall (pool : list A) n i g,
    length pool = n -> (i + rounds <= n)%nat ->
    exists l g',
      Random.sample_rounds pool n i rounds g = Ok (l, g')
      /\ length l = rounds.
Proof.
  induction rounds as [|rounds IH]; intros pool n i g Hlen Hle; simpl.
  - now exists [], g.
  - pose proof (randbelow_lt (n - i) g ltac:(lia)) as Hj.
    destruct (Random.randbelow (n - i) g) as [j g1]. simpl in Hj.
    destruct (lookup_lt_is_Some_2 pool j ltac:(lia)) as [x ->].
    destruct (lookup_lt_is_Some_2 pool (n - i - 1) ltac:(lia)) as [y ->].
    destruct (IH (<[j := y]> pool) n (S i) g1) as (l & g' & -> & Hl);
      [now rewrite length_insert | lia |].
    exists (x :: l), g'. simpl. now rewrite Hl.
Qed.

Lemma sample_ok {A} (population : list A) k g :
  (k <= length population)%nat ->
  exists l g', Random.sample population k g = Ok (l, g') /\ length l = k.
Proof.
  intros Hk. unfold Random.sample.
  destruct (Nat.ltb_spec (length population) k); [lia|].
  now apply sample_rounds_ok.
Qed.

Lemma choice_pair {A} (a b : A) g :
  Random.choice [a; b] g
  = Ok (nth (fst (Random.randbelow 2 g)) [a; b] a, snd (Random.randbelow 2 g)).
Proof.
  unfold Random.choice. simpl length.
  pose proof (randbelow_lt 2 g ltac:(lia)) as Hj.
  destruct (Random.randbelow 2 g) as [j g1]. simpl in *.
  destruct j as [|[|j]]; [reflexivity | reflexivity | lia].
Qed.

Lemma catalog_entry_nonempty concern strategies :
  lookup_item concern intervention_strategies = Some strategies ->
  strategies <> [].
Proof.
  unfold intervention_strategies, lookup_item.
  repeat case_decide; intros [= <-]; discriminate.
Qed.

Lemma generate_interventions_some concern urgency phase g strategies :
  lookup_item concern intervention_strategies = Some strategies ->
  exists iv g',
    _generate_interventions concern urgency phase g = Ok (iv, g')
    /\ Iv.type iv
       = VType (resolve_type strategies
                  (candidate_type urgency (fst (Random.randbelow 2 g))))
    /\ (length (Iv.actions iv) <= 2)%nat
    /\ Iv.success_indicators iv = _define_success_indicators concern.
Proof.
  intros Hentry. pose proof (catalog_entry_nonempty _ _ Hentry) as Hne.
  unfold _generate_interventions. rewrite Hentry.
  set (t := candidate_type urgency (fst (Random.randbelow 2 g))).
  assert (exists g1,
    (if decide (urgency = "critical") then Ok (IMMEDIATE, g)
     else if decide (urgency = "high")
          then Random.choice [IMMEDIATE; ADAPTIVE] g
     else if decide (urgency = "medium")
          then Random.choice [ADAPTIVE; SUPPORTIVE] g
     else Ok (SUPPORTIVE, g)) = Ok (t, g1)) as [g1 ->].
  { subst t. unfold candidate_type. rewrite !choice_pair.
    repeat case_decide; eauto. }
  cbn [mbind result_bind Py.bind].
  assert (exists acts,
    match lookup_item t strategies with
    | Some acts => Ok (t, acts)
    | None =>
        match keys strategies !! 0%nat with
        | None => Raise (IndexError "list index out of range")
        | Some first_type =>
            match lookup_item first_type strategies with
            | Some acts => Ok (first_type, acts)
            | None => Raise (KeyError (value first_type))
            end
        end
    end = Ok (resolve_type strategies t, acts)) as [acts ->].
  { unfold resolve_type. destruct (lookup_item t strategies) as [acts|]; eauto.
    destruct strategies as [|[t0 a0] rest]; [now destruct Hne|].
    simpl. destruct (decide (t0 = t0)); [eauto | congruence]. }
  cbn [mbind result_bind Py.bind].
  destruct (sample_ok acts (Nat.min 2 (length acts)) g1) as (sel & g2 & -> & Hsel);
    [lia|].
  cbn [mbind result_bind Py.bind].
  eexists _, _. split; [reflexivity|]. simpl. repeat split. lia.
Qed.

Lemma generate_interventions_none concern urgency phase g :
  lookup_item concern intervention_strategies = None ->
  _generate_interventions concern urgency phase g
  = Ok (passive_recommendation, g).
Proof. intros H. unfold _generate_interventions. now rewrite H. Qed.

(** C3. Strategy selection returns the fixed passive result for a concern
    without catalog entry, which among the six concerns is "neutral_state"
    only; for a concern with an entry the type is the candidate of the urgency
    level (critical: immediate; high: immediate or adaptive and medium:
    adaptive or supportive, by the generator's draw in [range(2)], either
    being drawn by some generator; low: supportive), replaced by the first
    declared type of the entry when the entry does not declare it. *)
Theorem generate_interventions_type concern urgency phase g :
  match lookup_item concern intervention_strategies with
  | None =>
      _generate_interventions concern urgency phase g
      = Ok ({| Iv.type := VType SUPPORTIVE;
               Iv.actions := ["Continue monitoring student progress"];
               Iv.explanation := "No specific intervention needed at this time";
               Iv.success_indicators :=
                 ["Maintained engagement"; "Steady progress"] |}, g)
  | Some strategies =>
      exists iv g',
        _generate_interventions concern urgency phase g = Ok (iv, g')
        /\ Iv.type iv
           = VType (resolve_type strategies
                      (candidate_type urgency (fst (Random.randbelow 2 g))))
  end
  /\ Forall (fun c => lookup_item c intervention_strategies = None
                      <-> c = "neutral_state") concerns
  /\ (forall draw, candidate_type "critical" draw = IMMEDIATE)
  /\ candidate_type "high" 0 = IMMEDIATE
  /\ candidate_type "high" 1 = ADAPTIVE
  /\ candidate_type "medium" 0 = ADAPTIVE
  /\ candidate_type "medium" 1 = SUPPORTIVE
  /\ (forall draw, candidate_type "low" draw = SUPPORTIVE)
  /\ (fst (Random.randbelow 2 g) < 2)%nat
  /\ Forall (fun draw => exists g0, fst (Random.randbelow 2 g0) = draw)
            [0%nat; 1%nat].
Proof.
  split.
  { destruct (lookup_item concern intervention_strategies) as [strategies|] eqn:He.
    - destruct (generate_interventions_some concern urgency phase g strategies He)
        as (iv & g' & Hgen & Hty & _).
      now exists iv, g'.
    - now apply generate_interventions_none. }
  split.
  { unfold concerns. repeat constructor; try discriminate; reflexivity. }
  repeat split.
  - apply randbelow_lt. lia.
  - repeat constructor; [now exists [0%nat] | now exists [1%nat]].
Qed.

(** ** Timing *)

(** C6. The timing of a mapping is the row of [timing_map] under its urgency
    and depends on nothing else; the row of "critical" is immediately /
    5-10 minutes / as needed; a key outside the four levels falls back to the
    row of "medium". *)
Theorem calculate_intervention_timing_lookup :
  (forall d ctx,
     _calculate_intervention_timing d ctx
     = (u ← _calculate_intervention_urgency d; timing_map_get u))
  /\ timing_map_get "critical"
     = Ok {| when := "immediately"; duration := "5-10 minutes";
             frequency := "as needed" |}
  /\ timing_map_get "medium"
     = Ok {| when := "at next natural break"; duration := "2-3 minutes";
             frequency := "check every 10 minutes" |}
  /\ (forall u, ~ In u urgency_levels ->
                timing_map_get u = timing_map_get "medium")
  /\ (forall d d' ctx ctx',
        _calculate_intervention_urgency d = _calculate_intervention_urgency d' ->
        _calculate_intervention_timing d ctx
        = _calculate_intervention_timing d' ctx').
Proof.
  repeat split.
  - intros u Hu. unfold timing_map_get, timing_map, lookup_item.
    repeat case_decide; subst; try reflexivity; exfalso; apply Hu; simpl; tauto.
  - intros d d' ctx ctx' Hu. unfold _calculate_intervention_timing.
    now rewrite Hu.
Qed.

Lemma calculate_intervention_timing_lookup_witness :
  timing_map_get "urgent" = timing_map_get "medium"
  /\ _calculate_intervention_timing example_critical None
     = _calculate_intervention_timing example_tie (Some example_optimal).
Proof.
  destruct calculate_intervention_timing_lookup as (_ & _ & _ & Hfall & Hsame).
  split.
  - apply Hfall. simpl. intros [H | [H | [H | [H | []]]]]; discriminate.
  - apply Hsame. reflexivity.
Defined.

(** ** Outcome estimation *)

(** The outcome depends on the type of the interventions only. *)
Lemma predict_intervention_outcome_type d d' iv iv' :
  Iv.type iv = Iv.type iv' ->
  _predict_intervention_outcome d iv = _predict_intervention_outcome d' iv'.
Proof.
  intros H. unfold _predict_intervention_outcome, predicted_improvement.
  now rewrite H.
Qed.

(** C5 as the code has it: the factors are immediate 0.8, motivational 0.7,
    adaptive 0.6, cognitive 0.5, supportive 0.4, and 0.5 for a type outside the
    enumeration; the likelihood is the factor times 100 printed without
    decimals and followed by a percent sign; the time frame is the constant
    "5-15 minutes", written with a hyphen-minus; the confidence level is
    "moderate" exactly when the factor exceeds 0.5 and "low" otherwise. *)
Theorem predict_intervention_outcome_table d iv :
  match Iv.type iv with
  | VType IMMEDIATE =>
      predicted_improvement iv = 0.8%float
      /\ likelihood_of_success (_predict_intervention_outcome d iv) = "80%"
  | VType MOTIVATIONAL =>
      predicted_improvement iv = 0.7%float
      /\ likelihood_of_success (_predict_intervention_outcome d iv) = "70%"
  | VType ADAPTIVE =>
      predicted_improvement iv = 0.6%float
      /\ likelihood_of_success (_predict_intervention_outcome d iv) = "60%"
  | VType COGNITIVE =>
      predicted_improvement iv = 0.5%float
      /\ likelihood_of_success (_predict_intervention_outcome d iv) = "50%"
  | VType SUPPORTIVE =>
      predicted_improvement iv = 0.4%float
      /\ likelihood_of_success (_predict_intervention_outcome d iv) = "40%"
      /\ confidence_level (_predict_intervention_outcome d iv) = "low"
  | _ =>
      predicted_improvement iv = 0.5%float
      /\ likelihood_of_success (_predict_intervention_outcome d iv) = "50%"
  end
  /\ likelihood_of_success (_predict_intervention_outcome d iv)
     = format_0f (PrimFloat.mul (predicted_improvement iv) 100%float) ++ "%"
  /\ expected_timeframe (_predict_intervention_outcome d iv) = "5-15 minutes"
  /\ (confidence_level (_predict_intervention_outcome d iv) = "moderate"
      <-> PrimFloat.ltb 0.5%float (predicted_improvement iv) = true)
  /\ (confidence_level (_predict_intervention_outcome d iv) = "low"
      <-> PrimFloat.ltb 0.5%float (predicted_improvement iv) = false).
Proof.
  rewrite (predict_intervention_outcome_type d ∅ iv (with_type (Iv.type iv)))
    by reflexivity.
  change (predicted_improvement iv)
    with (predicted_improvement (with_type (Iv.type iv))).
  destruct (Iv.type iv) as [ | b | z | q | s | [] | p ];
    vm_compute; repeat split; intros; congruence.
Qed.

(** The time frame is not the string with an en dash (U+2013). *)
Lemma expected_timeframe_not_en_dash :
  ~ (forall d iv,
       expected_timeframe (_predict_intervention_outcome d iv)
       = "5–15 minutes").
Proof. intros H. specialize (H ∅ (with_type (VType SUPPORTIVE))). discriminate H. Qed.

(** ** Orchestration *)

Lemma generate_interventions_ok concern urgency phase g :
  exists iv g' t,
    _generate_interventions concern urgency phase g = Ok (iv, g')
    /\ Iv.type iv = VType t.
Proof.
  destruct (lookup_item concern intervention_strategies) as [strategies|] eqn:He.
  - destruct (generate_interventions_some concern urgency phase g strategies He)
      as (iv & g' & Hgen & Hty & _).
    eauto 6.
  - exists passive_recommendation, g, SUPPORTIVE.
    split; [now apply generate_interventions_none | reflexivity].
Qed.

Lemma timing_map_get_ok u : exists row, timing_map_get u = Ok row.
Proof. unfold timing_map_get. simpl. eauto. Qed.

(** What [analyze_intervention_need] returns once its two readings of the
    scores have succeeded. *)
Lemma analyze_after_readings d ctx g name u :
  _identify_primary_concern d = Ok name ->
  _calculate_intervention_urgency d = Ok u ->
  exists r g' t row,
    analyze_intervention_need d ctx g = Ok (r, g')
    /\ primary_concern r = name /\ urgency_level r = u
    /\ intervention_type r = VType t
    /\ timing_map_get u = Ok row /\ timing r = row.
Proof.
  intros Hname Hu.
  unfold analyze_intervention_need, _calculate_intervention_timing.
  rewrite Hname, Hu. cbn [mbind result_bind Py.bind].
  set (phase := if truthy ctx then _ else _).
  destruct (generate_interventions_ok name u phase g) as (iv & g' & t & -> & Hty).
  destruct (timing_map_get_ok u) as [row Hrow]. rewrite Hrow.
  cbn [mbind result_bind Py.bind].
  eexists _, g', t, row. split; [reflexivity|]. simpl. auto.
Qed.

Ltac use_readings H :=
  pose proof (H "frustration" ltac:(simpl; tauto)) as [-> | [Hf ->]];
  pose proof (H "confusion" ltac:(simpl; tauto)) as [-> | [Hc ->]];
  pose proof (H "engagement" ltac:(simpl; tauto)) as [-> | [He ->]];
  pose proof (H "confidence" ltac:(simpl; tauto)) as [-> | [Hk ->]];
  rewrite ?Hf, ?Hc, ?He, ?Hk.

Lemma identify_same_reading d d' :
  (forall s, In s compared_fields -> same_reading d d' s) ->
  _identify_primary_concern d' = _identify_primary_concern d.
Proof.
  intros H. unfold _identify_primary_concern, get, getitem.
  use_readings H; reflexivity.
Qed.

Lemma urgency_same_reading d d' :
  (forall s, In s compared_fields -> same_reading d d' s) ->
  _calculate_intervention_urgency d' = _calculate_intervention_urgency d.
Proof.
  intros H. unfold _calculate_intervention_urgency, get.
  use_readings H; reflexivity.
Qed.

Lemma analyze_same_reading d d' ctx g :
  (forall s, In s compared_fields -> same_reading d d' s) ->
  analyze_intervention_need d' ctx g = analyze_intervention_need d ctx g.
Proof.
  intros H.
  unfold analyze_intervention_need, _calculate_intervention_timing.
  rewrite (identify_same_reading d d' H), (urgency_same_reading d d' H).
  destruct (_identify_primary_concern d) as [name|]; [|reflexivity].
  destruct (_calculate_intervention_urgency d) as [u|]; [|reflexivity].
  cbn [mbind result_bind Py.bind].
  destruct (_generate_interventions _ _ _ _) as [[iv g']|]; reflexivity.
Qed.

Lemma insert_neutral_same_reading d s :
  d !! s = None ->
  forall s', same_reading d (<[s := VInt 5]> d) s'.
Proof.
  intros Hs s'. unfold same_reading. destruct (decide (s = s')) as [<-|Hne].
  - right. split; [exact Hs | apply lookup_insert_eq].
  - left. now apply lookup_insert_ne.
Qed.

(** C4. On a mapping whose compared fields hold numbers or are absent the
    call returns a recommendation whose concern is one of the six concerns,
    whose urgency is one of the four levels and whose type is a member of
    [InterventionType]; a score field that is absent is read as 5: storing 5
    under it changes nothing. *)
Theorem analyze_intervention_need_total d ctx g :
  (exists f c e k, scores d f c e k) ->
  (exists r g',
     analyze_intervention_need d ctx g = Ok (r, g')
     /\ In (primary_concern r) concerns
     /\ In (urgency_level r) urgency_levels
     /\ exists t, intervention_type r = VType t)
  /\ (forall s, In s score_fields -> d !! s = None ->
        analyze_intervention_need (<[s := VInt 5]> d) ctx g
        = analyze_intervention_need d ctx g).
Proof.
  intros (f & c & e & k & H). split.
  - destruct (identify_in_concerns d f c e k H) as (name & Hname & Hin).
    destruct (urgency_in_levels d f c e k H) as (u & Hu & Hlev).
    destruct (analyze_after_readings d ctx g name u Hname Hu)
      as (r & g' & t & row & Hr & <- & <- & Hty & _).
    exists r, g'. eauto.
  - intros s _ Hs. apply analyze_same_reading.
    intros s' _. now apply insert_neutral_same_reading.
Qed.

Lemma analyze_intervention_need_total_witness :
  (exists r g',
     analyze_intervention_need example_optimal None [7; 4; 1]%nat = Ok (r, g')
     /\ In (primary_concern r) concerns
     /\ In (urgency_level r) urgency_levels
     /\ exists t, intervention_type r = VType t)
  /\ (forall s, In s score_fields -> example_optimal !! s = None ->
        analyze_intervention_need (<[s := VInt 5]> example_optimal) None
          [7; 4; 1]%nat
        = analyze_intervention_need example_optimal None [7; 4; 1]%nat).
Proof.
  apply (analyze_intervention_need_total example_optimal None [7; 4; 1]%nat).
  exists 3%Q, 3%Q, 8%Q, 7%Q. split; reflexivity.
Defined.

(** C7. In a recommendation returned by [analyze_intervention_need] the
    timing is the row of [timing_map] under the reported urgency level, and
    the predicted outcome is the outcome estimated for the reported
    intervention type. *)
Theorem recommendation_consistent d ctx g r g' :
  analyze_intervention_need d ctx g = Ok (r, g') ->
  timing_map_get (urgency_level r) = Ok (timing r)
  /\ forall d' iv,
       Iv.type iv = intervention_type r ->
       predicted_outcome r = _predict_intervention_outcome d' iv.
Proof.
  unfold analyze_intervention_need, _calculate_intervention_timing.
  destruct (_identify_primary_concern d) as [name|]; [|discriminate].
  destruct (_calculate_intervention_urgency d) as [u|]; [|discriminate].
  cbn [mbind result_bind Py.bind].
  destruct (_generate_interventions _ _ _ _) as [[iv0 g0]|]; [|discriminate].
  cbn [mbind result_bind Py.bind].
  destruct (timing_map_get u) as [row|] eqn:Hrow; [|discriminate].
  cbn [mbind result_bind Py.bind].
  intros [= <- <-]. simpl. split; [exact Hrow|].
  intros d' iv Hty. now apply predict_intervention_outcome_type.
Qed.

Lemma recommendation_consistent_witness :
  exists r g',
    analyze_intervention_need example_critical None [7; 4; 1]%nat = Ok (r, g')
    /\ timing_map_get (urgency_level r) = Ok (timing r)
    /\ predicted_outcome r
       = _predict_intervention_outcome ∅ (with_type (intervention_type r)).
Proof.
  assert (analyze_intervention_need example_critical None [7; 4; 1]%nat
          = example_analysis) as H by (vm_compute; reflexivity).
  unfold example_analysis in H.
  eexists _, _. split; [exact H|].
  destruct (recommendation_consistent _ _ _ _ _ H) as [Ht Ho].
  split; [exact Ht | apply Ho; reflexivity].
Defined.

(** The first worked example in full: concern, urgency, type and timing. *)
Example analysis_example_critical :
  match example_analysis with
  | Ok (r, _) =>
      primary_concern r = "high_frustration"
      /\ urgency_level r = "critical"
      /\ intervention_type r = VType IMMEDIATE
      /\ when (timing r) = "immediately"
  | Raise _ => False
  end.
Proof. simpl. repeat split. Qed.

(** ** Values that are not numbers *)

Lemma score_none d s : score d s = None <-> non_numeric_at d s.
Proof.
  unfold score, non_numeric_at. destruct (d !! s) as [v|].
  - split; [eauto | now intros (? & [= <-] & ?)].
  - split; [discriminate | now intros (? & [=] & _)].
Qed.

Lemma score_none_get d s :
  score d s = None ->
  as_number (get d s (VInt 5)) = None.
Proof. unfold score, get. now destruct (d !! s). Qed.

Lemma gt_not_number a n :
  as_number a = None -> gt a (VInt n) = Raise (not_supported ">" a (VInt n)).
Proof. now destruct a. Qed.

Lemma lt_not_number a n :
  as_number a = None -> lt a (VInt n) = Raise (not_supported "<" a (VInt n)).
Proof. now destruct a. Qed.

(** Concern identification compares the four fields in turn, and the first
    one that holds no number raises. *)
Lemma identify_raises d :
  (exists s, In s compared_fields /\ score d s = None) ->
  exists op v n, _identify_primary_concern d = Raise (not_supported op v (VInt n)).
Proof.
  intros (s & Hin & Hs). unfold _identify_primary_concern.
  destruct (score d "frustration") as [f|] eqn:Hf;
    [| rewrite (gt_not_number _ _ (score_none_get _ _ Hf)); simpl; eauto].
  rewrite (gt_score _ _ _ _ Hf).
  destruct (Q_ltb_reflect (inject_Z 7) f) as [Lf|Lf];
    [destruct (getitem_score d _ f Hf) as (vf & _ & -> & _);
     [unfold inject_Z in Lf; lra|] |];
  cbn [mbind result_bind Py.bind];
  (destruct (score d "confusion") as [c|] eqn:Hc;
    [| rewrite (gt_not_number _ _ (score_none_get _ _ Hc)); simpl; eauto]);
  rewrite (gt_score _ _ _ _ Hc);
  (destruct (Q_ltb_reflect (inject_Z 7) c) as [Lc|Lc];
    [destruct (getitem_score d _ c Hc) as (vc & _ & -> & _);
     [unfold inject_Z in Lc; lra|] |]);
  cbn [mbind result_bind Py.bind];
  (destruct (score d "engagement") as [e|] eqn:He;
    [| rewrite (lt_not_number _ _ (score_none_get _ _ He)); simpl; eauto]);
  rewrite (lt_score _ _ _ _ He);
  (destruct (Q_ltb_reflect e (inject_Z 4)) as [Le|Le];
    [destruct (getitem_score d _ e He) as (ve & Ge & -> & Ne);
     [unfold inject_Z in Le; lra|];
     cbn [mbind result_bind Py.bind];
     destruct (sub_from_ten d _ ve e Ge Ne) as (we & qe & -> & _) |]);
  cbn [mbind result_bind Py.bind];
  (destruct (score d "confidence") as [k|] eqn:Hk;
    [| rewrite (lt_not_number _ _ (score_none_get _ _ Hk)); simpl; eauto]);
  exfalso; simpl in Hin;
  destruct Hin as [<- | [<- | [<- | [<- | []]]]]; congruence.
Qed.

Lemma analyze_raises d ctx g :
  (exists s, In s compared_fields /\ score d s = None) ->
  exists op v n,
    analyze_intervention_need d ctx g = Raise (not_supported op v (VInt n)).
Proof.
  intros H. destruct (identify_raises d H) as (op & v & n & Hr).
  exists op, v, n. unfold analyze_intervention_need. now rewrite Hr.
Qed.

Lemma not_supported_message op a b :
  message (not_supported op a b) <> "invalid score type".
Proof. simpl. discriminate. Qed.

Lemma scores_or_not d :
  (exists f c e k, scores d f c e k)
  \/ (exists s, In s compared_fields /\ score d s = None).
Proof.
  destruct (score d "frustration") as [f|] eqn:Hf;
    [| right; exists "frustration"; simpl; tauto].
  destruct (score d "confusion") as [c|] eqn:Hc;
    [| right; exists "confusion"; simpl; tauto].
  destruct (score d "engagement") as [e|] eqn:He;
    [| right; exists "engagement"; simpl; tauto].
  destruct (score d "confidence") as [k|] eqn:Hk;
    [| right; exists "confidence"; simpl; tauto].
  left. now exists f, c, e, k.
Qed.

Example text_frustration_raises :
  analyze_intervention_need example_text_frustration None []
  = Raise (TypeError "'>' not supported between instances of 'str' and 'int'").
Proof. vm_compute. reflexivity. Qed.

(** The statement of C9 fails: a mapping with a text under "excitement" is
    answered with a recommendation, not rejected. *)
Lemma non_numeric_score_not_rejected :
  ~ (forall d ctx g,
       (exists s, In s score_fields /\ non_numeric_at d s) ->
       exists e,
         analyze_intervention_need d ctx g = Raise e
         /\ message e = "invalid score type").
Proof.
  intros H.
  destruct (H example_text_excitement None []) as (e & He & _).
  - exists "excitement". split; [simpl; tauto|].
    exists (VStr "high"). split; reflexivity.
  - vm_compute in He. discriminate He.
Qed.

(** C9 as the code has it: a value that is not a number under one of the four
    compared fields makes the call raise the TypeError of the comparison, whose
    message is not "invalid score type"; whatever is stored under any other
    key is ignored; and that TypeError is the only exception the call raises. *)
Theorem non_numeric_score_type_error d ctx g :
  (forall s, In s compared_fields -> non_numeric_at d s ->
     exists msg,
       analyze_intervention_need d ctx g = Raise (TypeError msg)
       /\ msg <> "invalid score type")
  /\ (forall s v, ~ In s compared_fields ->
        analyze_intervention_need (<[s := v]> d) ctx g
        = analyze_intervention_need d ctx g)
  /\ (forall e, analyze_intervention_need d ctx g = Raise e ->
        (exists msg, e = TypeError msg)
        /\ exists s, In s compared_fields /\ non_numeric_at d s).
Proof.
  split; [|split].
  - intros s Hin Hs. apply score_none in Hs.
    destruct (analyze_raises d ctx g) as (op & v & n & ->); [eauto|].
    eexists. split; [reflexivity|]. apply (not_supported_message op v (VInt n)).
  - intros s v Hs. apply analyze_same_reading. intros s' Hin. left.
    apply lookup_insert_ne. intros ->. now apply Hs.
  - intros exc Hexc.
    destruct (scores_or_not d) as [(f & c & e & k & H) | (s & Hin & Hs)].
    + destruct (identify_in_concerns d f c e k H) as (name & Hname & _).
      destruct (urgency_in_levels d f c e k H) as (u & Hu & _).
      destruct (analyze_after_readings d ctx g name u Hname Hu)
        as (r & g' & _ & _ & Hr & _).
      rewrite Hr in Hexc. discriminate.
    + destruct (analyze_raises d ctx g) as (op & v & n & Hr); [eauto|].
      rewrite Hr in Hexc. injection Hexc as <-. split.
      * eexists. reflexivity.
      * exists s. split; [exact Hin | now apply score_none].
Qed.

Lemma non_numeric_score_type_error_witness :
  (exists msg,
     analyze_intervention_need example_text_frustration None []
     = Raise (TypeError msg)
     /\ msg <> "invalid score type")
  /\ analyze_intervention_need example_text_excitement None []
     = analyze_intervention_need example_optimal None [].
Proof.
  split.
  - apply (proj1 (non_numeric_score_type_error
                    example_text_frustration None []) "frustration").
    + simpl. tauto.
    + exists (VStr "high"). split; reflexivity.
  - apply (proj1 (proj2 (non_numeric_score_type_error example_optimal None []))).
    simpl. intros [H | [H | [H | [H | []]]]]; discriminate.
Defined.

(** * Further properties of the engine *)

(** ** Sampling actions without replacement *)

Lemma insert_swap_perm {A} (l : list A) :
  forall j x y, l !! j = Some x -> x :: <[j := y]> l ≡ₚ y :: l.
Proof.
  induction l as [|a l IH]; intros [|j] x y Hj; simpl in *; try discriminate.
  - injection Hj as ->. apply perm_swap.
  - rewrite perm_swap. rewrite (IH j x y Hj). apply perm_swap.
Qed.

(** Selecting the element at [j] and refilling its slot with the last active
    element leaves the other active elements. *)
Lemma take_refill_perm {A} (pool : list A) m j x y :
  pool !! j = Some x -> pool !! m = Some y -> (j <= m)%nat ->
  take (S m) pool ≡ₚ x :: take m (<[j := y]> pool).
Proof.
  intros Hj Hm Hle. rewrite (take_S_r pool m y Hm).
  destruct (decide (j = m)) as [->|Hne].
  - rewrite take_insert_ge by lia. rewrite Hj in Hm. injection Hm as ->.
    symmetry. apply Permutation_cons_append.
  - rewrite take_insert_lt by lia.
    rewrite (insert_swap_perm (take m pool) j x y).
    + symmetry. apply Permutation_cons_append.
    + rewrite lookup_take_lt by lia. exact Hj.
Qed.

Lemma randbelow_rest n g : snd (Random.randbelow n g) = drop 1 g.
Proof. now destruct g. Qed.

(** What the rounds of [random.sample] select is, with some remainder, a
    rearrangement of the active part of the pool; each round takes one
    outcome from the generator. *)
Lemma sample_rounds_perm {A} rounds :
  forall (pool : list A) n i g l g',
    length pool = n -> (i + rounds <= n)%nat ->
    Random.sample_rounds pool n i rounds g = Ok (l, g') ->
    length l = rounds /\ g' = drop rounds g
    /\ exists rest, take (n - i) pool ≡ₚ (l ++ rest)%list.
Proof.
  induction rounds as [|rounds IH]; intros pool n i g l g' Hlen Hle; simpl.
  - intros [= <- <-]. repeat split. now exists (take (n - i) pool).
  - pose proof (randbelow_lt (n - i) g ltac:(lia)) as Hj.
    pose proof (randbelow_rest (n - i) g) as Hg.
    destruct (Random.randbelow (n - i) g) as [j g1]. simpl in Hj, Hg.
    destruct (pool !! j) as [x|] eqn:Hx; [|discriminate].
    destruct (pool !! (n - i - 1)%nat) as [y|] eqn:Hy; [|discriminate].
    destruct (Random.sample_rounds (<[j := y]> pool) n (S i) rounds g1)
      as [[l1 g2]|] eqn:Hrec; [|discriminate].
    intros [= <- <-].
    destruct (IH (<[j := y]> pool) n (S i) g1 l1 g2) as (Hl1 & Hg2 & rest & Hperm);
      [now rewrite length_insert | lia | exact Hrec |].
    split; [simpl; now rewrite Hl1|].
    split; [subst g1 g2; rewrite drop_drop; f_equal; lia|].
    exists rest. simpl.
    replace (n - i)%nat with (S (n - i - 1)) by lia.
    rewrite (take_refill_perm pool (n - i - 1) j x y Hx Hy) by lia.
    constructor. replace (n - i - 1)%nat with (n - S i)%nat by lia.
    exact Hperm.
Qed.

Lemma sample_perm {A} (population : list A) k g l g' :
  Random.sample population k g = Ok (l, g') ->
  length l = k /\ g' = drop k g
  /\ exists rest, population ≡ₚ (l ++ rest)%list.
Proof.
  unfold Random.sample.
  destruct (Nat.ltb_spec (length population) k); [discriminate|].
  intros Hs.
  destruct (sample_rounds_perm k population (length population) 0 g l g')
    as (Hl & Hg & rest & Hp); [reflexivity | lia | exact Hs |].
  repeat split; [exact Hl | exact Hg |].
  exists rest. rewrite <- Hp. rewrite Nat.sub_0_r. now rewrite take_ge by lia.
Qed.

(** ** What strategy selection returns for a concern of the catalog *)

Lemma catalog_actions concern strategies t acts :
  lookup_item concern intervention_strategies = Some strategies ->
  lookup_item t strategies = Some acts ->
  length acts = 4%nat /\ NoDup acts.
Proof.
  unfold intervention_strategies, lookup_item at 1.
  repeat case_decide; intros [= <-]; destruct t; simpl;
    intros [= <-]; (split; [reflexivity | compute_done]).
Qed.

Lemma generate_interventions_detail concern urgency phase g strategies :
  lookup_item concern intervention_strategies = Some strategies ->
  exists t acts sel g',
    _generate_interventions concern urgency phase g
    = Ok ({| Iv.type := VType t;
             Iv.actions := sel;
             Iv.explanation :=
               _generate_intervention_explanation concern t urgency;
             Iv.success_indicators := _define_success_indicators concern |},
          g')
    /\ t = resolve_type strategies
             (candidate_type urgency (fst (Random.randbelow 2 g)))
    /\ lookup_item t strategies = Some acts
    /\ Random.sample acts (Nat.min 2 (length acts)) (after_choice urgency g)
       = Ok (sel, g').
Proof.
  intros Hentry. pose proof (catalog_entry_nonempty _ _ Hentry) as Hne.
  unfold _generate_interventions. rewrite Hentry.
  set (t0 := candidate_type urgency (fst (Random.randbelow 2 g))).
  assert (
    (if decide (urgency = "critical") then Ok (IMMEDIATE, g)
     else if decide (urgency = "high")
          then Random.choice [IMMEDIATE; ADAPTIVE] g
     else if decide (urgency = "medium")
          then Random.choice [ADAPTIVE; SUPPORTIVE] g
     else Ok (SUPPORTIVE, g)) = Ok (t0, after_choice urgency g)) as ->.
  { subst t0. unfold candidate_type, after_choice. rewrite !choice_pair.
    rewrite randbelow_rest. repeat case_decide; reflexivity. }
  cbn [mbind result_bind Py.bind].
  assert (exists acts,
    match lookup_item t0 strategies with
    | Some acts => Ok (t0, acts)
    | None =>
        match keys strategies !! 0%nat with
        | None => Raise (IndexError "list index out of range")
        | Some first_type =>
            match lookup_item first_type strategies with
            | Some acts => Ok (first_type, acts)
            | None => Raise (KeyError (value first_type))
            end
        end
    end = Ok (resolve_type strategies t0, acts)
    /\ lookup_item (resolve_type strategies t0) strategies = Some acts)
    as (acts & -> & Hacts).
  { unfold resolve_type.
    destruct (lookup_item t0 strategies) as [acts|] eqn:Ht0; [eauto|].
    destruct strategies as [|[t1 a1] rest]; [now destruct Hne|].
    simpl. destruct (decide (t1 = t1)); [eauto | congruence]. }
  cbn [mbind result_bind Py.bind].
  destruct (sample_ok acts (Nat.min 2 (length acts)) (after_choice urgency g))
    as (sel & g2 & Hsample & _); [lia|].
  rewrite Hsample. cbn [mbind result_bind Py.bind].
  exists (resolve_type strategies t0), acts, sel, g2. auto.
Qed.

(** X1. For a concern of the catalog the recommended actions are two
    different phrases, both from the list the concern's entry gives for the
    type that is returned. *)
Theorem generate_interventions_actions concern urgency phase g strategies :
  lookup_item concern intervention_strategies = Some strategies ->
  exists iv g' t acts,
    _generate_interventions concern urgency phase g = Ok (iv, g')
    /\ Iv.type iv = VType t
    /\ lookup_item t strategies = Some acts
    /\ length (Iv.actions iv) = 2%nat
    /\ NoDup (Iv.actions iv)
    /\ forall a, In a (Iv.actions iv) -> In a acts.
Proof.
  intros Hentry.
  destruct (generate_interventions_detail concern urgency phase g strategies
              Hentry) as (t & acts & sel & g' & Hgen & _ & Hacts & Hsample).
  destruct (catalog_actions concern strategies t acts Hentry Hacts)
    as [Hlen Hnodup].
  destruct (sample_perm acts _ _ sel g' Hsample) as (Hsel & _ & rest & Hperm).
  eexists _, g', t, acts. split; [exact Hgen|]. simpl.
  repeat split; try assumption.
  - rewrite Hsel, Hlen. reflexivity.
  - rewrite Hperm in Hnodup. now apply NoDup_app in Hnodup.
  - intros a Ha. apply list_elem_of_In. rewrite Hperm.
    apply list_elem_of_In. apply in_or_app. now left.
Qed.

Lemma generate_interventions_actions_witness :
  exists iv g' t acts,
    _generate_interventions "high_confusion" "critical" (VPhase PRACTICE)
      [3; 1]%nat = Ok (iv, g')
    /\ Iv.type iv = VType t
    /\ lookup_item t
         (default [] (lookup_item "high_confusion" intervention_strategies))
       = Some acts
    /\ length (Iv.actions iv) = 2%nat
    /\ NoDup (Iv.actions iv)
    /\ forall a, In a (Iv.actions iv) -> In a acts.
Proof.
  apply (generate_interventions_actions "high_confusion" "critical"
           (VPhase PRACTICE) [3; 1]%nat).
  reflexivity.
Defined.

(** ** Which concern is identified *)

(** Use the maximality of the returned candidate at the positions 0 to 3. *)
Ltac maximal_at Hall :=
  try (edestruct (Hall 0%nat) as [? ?]; [simpl; reflexivity |]);
  try (edestruct (Hall 1%nat) as [? ?]; [simpl; reflexivity |]);
  try (edestruct (Hall 2%nat) as [? ?]; [simpl; reflexivity |]);
  try (edestruct (Hall 3%nat) as [? ?]; [simpl; reflexivity |]);
  repeat match goal with
         | H : (?a < ?b)%nat -> _ |- _ =>
             first [ specialize (H ltac:(lia)) | clear H ]
         end.

Lemma identify_table d f c e k :
  scores d f c e k ->
  let we := low_weight d "engagement" e in
  let wk := low_weight d "confidence" k in
  (_identify_primary_concern d = Ok "high_frustration"
   <-> frustration_first f c e k we wk)
  /\ (_identify_primary_concern d = Ok "high_confusion"
      <-> confusion_first f c e k we wk)
  /\ (_identify_primary_concern d = Ok "low_engagement"
      <-> engagement_first f c e k we wk)
  /\ (_identify_primary_concern d = Ok "low_confidence"
      <-> confidence_first f c e k we wk).
Proof.
  intros H we wk.
  unfold frustration_first, confusion_first, engagement_first, confidence_first.
  destruct (identify_outcome d f c e k H)
    as [(Hnil & Hres) | (_ & i & name & Hres & w & Hat & Hall)].
  - assert (~ (7 < f)%Q /\ ~ (7 < c)%Q /\ ~ (e < 4)%Q /\ ~ (k < 4)%Q) as Hno.
    { unfold distress_candidates in Hnil.
      destruct (Qlt_le_dec 7 f), (Qlt_le_dec 7 c), (Qlt_le_dec e 4),
        (Qlt_le_dec k 4); try discriminate; repeat split; lra. }
    destruct Hres as [(_ & ->) | (_ & ->)];
      repeat split; intros; try discriminate; tauto.
  - rewrite Hres. unfold distress_candidates in Hat, Hall.
    fold we wk in Hat, Hall.
    destruct (Qlt_le_dec 7 f), (Qlt_le_dec 7 c), (Qlt_le_dec e 4),
      (Qlt_le_dec k 4);
      destruct i as [|[|[|[|i]]]]; simpl in Hat; try discriminate;
      injection Hat as <- <-; maximal_at Hall;
      repeat split; intros; try discriminate; try reflexivity; try lra;
      exfalso; intuition lra.
Qed.

(** X2. Which distress concern is returned, on the numbers read: a concern
    is returned exactly when its predicate fires, it weighs strictly more than
    every firing concern evaluated before it and at least as much as every
    firing concern evaluated after it; [we] and [wk] are the weights
    10 - engagement and 10 - confidence as the subtraction returns them. *)
Theorem identify_primary_concern_table d f c e k :
  scores d f c e k ->
  let we := low_weight d "engagement" e in
  let wk := low_weight d "confidence" k in
  (_identify_primary_concern d = Ok "high_frustration"
   <-> (7 < f /\ (7 < c -> c <= f) /\ (e < 4 -> we <= f)
        /\ (k < 4 -> wk <= f))%Q)
  /\ (_identify_primary_concern d = Ok "high_confusion"
      <-> (7 < c /\ (7 < f -> f < c) /\ (e < 4 -> we <= c)
           /\ (k < 4 -> wk <= c))%Q)
  /\ (_identify_primary_concern d = Ok "low_engagement"
      <-> (e < 4 /\ (7 < f -> f < we) /\ (7 < c -> c < we)
           /\ (k < 4 -> wk <= we))%Q)
  /\ (_identify_primary_concern d = Ok "low_confidence"
      <-> (k < 4 /\ (7 < f -> f < wk) /\ (7 < c -> c < wk)
           /\ (e < 4 -> we < wk))%Q).
Proof.
  intros H we wk.
  destruct (identify_table d f c e k H) as (Tf & Tc & Te & Tk).
  fold we wk in Tf, Tc, Te, Tk.
  unfold frustration_first in Tf. unfold confusion_first in Tc.
  unfold engagement_first in Te. unfold confidence_first in Tk.
  split; [exact Tf | split; [exact Tc | split; [exact Te | exact Tk]]].
Qed.

Lemma identify_primary_concern_table_witness :
  _identify_primary_concern example_tie = Ok "high_confusion"
  <-> (7 < 9 /\ (7 < 8 -> 8 < 9)
       /\ (1 < 4 -> low_weight example_tie "engagement" 1 <= 9)
       /\ (6.5 < 4 -> low_weight example_tie "confidence" 6.5 <= 9))%Q.
Proof.
  apply (identify_primary_concern_table example_tie 8 9 1 6.5).
  split; reflexivity.
Defined.

(** The float scores 7.1 and 2.9: the exact difference 10 - 2.9 exceeds the
    float 7.1, the float difference is the float 7.1, and the tie goes to the
    concern evaluated first. *)
Example identify_rounded_tie :
  (of_float 7.1 < 10 - of_float 2.9)%Q
  /\ low_weight example_rounded_tie "engagement" (of_float 2.9) = of_float 7.1
  /\ _identify_primary_concern example_rounded_tie = Ok "high_frustration".
Proof.
  split; [apply Qlt_alt; vm_compute; reflexivity|].
  split; vm_compute; reflexivity.
Qed.

(** A field that holds the same entry weighs the same. *)
Lemma low_weight_kept d d' key q q' :
  d' !! key = d !! key -> score d key = Some q -> score d' key = Some q' ->
  q' = q /\ low_weight d' key q' = low_weight d key q.
Proof.
  intros E Hq Hq'. unfold score in *. rewrite E in Hq'.
  assert (q' = q) as -> by congruence. split; [reflexivity|].
  unfold low_weight, float_at. now rewrite E.
Qed.

(** A lower score of the same kind weighs at least as much. *)
Lemma low_weight_le d d' key q q' :
  float_at d' key = float_at d key -> (q' <= q)%Q ->
  (low_weight d key q <= low_weight d' key q')%Q.
Proof.
  intros E Hle. unfold low_weight. rewrite E.
  destruct (float_at d key); [apply round64_le|]; lra.
Qed.

(** X3. A distress concern stays the one identified when its own score gets
    worse and the three other compared fields keep their entries; a lowered
    engagement or confidence score is to stay of its kind, [float] or not,
    the weight of a [float] being rounded. *)
Theorem identify_primary_concern_stable d d' f c e k f' c' e' k' :
  scores d f c e k -> scores d' f' c' e' k' ->
  (others_kept d d' "frustration" -> (f <= f')%Q ->
   _identify_primary_concern d = Ok "high_frustration" ->
   _identify_primary_concern d' = Ok "high_frustration")
  /\ (others_kept d d' "confusion" -> (c <= c')%Q ->
      _identify_primary_concern d = Ok "high_confusion" ->
      _identify_primary_concern d' = Ok "high_confusion")
  /\ (others_kept d d' "engagement" ->
      float_at d' "engagement" = float_at d "engagement" -> (e' <= e)%Q ->
      _identify_primary_concern d = Ok "low_engagement" ->
      _identify_primary_concern d' = Ok "low_engagement")
  /\ (others_kept d d' "confidence" ->
      float_at d' "confidence" = float_at d "confidence" -> (k' <= k)%Q ->
      _identify_primary_concern d = Ok "low_confidence" ->
      _identify_primary_concern d' = Ok "low_confidence").
Proof.
  intros H H'.
  destruct (identify_table d f c e k H) as (Tf & Tc & Te & Tk).
  destruct (identify_table d' f' c' e' k' H') as (Tf' & Tc' & Te' & Tk').
  destruct H as [Hf Hc He Hk], H' as [Hf' Hc' He' Hk'].
  assert (forall own s, others_kept d d' own -> In s compared_fields ->
                        s <> own -> d' !! s = d !! s) as Hkept
    by (intros own s Ho; apply Ho).
  unfold frustration_first, confusion_first, engagement_first,
    confidence_first in *.
  repeat split.
  - intros Ho L Hres. apply Tf'. apply Tf in Hres.
    destruct (low_weight_kept d d' "confusion" c c') as [-> _];
      [apply (Hkept _ _ Ho); [simpl; tauto | discriminate] | assumption
      | assumption |].
    destruct (low_weight_kept d d' "engagement" e e') as [-> ->];
      [apply (Hkept _ _ Ho); [simpl; tauto | discriminate] | assumption
      | assumption |].
    destruct (low_weight_kept d d' "confidence" k k') as [-> ->];
      [apply (Hkept _ _ Ho); [simpl; tauto | discriminate] | assumption
      | assumption |].
    revert Hres L. clear.
    generalize (low_weight d "engagement" e) (low_weight d "confidence" k).
    intros we wk Hres L. repeat split; intros; intuition lra.
  - intros Ho L Hres. apply Tc'. apply Tc in Hres.
    destruct (low_weight_kept d d' "frustration" f f') as [-> _];
      [apply (Hkept _ _ Ho); [simpl; tauto | discriminate] | assumption
      | assumption |].
    destruct (low_weight_kept d d' "engagement" e e') as [-> ->];
      [apply (Hkept _ _ Ho); [simpl; tauto | discriminate] | assumption
      | assumption |].
    destruct (low_weight_kept d d' "confidence" k k') as [-> ->];
      [apply (Hkept _ _ Ho); [simpl; tauto | discriminate] | assumption
      | assumption |].
    revert Hres L. clear.
    generalize (low_weight d "engagement" e) (low_weight d "confidence" k).
    intros we wk Hres L. repeat split; intros; intuition lra.
  - intros Ho Hkind L Hres. apply Te'. apply Te in Hres.
    destruct (low_weight_kept d d' "frustration" f f') as [-> _];
      [apply (Hkept _ _ Ho); [simpl; tauto | discriminate] | assumption
      | assumption |].
    destruct (low_weight_kept d d' "confusion" c c') as [-> _];
      [apply (Hkept _ _ Ho); [simpl; tauto | discriminate] | assumption
      | assumption |].
    destruct (low_weight_kept d d' "confidence" k k') as [-> ->];
      [apply (Hkept _ _ Ho); [simpl; tauto | discriminate] | assumption
      | assumption |].
    pose proof (low_weight_le d d' "engagement" e e' Hkind L) as Hw.
    revert Hres L Hw. clear.
    generalize (low_weight d "engagement" e) (low_weight d' "engagement" e')
      (low_weight d "confidence" k).
    intros we we' wk Hres L Hw. repeat split; intros; intuition lra.
  - intros Ho Hkind L Hres. apply Tk'. apply Tk in Hres.
    destruct (low_weight_kept d d' "frustration" f f') as [-> _];
      [apply (Hkept _ _ Ho); [simpl; tauto | discriminate] | assumption
      | assumption |].
    destruct (low_weight_kept d d' "confusion" c c') as [-> _];
      [apply (Hkept _ _ Ho); [simpl; tauto | discriminate] | assumption
      | assumption |].
    destruct (low_weight_kept d d' "engagement" e e') as [-> ->];
      [apply (Hkept _ _ Ho); [simpl; tauto | discriminate] | assumption
      | assumption |].
    pose proof (low_weight_le d d' "confidence" k k' Hkind L) as Hw.
    revert Hres L Hw. clear.
    generalize (low_weight d "engagement" e) (low_weight d "confidence" k)
      (low_weight d' "confidence" k').
    intros we wk wk' Hres L Hw. repeat split; intros; intuition lra.
Qed.

(** Engagement lowered from the float 2.9 to the float 2.5 against a
    frustration of 7.05. *)
Lemma identify_primary_concern_stable_witness :
  _identify_primary_concern
    (<["engagement" := VFloat 2.5]>
       (<["frustration" := VFloat (of_float 7.05)]> ∅))
  = Ok "low_engagement".
Proof.
  apply (identify_primary_concern_stable
           (<["engagement" := VFloat (of_float 2.9)]>
              (<["frustration" := VFloat (of_float 7.05)]> ∅))
           (<["engagement" := VFloat 2.5]>
              (<["frustration" := VFloat (of_float 7.05)]> ∅))
           (of_float 7.05) 5 (of_float 2.9) 5 (of_float 7.05) 5 2.5 5).
  - split; reflexivity.
  - split; reflexivity.
  - intros s Hin Hne. simpl in Hin.
    destruct Hin as [<- | [<- | [<- | [<- | []]]]];
      [reflexivity | reflexivity | now destruct Hne | reflexivity].
  - reflexivity.
  - apply Qle_bool_imp_le. vm_compute. reflexivity.
  - vm_compute. reflexivity.
Defined.

(** ** Critical readings *)

Lemma critical_rung_fires d f c e k :
  scores d f c e k -> critical_rung f c e ->
  exists name,
    _identify_primary_concern d = Ok name /\ In name distress_concerns.
Proof.
  intros H Hcrit.
  destruct (identify_outcome d f c e k H)
    as [(Hnil & _) | (_ & i & name & Hres & w & Hat & _)].
  - exfalso. unfold distress_candidates in Hnil. unfold critical_rung in Hcrit.
    destruct (Qlt_le_dec 7 f), (Qlt_le_dec 7 c), (Qlt_le_dec e 4);
      try discriminate; lra.
  - exists name. split; [exact Hres|].
    apply list_elem_of_lookup_2, list_elem_of_In in Hat.
    apply distress_candidates_names in Hat.
    destruct Hat as [(-> & _) | [(-> & _) | [(-> & _) | (-> & _)]]];
      simpl; tauto.
Qed.

(** X4. A mapping graded "critical" is never identified as "optimal_state" or
    "neutral_state": its concern is one of the four distress concerns. *)
Theorem critical_urgency_distress_concern d f c e k :
  scores d f c e k ->
  _calculate_intervention_urgency d = Ok "critical" ->
  exists name,
    _identify_primary_concern d = Ok name /\ In name distress_concerns.
Proof.
  intros H Hu. apply (critical_rung_fires d f c e k H).
  destruct (urgency_ladder d f c e k H)
    as [(C & _) | [(_ & _ & Hr) | [(_ & _ & _ & Hr) | (_ & _ & _ & Hr)]]];
    [exact C | | |]; rewrite Hr in Hu; discriminate.
Qed.

Lemma critical_urgency_distress_concern_witness :
  exists name,
    _identify_primary_concern example_tie = Ok name
    /\ In name distress_concerns.
Proof.
  apply (critical_urgency_distress_concern example_tie 8 9 1 6.5).
  - split; reflexivity.
  - reflexivity.
Defined.

(** ** The assembled recommendation *)

Lemma truthy_phase ctx :
  (if truthy ctx
   then get (default ∅ ctx) "phase" (VPhase PRACTICE)
   else VPhase PRACTICE) = context_phase ctx.
Proof.
  destruct ctx as [m|]; [|reflexivity]. simpl.
  destruct (Nat.eqb_spec (size m) 0) as [Hz|Hz]; [|reflexivity].
  apply map_size_empty_iff in Hz. subst m. simpl. now rewrite lookup_empty.
Qed.

(** The recommendation in terms of the results of the four steps. *)
Lemma analyze_assembled d ctx g name u iv g' :
  _identify_primary_concern d = Ok name ->
  _calculate_intervention_urgency d = Ok u ->
  _generate_interventions name u (context_phase ctx) g = Ok (iv, g') ->
  exists row,
    timing_map_get u = Ok row
    /\ analyze_intervention_need d ctx g
       = Ok ({| primary_concern := name;
                urgency_level := u;
                intervention_type := Iv.type iv;
                recommended_actions := Iv.actions iv;
                timing := row;
                explanation := Iv.explanation iv;
                success_indicators := Iv.success_indicators iv;
                learning_phase := context_phase ctx;
                predicted_outcome := _predict_intervention_outcome d iv |},
             g').
Proof.
  intros Hname Hu Hgen.
  destruct (timing_map_get_ok u) as [row Hrow]. exists row.
  split; [exact Hrow|].
  unfold analyze_intervention_need, _calculate_intervention_timing.
  rewrite Hname, Hu. cbn [mbind result_bind Py.bind].
  rewrite truthy_phase, Hgen. cbn [mbind result_bind Py.bind].
  rewrite Hrow. reflexivity.
Qed.

(** X5. A reading on the critical rung is answered at once and by the type
    its concern gets under critical urgency: immediate for "high_frustration",
    cognitive for "high_confusion", motivational for "low_engagement" and
    "low_confidence"; the passive recommendation is never given. *)
Theorem critical_recommendation d ctx g f c e k :
  scores d f c e k -> critical_rung f c e ->
  exists r g',
    analyze_intervention_need d ctx g = Ok (r, g')
    /\ urgency_level r = "critical"
    /\ In (primary_concern r) distress_concerns
    /\ intervention_type r = VType (critical_type (primary_concern r))
    /\ when (timing r) = "immediately"
    /\ recommended_actions r <> ["Continue monitoring student progress"].
Proof.
  intros H Hcrit.
  destruct (critical_rung_fires d f c e k H Hcrit) as (name & Hname & Hin).
  assert (_calculate_intervention_urgency d = Ok "critical") as Hu.
  { destruct (urgency_ladder d f c e k H) as [(_ & Hr) | [(C & _) | [(C & _) | (C & _)]]];
      [exact Hr | | |]; now destruct C. }
  assert (exists strategies,
             lookup_item name intervention_strategies = Some strategies
             /\ resolve_type strategies IMMEDIATE = critical_type name)
    as (strategies & Hentry & Hres).
  { simpl in Hin. destruct Hin as [<- | [<- | [<- | [<- | []]]]];
      eexists; (split; [reflexivity|]); reflexivity. }
  destruct (generate_interventions_detail name "critical" (context_phase ctx) g
              strategies Hentry)
    as (t & acts & sel & g' & Hgen & Ht & Hacts & Hsample).
  destruct (catalog_actions name strategies t acts Hentry Hacts) as [Hlen _].
  destruct (sample_perm acts _ _ sel g' Hsample) as (Hsel & _).
  destruct (analyze_assembled d ctx g name "critical" _ g' Hname Hu Hgen)
    as (row & Hrow & Hr).
  eexists _, g'. split; [exact Hr|]. simpl.
  repeat split; try assumption.
  - f_equal. rewrite Ht. exact Hres.
  - vm_compute in Hrow. now injection Hrow as <-.
  - intros Heq. rewrite Heq, Hlen in Hsel. discriminate.
Qed.

Lemma critical_recommendation_witness :
  exists r g',
    analyze_intervention_need example_tie None [5; 2]%nat = Ok (r, g')
    /\ urgency_level r = "critical"
    /\ In (primary_concern r) distress_concerns
    /\ intervention_type r = VType (critical_type (primary_concern r))
    /\ when (timing r) = "immediately"
    /\ recommended_actions r <> ["Continue monitoring student progress"].
Proof.
  apply (critical_recommendation example_tie None [5; 2]%nat 8 9 1 6.5).
  - split; reflexivity.
  - unfold critical_rung. right. left. lra.
Defined.

Lemma generate_interventions_phase concern urgency p p' g :
  _generate_interventions concern urgency p g
  = _generate_interventions concern urgency p' g.
Proof. reflexivity. Qed.

(** X6. The learning context decides the reported learning phase and nothing
    else: the phase is the context's entry "phase", or PRACTICE when the
    context is absent, empty or has no such entry; every other field, the
    generator left over and a raised exception are those of the call without
    context. *)
Theorem learning_context_only_sets_phase d ctx g :
  match analyze_intervention_need d ctx g with
  | Ok (r, g') =>
      learning_phase r = context_phase ctx
      /\ analyze_intervention_need d None g
         = Ok (with_learning_phase r (VPhase PRACTICE), g')
  | Raise exc => analyze_intervention_need d None g = Raise exc
  end.
Proof.
  unfold analyze_intervention_need, _calculate_intervention_timing.
  destruct (_identify_primary_concern d) as [name|]; [|reflexivity].
  destruct (_calculate_intervention_urgency d) as [u|]; [|reflexivity].
  cbn [mbind result_bind Py.bind].
  rewrite truthy_phase.
  rewrite (generate_interventions_phase name u (context_phase ctx)
             (VPhase PRACTICE) g).
  change (if truthy None then _ else _) with (VPhase PRACTICE).
  destruct (_generate_interventions name u (VPhase PRACTICE) g)
    as [[iv g']|]; [|reflexivity].
  cbn [mbind result_bind Py.bind].
  destruct (timing_map_get u) as [row|]; [|reflexivity].
  cbn [mbind result_bind Py.bind]. split; reflexivity.
Qed.

(** ** Outcomes taken from the generator *)

(** X7. Strategy selection always returns, and leaves the generator advanced
    by [draws_taken] outcomes: 0 for a concern without catalog entry, 3 under
    "high" or "medium" urgency, 2 otherwise. *)
Theorem generate_interventions_draws concern urgency phase g :
  exists iv g',
    _generate_interventions concern urgency phase g = Ok (iv, g')
    /\ g' = drop (draws_taken concern urgency) g
    /\ (draws_taken concern urgency <= 3)%nat.
Proof.
  unfold draws_taken.
  destruct (lookup_item concern intervention_strategies) as [strategies|] eqn:He.
  - destruct (generate_interventions_detail concern urgency phase g strategies
                He) as (t & acts & sel & g' & Hgen & _ & Hacts & Hsample).
    destruct (catalog_actions concern strategies t acts He Hacts) as [Hlen _].
    destruct (sample_perm acts _ _ sel g' Hsample) as (_ & Hg' & _).
    eexists _, g'. split; [exact Hgen|]. rewrite Hlen in Hg'. simpl in Hg'.
    unfold after_choice in Hg'.
    repeat case_decide; subst; try discriminate;
      rewrite ?drop_drop; (split; [reflexivity | lia]).
  - exists passive_recommendation, g.
    split; [now apply generate_interventions_none|].
    split; [reflexivity | lia].
Qed.

(** X8. The texts of a strategy: the explanation is never the generic
    sentence kept as default in [_generate_intervention_explanation], since
    every concern of the catalog has its own; the success indicators are three
    for a distress concern and two otherwise, "optimal_state" getting the
    default list of [_define_success_indicators]. *)
Theorem generate_interventions_texts concern urgency phase g :
  exists iv g',
    _generate_interventions concern urgency phase g = Ok (iv, g')
    /\ (forall t,
          Iv.explanation iv
          <> "Emotional state analysis suggests " ++ value t
             ++ " intervention would be beneficial.")
    /\ ((In concern distress_concerns
         /\ length (Iv.success_indicators iv) = 3%nat)
        \/ (~ In concern distress_concerns
            /\ length (Iv.success_indicators iv) = 2%nat))
    /\ (concern = "optimal_state" ->
        Iv.success_indicators iv
        = ["Improved overall emotional state"; "Better learning engagement"]).
Proof.
  destruct (lookup_item concern intervention_strategies) as [strategies|] eqn:He.
  - destruct (generate_interventions_detail concern urgency phase g strategies
                He) as (t & acts & sel & g' & Hgen & _).
    eexists _, g'. split; [exact Hgen|]. simpl. clear Hgen.
    assert (In concern ("optimal_state" :: distress_concerns)) as Hin.
    { unfold intervention_strategies, lookup_item in He.
      repeat case_decide; try discriminate; subst concern; simpl; tauto. }
    clear He. simpl in Hin.
    destruct Hin as [<- | [<- | [<- | [<- | [<- | []]]]]];
      (split; [intros t'; destruct t, t'; simpl; discriminate|]);
      (split; [|intros Ho; first [discriminate Ho | reflexivity]]);
      first [ left; split; [simpl; tauto | reflexivity]
            | right; split; [|reflexivity];
              simpl; intros [H | [H | [H | [H | []]]]]; discriminate ].
  - exists passive_recommendation, g.
    split; [now apply generate_interventions_none|]. simpl.
    split; [intros t; destruct t; simpl; discriminate|].
    split.
    + right. split; [|reflexivity].
      simpl. intros [<- | [<- | [<- | [<- | []]]]];
        vm_compute in He; discriminate He.
    + intros ->. vm_compute in He. discriminate He.
Qed.

(** ** When the fallback type is used *)

(** X9. For a concern of the catalog: under "low" urgency the type is
    supportive; under "medium" it is the candidate drawn, adaptive or
    supportive, which every entry declares; under "high" and "critical" it is
    never supportive; and the type differs from the candidate only when the
    candidate is immediate and the concern is not "high_frustration". *)
Theorem generate_interventions_fallback concern urgency phase g strategies :
  lookup_item concern intervention_strategies = Some strategies ->
  exists iv g' t,
    _generate_interventions concern urgency phase g = Ok (iv, g')
    /\ Iv.type iv = VType t
    /\ (urgency = "low" -> t = SUPPORTIVE)
    /\ (urgency = "medium" ->
        t = candidate_type urgency (fst (Random.randbelow 2 g))
        /\ (t = ADAPTIVE \/ t = SUPPORTIVE))
    /\ (urgency = "high" \/ urgency = "critical" -> t <> SUPPORTIVE)
    /\ (t <> candidate_type urgency (fst (Random.randbelow 2 g)) ->
        candidate_type urgency (fst (Random.randbelow 2 g)) = IMMEDIATE
        /\ concern <> "high_frustration").
Proof.
  intros Hentry.
  destruct (generate_interventions_detail concern urgency phase g strategies
              Hentry) as (t & acts & sel & g' & Hgen & Ht & _).
  eexists _, g', t. split; [exact Hgen|]. split; [reflexivity|].
  pose proof (randbelow_lt 2 g ltac:(lia)) as Hdraw.
  destruct (fst (Random.randbelow 2 g)) as [|[|draw]]; [| |lia];
    clear Hdraw Hgen;
    unfold intervention_strategies, lookup_item in Hentry;
    repeat case_decide; try discriminate; subst concern;
    injection Hentry as <-; subst t;
    (split; [intros ->; reflexivity|]);
    (split; [intros ->; split; [reflexivity | auto]|]);
    (split; [intros [-> | ->]; discriminate|]);
    unfold candidate_type; repeat case_decide; subst;
    intros Hne; first [now destruct Hne | split; [reflexivity | congruence]].
Qed.

Lemma generate_interventions_fallback_witness :
  exists iv g' t,
    _generate_interventions "low_engagement" "high" (VPhase PRACTICE)
      [4; 3; 1]%nat = Ok (iv, g')
    /\ Iv.type iv = VType t
    /\ ("high" = "low" -> t = SUPPORTIVE)
    /\ ("high" = "medium" ->
        t = candidate_type "high" (fst (Random.randbelow 2 [4; 3; 1]%nat))
        /\ (t = ADAPTIVE \/ t = SUPPORTIVE))
    /\ ("high" = "high" \/ "high" = "critical" -> t <> SUPPORTIVE)
    /\ (t <> candidate_type "high" (fst (Random.randbelow 2 [4; 3; 1]%nat)) ->
        candidate_type "high" (fst (Random.randbelow 2 [4; 3; 1]%nat))
        = IMMEDIATE
        /\ "low_engagement" <> "high_frustration").
Proof.
  apply (generate_interventions_fallback "low_engagement" "high"
           (VPhase PRACTICE) [4; 3; 1]%nat
           (default [] (lookup_item "low_engagement" intervention_strategies))).
  reflexivity.
Defined.

(** * Properties of the detector *)

(** ** Validation of a reading *)

Lemma fill_fold_lookup (fields : list (string * pyval)) :
  forall (d : gmap string pyval) s,
    fold_left
      (fun d '(field, dflt) =>
         match d !! field with
         | None => <[field := dflt]> d
         | Some _ => d
         end) fields d !! s
    = match d !! s with
      | Some v => Some v
      | None => lookup_item s fields
      end.
Proof.
  induction fields as [|[field dflt] fields IH]; intros d s; simpl.
  - now destruct (d !! s).
  - rewrite IH. destruct (decide (s = field)) as [->|Hne].
    + destruct (d !! field) as [v|] eqn:Hv; [now rewrite Hv|].
      now rewrite lookup_insert_eq.
    + destruct (d !! field); [reflexivity|].
      now rewrite lookup_insert_ne by congruence.
Qed.

Lemma fill_required_lookup d s :
  Detector.fill_required d !! s
  = match d !! s with
    | Some v => Some v
    | None => lookup_item s Detector.required_fields
    end.
Proof. apply fill_fold_lookup. Qed.

Lemma fill_required_score d s q :
  In s emotion_fields -> score d s = Some q ->
  exists v, getitem (Detector.fill_required d) s = Ok v
            /\ as_number v = Some q.
Proof.
  intros Hin Hs. unfold getitem. rewrite fill_required_lookup.
  unfold score in Hs. destruct (d !! s) as [v|]; [eauto|].
  injection Hs as <-. simpl in Hin.
  destruct Hin as [<- | [<- | [<- | [<- | [<- | []]]]]]; simpl; eauto.
Qed.

Lemma as_int_number v z : as_int v = Some z -> as_number v = Some (inject_Z z).
Proof.
  destruct v as [ | [] | | | | | ]; simpl; try discriminate;
    intros [= <-]; reflexivity.
Qed.

Lemma as_number_float v q :
  as_number v = Some q -> as_int v = None -> v = VFloat q.
Proof. destruct v; simpl; congruence. Qed.

(** The conversion of a number to [float] returns or overflows. *)
Lemma to_float_number v q :
  as_number v = Some q ->
  exists r, to_float v = Some r
            /\ ((exists x, r = Ok x)
                \/ (exists msg, r = Raise (OverflowError msg))).
Proof.
  destruct v as [ | b | z | x | | | ]; try discriminate; intros _;
    unfold to_float; cbn -[float_of_int]; (eexists; split; [reflexivity|]);
    try (left; eauto; fail);
    unfold float_of_int; destruct (Qle_bool _ _); eauto.
Qed.

Lemma to_float_within M v q :
  as_number v = Some q -> int_within M v -> (M <= 5 * score_bound)%Z ->
  exists x, to_float v = Some (Ok x).
Proof.
  intros Hn Hw HM.
  destruct (as_int v) as [z|] eqn:Hz.
  - destruct (float_of_int_ok z) as [x Hx]; [specialize (Hw z Hz); lia|].
    exists x. destruct v; try discriminate; unfold to_float; rewrite Hz;
      simpl; now rewrite Hx.
  - rewrite (as_number_float v q Hn Hz). now exists q.
Qed.

Lemma int_within_float M q : int_within M (VFloat q).
Proof. intros z. discriminate. Qed.

Lemma int_within_not_number M v : as_number v = None -> int_within M v.
Proof. intros Hn z Hz. apply as_int_number in Hz. congruence. Qed.

(** A sum or a difference of two numbers is a number, unless the conversion
    of an [int] operand overflows. *)
Lemma add_numbers a b x y :
  as_number a = Some x -> as_number b = Some y ->
  (exists w q, Detector.add a b = Ok w /\ as_number w = Some q)
  \/ (exists msg, Detector.add a b = Raise (OverflowError msg)).
Proof.
  intros Na Nb. unfold Detector.add.
  destruct (to_float_number a x Na) as (ra & -> & Ha).
  destruct (to_float_number b y Nb) as (rb & -> & Hb).
  destruct (as_int a) as [za|], (as_int b) as [zb|];
    try (left; eexists _, _; split; reflexivity);
    destruct Ha as [[xa ->] | [msg ->]]; try (right; eauto; fail);
    destruct Hb as [[xb ->] | [msg ->]]; try (right; eauto; fail);
    left; eexists _, _; split; reflexivity.
Qed.

Lemma sub_numbers a b x y :
  as_number a = Some x -> as_number b = Some y ->
  (exists w q, sub a b = Ok w /\ as_number w = Some q)
  \/ (exists msg, sub a b = Raise (OverflowError msg)).
Proof.
  intros Na Nb. unfold sub.
  destruct (to_float_number a x Na) as (ra & -> & Ha).
  destruct (to_float_number b y Nb) as (rb & -> & Hb).
  destruct (as_int a) as [za|], (as_int b) as [zb|];
    try (left; eexists _, _; split; reflexivity);
    destruct Ha as [[xa ->] | [msg ->]]; try (right; eauto; fail);
    destruct Hb as [[xb ->] | [msg ->]]; try (right; eauto; fail);
    left; eexists _, _; split; reflexivity.
Qed.

Lemma div_number a x :
  as_number a = Some x ->
  (exists w, Detector.truediv_float a 5 = Ok (VFloat w))
  \/ (exists msg, Detector.truediv_float a 5 = Raise (OverflowError msg)).
Proof.
  intros Na. unfold Detector.truediv_float.
  destruct (to_float_number a x Na) as (ra & -> & [[xa ->] | [msg ->]]);
    [left | right]; eexists; reflexivity.
Qed.

(** With operands inside the bounds no conversion overflows, and an [int]
    result is inside the sum of the bounds. *)
Lemma add_within M N a b x y :
  as_number a = Some x -> as_number b = Some y ->
  int_within M a -> int_within N b ->
  (M <= 5 * score_bound)%Z -> (N <= 5 * score_bound)%Z ->
  exists w q, Detector.add a b = Ok w /\ as_number w = Some q
              /\ int_within (M + N) w.
Proof.
  intros Na Nb Wa Wb HM HN. unfold Detector.add.
  destruct (to_float_within M a x Na Wa HM) as [xa ->].
  destruct (to_float_within N b y Nb Wb HN) as [xb ->].
  destruct (as_int a) as [za|] eqn:Ia, (as_int b) as [zb|] eqn:Ib;
    try (eexists _, _; split; [reflexivity|]; split; [reflexivity|];
         apply int_within_float).
  eexists _, _. split; [reflexivity|]. split; [reflexivity|].
  intros z [= <-]. specialize (Wa za Ia). specialize (Wb zb Ib). lia.
Qed.

Lemma sub_within M N a b x y :
  as_number a = Some x -> as_number b = Some y ->
  int_within M a -> int_within N b ->
  (M <= 5 * score_bound)%Z -> (N <= 5 * score_bound)%Z ->
  exists w q, sub a b = Ok w /\ as_number w = Some q
              /\ int_within (M + N) w.
Proof.
  intros Na Nb Wa Wb HM HN. unfold sub.
  destruct (to_float_within M a x Na Wa HM) as [xa ->].
  destruct (to_float_within N b y Nb Wb HN) as [xb ->].
  destruct (as_int a) as [za|] eqn:Ia, (as_int b) as [zb|] eqn:Ib;
    try (eexists _, _; split; [reflexivity|]; split; [reflexivity|];
         apply int_within_float).
  eexists _, _. split; [reflexivity|]. split; [reflexivity|].
  intros z [= <-]. specialize (Wa za Ia). specialize (Wb zb Ib). lia.
Qed.

Lemma div_within M a x :
  as_number a = Some x -> int_within M a -> (M <= 5 * score_bound)%Z ->
  exists w, Detector.truediv_float a 5 = Ok (VFloat w).
Proof.
  intros Na Wa HM. unfold Detector.truediv_float.
  destruct (to_float_within M a x Na Wa HM) as [xa ->]. eexists. reflexivity.
Qed.

(** A score inside the range is stored as a value inside the bound. *)
Lemma in_range_within v q :
  as_number v = Some q -> in_range q -> int_within score_bound v.
Proof.
  intros Hn Hr z Hz. apply as_int_number in Hz. rewrite Hz in Hn.
  injection Hn as <-. unfold in_range in Hr.
  apply Qabs_Qle_condition in Hr. destruct Hr as [L U].
  rewrite <- inject_Z_opp in L. rewrite <- Zle_Qle in L, U. lia.
Qed.

Lemma getitem_insert_ne (d : gmap string pyval) s s' v :
  s <> s' -> getitem (<[s := v]> d) s' = getitem d s'.
Proof. intros Hne. unfold getitem. now rewrite lookup_insert_ne. Qed.

Lemma fill_required_getitem d s :
  In s emotion_fields ->
  exists v, getitem (Detector.fill_required d) s = Ok v
            /\ as_number v = score d s.
Proof.
  intros Hin. unfold getitem, score. rewrite fill_required_lookup.
  destruct (d !! s) as [v|]; [eauto|]. simpl in Hin.
  destruct Hin as [<- | [<- | [<- | [<- | [<- | []]]]]]; simpl; eauto.
Qed.

Lemma add_not_number a b :
  as_number a = None \/ as_number b = None ->
  (exists w, Detector.add a b = Ok w /\ as_number w = None)
  \/ (exists msg, Detector.add a b = Raise (TypeError msg)).
Proof.
  unfold Detector.add.
  destruct a as [ | p | z | u | s | t | ph ],
           b as [ | p' | z' | u' | s' | t' | ph' ];
    simpl; intros [H | H]; try discriminate; eauto.
Qed.

Lemma sub_not_number a b :
  as_number a = None \/ as_number b = None ->
  exists msg, sub a b = Raise (TypeError msg).
Proof.
  unfold sub.
  destruct a as [ | p | z | u | s | t | ph ],
           b as [ | p' | z' | u' | s' | t' | ph' ];
    simpl; intros [H | H]; try discriminate; eauto.
Qed.

(** What the operands were when an operation returned. *)
Lemma sub_ok a b w :
  sub a b = Ok w ->
  (exists x, as_number a = Some x) /\ (exists y, as_number b = Some y)
  /\ exists q, as_number w = Some q.
Proof.
  intros Hs.
  destruct (as_number a) as [x|] eqn:Na, (as_number b) as [y|] eqn:Nb;
    try (destruct (sub_not_number a b) as [msg Hr]; [tauto|]; congruence).
  destruct (sub_numbers a b x y Na Nb) as [(w' & q & Hr & Nw) | (msg & Hr)];
    rewrite Hr in Hs; [|discriminate].
  injection Hs as <-. repeat split; eauto.
Qed.

Lemma add_ok_number a b w q :
  Detector.add a b = Ok w -> as_number w = Some q ->
  (exists x, as_number a = Some x) /\ (exists y, as_number b = Some y).
Proof.
  intros Hs Nw.
  destruct (as_number a) as [x|] eqn:Na, (as_number b) as [y|] eqn:Nb;
    try (split; eauto; fail);
    (destruct (add_not_number a b) as [(w' & Hr & Nw') | (msg & Hr)];
     [rewrite Na, Nb; tauto | |]; rewrite Hr in Hs; congruence).
Qed.

Lemma div_ok a v :
  Detector.truediv_float a 5 = Ok v -> exists w, v = VFloat w.
Proof.
  unfold Detector.truediv_float.
  destruct (to_float a) as [[x|exc]|]; cbn [mbind result_bind Py.bind];
    [| discriminate | discriminate].
  intros [= <-]. eauto.
Qed.

(** The well-being of five numbers is a float, unless a conversion
    overflows. *)
Lemma wellbeing_numeric ve vk vx vf vc e k x f c :
  as_number ve = Some e -> as_number vk = Some k -> as_number vx = Some x ->
  as_number vf = Some f -> as_number vc = Some c ->
  (exists w, wellbeing_value ve vk vx vf vc = Ok (VFloat w))
  \/ (exists msg, wellbeing_value ve vk vx vf vc = Raise (OverflowError msg)).
Proof.
  intros Ne Nk Nx Nf Nc. unfold wellbeing_value.
  destruct (add_numbers ve vk e k Ne Nk) as [(t1 & q1 & -> & N1) | (msg & ->)];
    [|right; now exists msg].
  cbn [mbind result_bind Py.bind].
  destruct (add_numbers t1 vx q1 x N1 Nx) as [(t2 & q2 & -> & N2) | (msg & ->)];
    [|right; now exists msg].
  cbn [mbind result_bind Py.bind].
  destruct (sub_numbers t2 vf q2 f N2 Nf) as [(t3 & q3 & -> & N3) | (msg & ->)];
    [|right; now exists msg].
  cbn [mbind result_bind Py.bind].
  destruct (sub_numbers t3 vc q3 c N3 Nc) as [(t4 & q4 & -> & N4) | (msg & ->)];
    [|right; now exists msg].
  cbn [mbind result_bind Py.bind].
  apply (div_number t4 q4 N4).
Qed.

Lemma score_bound_pos : (0 < score_bound)%Z.
Proof. reflexivity. Qed.

(** It is a float when the operands are inside the bound of the scores. *)
Lemma wellbeing_within ve vk vx vf vc e k x f c :
  as_number ve = Some e -> as_number vk = Some k -> as_number vx = Some x ->
  as_number vf = Some f -> as_number vc = Some c ->
  int_within score_bound ve -> int_within score_bound vk ->
  int_within score_bound vx -> int_within score_bound vf ->
  int_within score_bound vc ->
  exists w, wellbeing_value ve vk vx vf vc = Ok (VFloat w).
Proof.
  intros Ne Nk Nx Nf Nc We Wk Wx Wf Wc. unfold wellbeing_value.
  pose proof score_bound_pos as HB.
  destruct (add_within _ _ ve vk e k Ne Nk We Wk) as (t1 & q1 & -> & N1 & W1);
    [lia | lia |].
  cbn [mbind result_bind Py.bind].
  destruct (add_within _ _ t1 vx q1 x N1 Nx W1 Wx) as (t2 & q2 & -> & N2 & W2);
    [lia | lia |].
  cbn [mbind result_bind Py.bind].
  destruct (sub_within _ _ t2 vf q2 f N2 Nf W2 Wf) as (t3 & q3 & -> & N3 & W3);
    [lia | lia |].
  cbn [mbind result_bind Py.bind].
  destruct (sub_within _ _ t3 vc q3 c N3 Nc W3 Wc) as (t4 & q4 & -> & N4 & W4);
    [lia | lia |].
  cbn [mbind result_bind Py.bind].
  apply (div_within _ t4 q4 N4 W4). lia.
Qed.

Lemma wellbeing_ok ve vk vx vf vc v :
  wellbeing_value ve vk vx vf vc = Ok v ->
  exists e k x f c w,
    as_number ve = Some e /\ as_number vk = Some k /\ as_number vx = Some x
    /\ as_number vf = Some f /\ as_number vc = Some c /\ v = VFloat w.
Proof.
  unfold wellbeing_value.
  destruct (Detector.add ve vk) as [t1|] eqn:A1;
    cbn [mbind result_bind Py.bind]; [|discriminate].
  destruct (Detector.add t1 vx) as [t2|] eqn:A2;
    cbn [mbind result_bind Py.bind]; [|discriminate].
  destruct (sub t2 vf) as [t3|] eqn:A3;
    cbn [mbind result_bind Py.bind]; [|discriminate].
  destruct (sub t3 vc) as [t4|] eqn:A4;
    cbn [mbind result_bind Py.bind]; [|discriminate].
  intros Hd. destruct (div_ok t4 v Hd) as [w ->].
  destruct (sub_ok t3 vc t4 A4) as ((q3 & N3) & (c & Nc) & _).
  destruct (sub_ok t2 vf t3 A3) as ((q2 & N2) & (f & Nf) & _).
  destruct (add_ok_number t1 vx t2 q2 A2 N2) as ((q1 & N1) & (x & Nx)).
  destruct (add_ok_number ve vk t1 q1 A1 N1) as ((e & Ne) & (k & Nk)).
  exists e, k, x, f, c, w. repeat split; assumption.
Qed.

(** With an operand that is not a number and the others inside the bound,
    the sum raises the TypeError of the first operation that meets it. *)
Lemma wellbeing_raises ve vk vx vf vc :
  as_number ve = None \/ as_number vk = None \/ as_number vx = None
  \/ as_number vf = None \/ as_number vc = None ->
  int_within score_bound ve -> int_within score_bound vk ->
  int_within score_bound vx -> int_within score_bound vf ->
  int_within score_bound vc ->
  exists msg, wellbeing_value ve vk vx vf vc = Raise (TypeError msg).
Proof.
  intros Hnone We Wk Wx Wf Wc. unfold wellbeing_value.
  pose proof score_bound_pos as HB.
  destruct (as_number ve) as [e|] eqn:Ne, (as_number vk) as [k|] eqn:Nk.
  - destruct (add_within _ _ ve vk e k Ne Nk We Wk)
      as (t1 & q1 & -> & N1 & W1); [lia | lia |].
    cbn [mbind result_bind Py.bind].
    destruct (as_number vx) as [x|] eqn:Nx.
    + destruct (add_within _ _ t1 vx q1 x N1 Nx W1 Wx)
        as (t2 & q2 & -> & N2 & W2); [lia | lia |].
      cbn [mbind result_bind Py.bind].
      destruct (as_number vf) as [f|] eqn:Nf.
      * destruct (sub_within _ _ t2 vf q2 f N2 Nf W2 Wf)
          as (t3 & q3 & -> & N3 & W3); [lia | lia |].
        cbn [mbind result_bind Py.bind].
        destruct (sub_not_number t3 vc) as [msg ->]; [|now exists msg].
        right. destruct Hnone as [H | [H | [H | [H | H]]]];
          try discriminate; exact H.
      * destruct (sub_not_number t2 vf) as [msg ->]; [now right|].
        now exists msg.
    + destruct (add_not_number t1 vx) as [(t2 & -> & N2) | (msg & ->)];
        [now right | | now exists msg].
      cbn [mbind result_bind Py.bind].
      destruct (sub_not_number t2 vf) as [msg ->]; [now left|].
      now exists msg.
  - destruct (add_not_number ve vk) as [(t1 & -> & N1) | (msg & ->)];
      [now right | | now exists msg].
    cbn [mbind result_bind Py.bind].
    destruct (add_not_number t1 vx) as [(t2 & -> & N2) | (msg & ->)];
      [now left | | now exists msg].
    cbn [mbind result_bind Py.bind].
    destruct (sub_not_number t2 vf) as [msg ->]; [now left|]. now exists msg.
  - destruct (add_not_number ve vk) as [(t1 & -> & N1) | (msg & ->)];
      [now left | | now exists msg].
    cbn [mbind result_bind Py.bind].
    destruct (add_not_number t1 vx) as [(t2 & -> & N2) | (msg & ->)];
      [now left | | now exists msg].
    cbn [mbind result_bind Py.bind].
    destruct (sub_not_number t2 vf) as [msg ->]; [now left|]. now exists msg.
  - destruct (add_not_number ve vk) as [(t1 & -> & N1) | (msg & ->)];
      [now left | | now exists msg].
    cbn [mbind result_bind Py.bind].
    destruct (add_not_number t1 vx) as [(t2 & -> & N2) | (msg & ->)];
      [now left | | now exists msg].
    cbn [mbind result_bind Py.bind].
    destruct (sub_not_number t2 vf) as [msg ->]; [now left|]. now exists msg.
Qed.

(** Validation on the five values it reads: it raises what the computation
    of the well-being raises, and otherwise returns the mapping
    [validated]. *)
Lemma validate_by_wellbeing d ve vk vx vf vc :
  getitem (Detector.fill_required d) "engagement" = Ok ve ->
  getitem (Detector.fill_required d) "confidence" = Ok vk ->
  getitem (Detector.fill_required d) "excitement" = Ok vx ->
  getitem (Detector.fill_required d) "frustration" = Ok vf ->
  getitem (Detector.fill_required d) "confusion" = Ok vc ->
  (forall exc,
     wellbeing_value ve vk vx vf vc = Raise exc ->
     Detector._validate_and_enhance_emotions d = Raise exc)
  /\ (forall w f c e,
        wellbeing_value ve vk vx vf vc = Ok (VFloat w) ->
        as_number vf = Some f -> as_number vc = Some c ->
        as_number ve = Some e ->
        Detector._validate_and_enhance_emotions d = Ok (validated d w f c e)).
Proof.
  intros Ge Gk Gx Gf Gc.
  unfold Detector._validate_and_enhance_emotions, wellbeing_value, validated.
  rewrite Ge, Gk. cbn [mbind result_bind Py.bind].
  destruct (Detector.add ve vk) as [t1|exc1]; cbn [mbind result_bind Py.bind];
    [| split; [now intros exc [= <-] | intros; discriminate]].
  rewrite Gx. cbn [mbind result_bind Py.bind].
  destruct (Detector.add t1 vx) as [t2|exc2]; cbn [mbind result_bind Py.bind];
    [| split; [now intros exc [= <-] | intros; discriminate]].
  rewrite Gf. cbn [mbind result_bind Py.bind].
  destruct (sub t2 vf) as [t3|exc3]; cbn [mbind result_bind Py.bind];
    [| split; [now intros exc [= <-] | intros; discriminate]].
  rewrite Gc. cbn [mbind result_bind Py.bind].
  destruct (sub t3 vc) as [t4|exc4]; cbn [mbind result_bind Py.bind];
    [| split; [now intros exc [= <-] | intros; discriminate]].
  destruct (Detector.truediv_float t4 5) as [v|exc5];
    cbn [mbind result_bind Py.bind];
    [| split; [now intros exc [= <-] | intros; discriminate]].
  split; [intros; discriminate|].
  intros w f c e [= ->] Nf Nc Ne.
  rewrite !getitem_insert_ne by discriminate.
  rewrite Gf, Gc, Ge. cbn [mbind result_bind Py.bind].
  rewrite (gt_number vf 7 f Nf), (gt_number vc 8 c Nc), (lt_number ve 3 e Ne).
  cbn [mbind result_bind Py.bind].
  unfold or_else.
  rewrite (gt_number vf 5 f Nf), (gt_number vc 6 c Nc).
  unfold inject_Z.
  destruct (Q_ltb 7 f), (Q_ltb 8 c), (Q_ltb e 3);
    cbn [orb mbind result_bind Py.bind]; try reflexivity;
    destruct (Q_ltb 5 f), (Q_ltb 6 c);
    cbn [orb mbind result_bind Py.bind]; reflexivity.
Qed.

(** A reading whose five emotions are numbers inside the range is
    validated. *)
Lemma validate_result d f c e x k :
  emotions d f c e x k -> Forall in_range [f; c; e; x; k] ->
  exists w,
    Detector._validate_and_enhance_emotions d = Ok (validated d w f c e).
Proof.
  intros [Hf Hc He Hx Hk] Hr.
  apply Forall_cons_iff in Hr as [Rf Hr]. apply Forall_cons_iff in Hr as [Rc Hr].
  apply Forall_cons_iff in Hr as [Re Hr]. apply Forall_cons_iff in Hr as [Rx Hr].
  apply Forall_cons_iff in Hr as [Rk _].
  destruct (fill_required_score d "frustration" f) as (vf & Gf & Nf);
    [simpl; tauto | exact Hf |].
  destruct (fill_required_score d "confusion" c) as (vc & Gc & Nc);
    [simpl; tauto | exact Hc |].
  destruct (fill_required_score d "engagement" e) as (ve & Ge & Ne);
    [simpl; tauto | exact He |].
  destruct (fill_required_score d "excitement" x) as (vx & Gx & Nx);
    [simpl; tauto | exact Hx |].
  destruct (fill_required_score d "confidence" k) as (vk & Gk & Nk);
    [simpl; tauto | exact Hk |].
  destruct (wellbeing_within ve vk vx vf vc e k x f c) as [w Hw];
    eauto using in_range_within.
  exists w.
  now apply (proj2 (validate_by_wellbeing d ve vk vx vf vc Ge Gk Gx Gf Gc)).
Qed.

Lemma validated_lookup_other d w f c e s :
  ~ In s computed_fields ->
  validated d w f c e !! s = Detector.fill_required d !! s.
Proof.
  intros Hs. unfold validated. simpl in Hs.
  destruct (Q_ltb 7 f || Q_ltb 8 c || Q_ltb e 3)%bool;
    [| destruct (Q_ltb 5 f || Q_ltb 6 c)%bool];
    rewrite ?lookup_insert_ne by (intros <-; tauto); reflexivity.
Qed.

(** X10. Validation of a reading whose emotion scores are numbers of
    magnitude at most 10 ^ 300, so that no conversion of an [int] and no sum
    leaves the range of floats, returns the reading completed: an entry of
    the reading other than the three computed ones is kept as it is, an absent
    required field gets its default, and the well-being and one of the
    priorities high, medium, low are entered. *)
Theorem validate_completes_reading d f c e x k :
  emotions d f c e x k -> Forall in_range [f; c; e; x; k] ->
  exists d',
    Detector._validate_and_enhance_emotions d = Ok d'
    /\ (forall s v, ~ In s computed_fields -> d !! s = Some v ->
                    d' !! s = Some v)
    /\ (forall s dflt, ~ In s computed_fields -> d !! s = None ->
                       lookup_item s Detector.required_fields = Some dflt ->
                       d' !! s = Some dflt)
    /\ (forall s, In s (keys Detector.required_fields) -> is_Some (d' !! s))
    /\ (exists w, d' !! "overall_wellbeing" = Some (VFloat w))
    /\ (exists p, d' !! "intervention_priority" = Some (VStr p)
                  /\ In p ["high"; "medium"; "low"]).
Proof.
  intros H Hr. destruct (validate_result d f c e x k H Hr) as (w & Hres).
  exists (validated d w f c e). split; [exact Hres|].
  split; [|split; [|split; [|split]]].
  - intros s v Hs Hv. rewrite validated_lookup_other by exact Hs.
    now rewrite fill_required_lookup, Hv.
  - intros s dflt Hs Hn Hd. rewrite validated_lookup_other by exact Hs.
    now rewrite fill_required_lookup, Hn.
  - intros s Hin.
    destruct (decide (s = "intervention_needed")) as [->|Hne].
    + unfold validated.
      destruct (Q_ltb 7 f || Q_ltb 8 c || Q_ltb e 3)%bool;
        [| destruct (Q_ltb 5 f || Q_ltb 6 c)%bool];
        rewrite ?lookup_insert_ne by discriminate;
        rewrite ?lookup_insert_eq; try (now eexists);
        rewrite fill_required_lookup;
        destruct (d !! "intervention_needed"); now eexists.
    + rewrite validated_lookup_other.
      * rewrite fill_required_lookup. destruct (d !! s); [now eexists|].
        simpl in Hin.
        destruct Hin as [<- | [<- | [<- | [<- | [<- | [<- | [<- | [<- | [<- | []]]]]]]]]];
          now eexists.
      * simpl in Hin. simpl.
        intros [<- | [<- | [<- | []]]];
          [| | now destruct Hne];
          destruct Hin as [Hq | [Hq | [Hq | [Hq | [Hq | [Hq | [Hq | [Hq | [Hq | []]]]]]]]]];
          discriminate Hq.
  - exists w. unfold validated.
    destruct (Q_ltb 7 f || Q_ltb 8 c || Q_ltb e 3)%bool;
      [| destruct (Q_ltb 5 f || Q_ltb 6 c)%bool];
      rewrite ?lookup_insert_ne by discriminate; apply lookup_insert_eq.
  - unfold validated.
    destruct (Q_ltb 7 f || Q_ltb 8 c || Q_ltb e 3)%bool;
      [| destruct (Q_ltb 5 f || Q_ltb 6 c)%bool];
      eexists; (split; [apply lookup_insert_eq | simpl; tauto]).
Qed.

Lemma validate_completes_reading_witness :
  exists d',
    Detector._validate_and_enhance_emotions example_reading = Ok d'
    /\ (forall s v, ~ In s computed_fields -> example_reading !! s = Some v ->
                    d' !! s = Some v)
    /\ (forall s dflt, ~ In s computed_fields -> example_reading !! s = None ->
                       lookup_item s Detector.required_fields = Some dflt ->
                       d' !! s = Some dflt)
    /\ (forall s, In s (keys Detector.required_fields) -> is_Some (d' !! s))
    /\ (exists w, d' !! "overall_wellbeing" = Some (VFloat w))
    /\ (exists p, d' !! "intervention_priority" = Some (VStr p)
                  /\ In p ["high"; "medium"; "low"]).
Proof.
  apply (validate_completes_reading example_reading 8 4 2.5 3 5).
  - split; reflexivity.
  - repeat constructor; apply Qle_bool_imp_le; vm_compute; reflexivity.
Defined.

(** X11. The priority validation enters for emotion scores of magnitude at
    most 10 ^ 300: "high" exactly when frustration > 7, confusion > 8 or
    engagement < 3, and then "intervention_needed" is set to True; "medium"
    exactly when that fails and frustration > 5 or confusion > 6; "low"
    otherwise; below "high" the entry "intervention_needed" is the reading's
    own, or False when it has none. *)
Theorem validate_priority d f c e x k :
  emotions d f c e x k -> Forall in_range [f; c; e; x; k] ->
  exists d',
    Detector._validate_and_enhance_emotions d = Ok d'
    /\ (d' !! "intervention_priority" = Some (VStr "high")
        <-> (7 < f \/ 8 < c \/ e < 3)%Q)
    /\ (d' !! "intervention_priority" = Some (VStr "medium")
        <-> (~ (7 < f \/ 8 < c \/ e < 3) /\ (5 < f \/ 6 < c))%Q)
    /\ (d' !! "intervention_priority" = Some (VStr "low")
        <-> (~ (7 < f \/ 8 < c \/ e < 3) /\ ~ (5 < f \/ 6 < c))%Q)
    /\ ((7 < f \/ 8 < c \/ e < 3)%Q ->
        d' !! "intervention_needed" = Some (VBool true))
    /\ (~ (7 < f \/ 8 < c \/ e < 3)%Q ->
        d' !! "intervention_needed"
        = Some (default (VBool false) (d !! "intervention_needed"))).
Proof.
  intros H Hr. destruct (validate_result d f c e x k H Hr) as (w & Hres).
  exists (validated d w f c e). split; [exact Hres|].
  unfold validated.
  destruct (Q_ltb_reflect 7 f), (Q_ltb_reflect 8 c), (Q_ltb_reflect e 3);
    cbn [orb];
    try (rewrite lookup_insert_eq, lookup_insert_ne by discriminate;
         rewrite lookup_insert_eq;
         repeat split; intros; try discriminate; try reflexivity; tauto);
    destruct (Q_ltb_reflect 5 f), (Q_ltb_reflect 6 c); cbn [orb];
    rewrite lookup_insert_eq, !lookup_insert_ne by discriminate;
    rewrite fill_required_lookup;
    (repeat split; intros; try discriminate; try reflexivity; try tauto;
     destruct (d !! "intervention_needed"); reflexivity).
Qed.

Lemma validate_priority_witness :
  exists d',
    Detector._validate_and_enhance_emotions example_reading = Ok d'
    /\ (d' !! "intervention_priority" = Some (VStr "high")
        <-> (7 < 8 \/ 8 < 4 \/ 2.5 < 3)%Q)
    /\ (d' !! "intervention_priority" = Some (VStr "medium")
        <-> (~ (7 < 8 \/ 8 < 4 \/ 2.5 < 3) /\ (5 < 8 \/ 6 < 4))%Q)
    /\ (d' !! "intervention_priority" = Some (VStr "low")
        <-> (~ (7 < 8 \/ 8 < 4 \/ 2.5 < 3) /\ ~ (5 < 8 \/ 6 < 4))%Q)
    /\ ((7 < 8 \/ 8 < 4 \/ 2.5 < 3)%Q ->
        d' !! "intervention_needed" = Some (VBool true))
    /\ (~ (7 < 8 \/ 8 < 4 \/ 2.5 < 3)%Q ->
        d' !! "intervention_needed"
        = Some (default (VBool false)
                  (example_reading !! "intervention_needed"))).
Proof.
  apply (validate_priority example_reading 8 4 2.5 3 5).
  - split; reflexivity.
  - repeat constructor; apply Qle_bool_imp_le; vm_compute; reflexivity.
Defined.

Lemma emotions_or_not d :
  (exists f c e x k, emotions d f c e x k)
  \/ (exists s, In s emotion_fields /\ score d s = None).
Proof.
  destruct (score d "frustration") as [f|] eqn:Hf;
    [| right; exists "frustration"; simpl; tauto].
  destruct (score d "confusion") as [c|] eqn:Hc;
    [| right; exists "confusion"; simpl; tauto].
  destruct (score d "engagement") as [e|] eqn:He;
    [| right; exists "engagement"; simpl; tauto].
  destruct (score d "excitement") as [x|] eqn:Hx;
    [| right; exists "excitement"; simpl; tauto].
  destruct (score d "confidence") as [k|] eqn:Hk;
    [| right; exists "confidence"; simpl; tauto].
  left. now exists f, c, e, x, k.
Qed.

(** A reading validation accepts has numeric emotions and is returned in the
    form [validated], with the well-being of the five values read. *)
Lemma validate_ok d d' :
  Detector._validate_and_enhance_emotions d = Ok d' ->
  exists f c e x k ve vk vx vf vc w,
    emotions d f c e x k
    /\ getitem (Detector.fill_required d) "engagement" = Ok ve
    /\ getitem (Detector.fill_required d) "confidence" = Ok vk
    /\ getitem (Detector.fill_required d) "excitement" = Ok vx
    /\ getitem (Detector.fill_required d) "frustration" = Ok vf
    /\ getitem (Detector.fill_required d) "confusion" = Ok vc
    /\ wellbeing_value ve vk vx vf vc = Ok (VFloat w)
    /\ d' = validated d w f c e.
Proof.
  intros Hok.
  destruct (fill_required_getitem d "engagement") as (ve & Ge & Se);
    [simpl; tauto|].
  destruct (fill_required_getitem d "confidence") as (vk & Gk & Sk);
    [simpl; tauto|].
  destruct (fill_required_getitem d "excitement") as (vx & Gx & Sx);
    [simpl; tauto|].
  destruct (fill_required_getitem d "frustration") as (vf & Gf & Sf);
    [simpl; tauto|].
  destruct (fill_required_getitem d "confusion") as (vc & Gc & Sc);
    [simpl; tauto|].
  destruct (validate_by_wellbeing d ve vk vx vf vc Ge Gk Gx Gf Gc)
    as [Hraise Hret].
  destruct (wellbeing_value ve vk vx vf vc) as [v|exc] eqn:Hw.
  - destruct (wellbeing_ok ve vk vx vf vc v Hw)
      as (e & k & x & f & c & w & Ne & Nk & Nx & Nf & Nc & ->).
    rewrite (Hret w f c e eq_refl Nf Nc Ne) in Hok. injection Hok as <-.
    exists f, c, e, x, k, ve, vk, vx, vf, vc, w.
    split; [split; congruence|]. repeat split; assumption.
  - rewrite (Hraise exc eq_refl) in Hok. discriminate.
Qed.

(** X12. A TypeError of validation comes from an emotion score that is not a
    number; and with the numeric emotion scores of magnitude at most
    10 ^ 300, so that no float conversion overflows first, a reading with an
    emotion score that is not a number is refused with a TypeError: a text
    under "excitement", which the engine ignores, is refused here. *)
Theorem validate_type_error d :
  ((exists msg,
      Detector._validate_and_enhance_emotions d = Raise (TypeError msg)) ->
   exists s, In s emotion_fields /\ non_numeric_at d s)
  /\ ((forall s q, In s emotion_fields -> score d s = Some q -> in_range q) ->
      (exists s, In s emotion_fields /\ non_numeric_at d s) ->
      exists msg,
        Detector._validate_and_enhance_emotions d = Raise (TypeError msg)).
Proof.
  destruct (fill_required_getitem d "engagement") as (ve & Ge & Se);
    [simpl; tauto|].
  destruct (fill_required_getitem d "confidence") as (vk & Gk & Sk);
    [simpl; tauto|].
  destruct (fill_required_getitem d "excitement") as (vx & Gx & Sx);
    [simpl; tauto|].
  destruct (fill_required_getitem d "frustration") as (vf & Gf & Sf);
    [simpl; tauto|].
  destruct (fill_required_getitem d "confusion") as (vc & Gc & Sc);
    [simpl; tauto|].
  destruct (validate_by_wellbeing d ve vk vx vf vc Ge Gk Gx Gf Gc)
    as [Hraise Hret].
  split.
  - intros [msg Hr].
    destruct (emotions_or_not d)
      as [(f & c & e & x & k & [Hf Hc He Hx Hk]) | (s & Hin & Hs)];
      [| exists s; split; [exact Hin | now apply score_none]].
    exfalso. rewrite Hf in Sf. rewrite Hc in Sc. rewrite He in Se.
    rewrite Hx in Sx. rewrite Hk in Sk.
    destruct (wellbeing_numeric ve vk vx vf vc e k x f c Se Sk Sx Sf Sc)
      as [[w Hw] | [msg' Hw]].
    + rewrite (Hret w f c e Hw Sf Sc Se) in Hr. discriminate.
    + rewrite (Hraise _ Hw) in Hr. discriminate.
  - intros Hrange (s & Hin & Hs). apply score_none in Hs.
    assert (forall s v, In s emotion_fields -> as_number v = score d s ->
                        int_within score_bound v) as Hwithin.
    { intros s' v Hin' Hv. destruct (score d s') as [q|] eqn:Hq.
      - apply (in_range_within v q Hv). now apply (Hrange s').
      - now apply int_within_not_number. }
    destruct (wellbeing_raises ve vk vx vf vc) as [msg Hw].
    + rewrite Se, Sk, Sx, Sf, Sc. simpl in Hin.
      destruct Hin as [<- | [<- | [<- | [<- | [<- | []]]]]]; tauto.
    + apply (Hwithin "engagement"); [simpl; tauto | exact Se].
    + apply (Hwithin "confidence"); [simpl; tauto | exact Sk].
    + apply (Hwithin "excitement"); [simpl; tauto | exact Sx].
    + apply (Hwithin "frustration"); [simpl; tauto | exact Sf].
    + apply (Hwithin "confusion"); [simpl; tauto | exact Sc].
    + exists msg. now apply Hraise.
Qed.

Lemma validate_type_error_witness :
  exists msg,
    Detector._validate_and_enhance_emotions example_text_excitement
    = Raise (TypeError msg).
Proof.
  apply (proj2 (validate_type_error example_text_excitement)).
  - intros s q Hin. simpl in Hin.
    destruct Hin as [<- | [<- | [<- | [<- | [<- | []]]]]];
      intros [= <-]; apply Qle_bool_imp_le; vm_compute; reflexivity.
  - exists "excitement". split; [simpl; tauto|].
    exists (VStr "high"). split; reflexivity.
Defined.

(** An [int] beyond the range of floats met by the default 5.0 of an absent
    score: validation raises the OverflowError of the conversion. *)
Example validate_overflow :
  Detector._validate_and_enhance_emotions (<["engagement" := VInt (10 ^ 400)]> ∅)
  = Raise (OverflowError "int too large to convert to float").
Proof. vm_compute. reflexivity. Qed.

(** ** A validated reading in the engine *)

Ltac use_default_readings H :=
  pose proof (H "frustration" ltac:(simpl; tauto)) as [-> | [Hf ->]];
  pose proof (H "confusion" ltac:(simpl; tauto)) as [-> | [Hc ->]];
  pose proof (H "engagement" ltac:(simpl; tauto)) as [-> | [He ->]];
  pose proof (H "confidence" ltac:(simpl; tauto)) as [-> | [Hk ->]];
  rewrite ?Hf, ?Hc, ?He, ?Hk.

Lemma identify_default_reading d d' :
  (forall s, In s compared_fields -> default_reading d d' s) ->
  _identify_primary_concern d' = _identify_primary_concern d.
Proof.
  intros H. unfold _identify_primary_concern, get, getitem.
  use_default_readings H; reflexivity.
Qed.

Lemma urgency_default_reading d d' :
  (forall s, In s compared_fields -> default_reading d d' s) ->
  _calculate_intervention_urgency d' = _calculate_intervention_urgency d.
Proof.
  intros H. unfold _calculate_intervention_urgency, get.
  use_default_readings H; reflexivity.
Qed.

Lemma analyze_default_reading d d' ctx g :
  (forall s, In s compared_fields -> default_reading d d' s) ->
  analyze_intervention_need d' ctx g = analyze_intervention_need d ctx g.
Proof.
  intros H.
  unfold analyze_intervention_need, _calculate_intervention_timing.
  rewrite (identify_default_reading d d' H), (urgency_default_reading d d' H).
  destruct (_identify_primary_concern d) as [name|]; [|reflexivity].
  destruct (_calculate_intervention_urgency d) as [u|]; [|reflexivity].
  cbn [mbind result_bind Py.bind].
  destruct (_generate_interventions _ _ _ _) as [[iv g']|]; reflexivity.
Qed.

Lemma validated_default_reading d w f c e s :
  In s compared_fields -> default_reading d (validated d w f c e) s.
Proof.
  intros Hin. unfold default_reading.
  rewrite validated_lookup_other, fill_required_lookup.
  - destruct (d !! s); [now left|]. right. split; [reflexivity|].
    simpl in Hin. destruct Hin as [<- | [<- | [<- | [<- | []]]]]; reflexivity.
  - simpl in Hin. simpl.
    destruct Hin as [<- | [<- | [<- | [<- | []]]]];
      intros [Hq | [Hq | [Hq | []]]]; discriminate Hq.
Qed.

(** X13. Validation does not change what the engine answers: on the mapping
    validation returns, [analyze_intervention_need] gives the result it gives
    on the reading itself, the defaults 5.0 entered being what the engine
    reads for an absent score. *)
Theorem validate_then_analyze d d' ctx g :
  Detector._validate_and_enhance_emotions d = Ok d' ->
  analyze_intervention_need d' ctx g = analyze_intervention_need d ctx g.
Proof.
  intros Hok.
  destruct (validate_ok d d' Hok)
    as (f & c & e & x & k & ve & vk & vx & vf & vc & w & _ & _ & _ & _ & _ & _
        & _ & ->).
  apply analyze_default_reading. intros s Hin.
  now apply validated_default_reading.
Qed.

Lemma validate_then_analyze_witness :
  exists d',
    Detector._validate_and_enhance_emotions example_reading = Ok d'
    /\ analyze_intervention_need d' None [4; 9]%nat
       = analyze_intervention_need example_reading None [4; 9]%nat.
Proof.
  destruct (validate_result example_reading 8 4 2.5 3 5) as (w & Hv);
    [split; reflexivity
    | repeat constructor; apply Qle_bool_imp_le; vm_compute; reflexivity |].
  eexists. split; [exact Hv|].
  apply (validate_then_analyze example_reading _ None [4; 9]%nat Hv).
Defined.

Lemma emotions_scores d f c e x k :
  emotions d f c e x k -> scores d f c e k.
Proof. intros [Hf Hc He Hx Hk]. now split. Qed.

(** X14. The engine never grades a validated reading below the priority the
    detector entered: priority "high" comes with urgency "high" or "critical",
    priority "medium" with at least "medium". *)
Theorem validate_priority_below_urgency d d' :
  Detector._validate_and_enhance_emotions d = Ok d' ->
  exists p u m n,
    d' !! "intervention_priority" = Some (VStr p)
    /\ _calculate_intervention_urgency d' = Ok u
    /\ urgency_rank p = Some m /\ urgency_rank u = Some n /\ (m <= n)%nat.
Proof.
  intros Hok.
  destruct (validate_ok d d' Hok)
    as (f & c & e & x & k & ve & vk & vx & vf & vc & w & H & _ & _ & _ & _ & _
        & _ & ->).
  rewrite (urgency_default_reading d (validated d w f c e))
    by (intros s Hin; now apply validated_default_reading).
  pose proof (emotions_scores d f c e x k H) as Hs.
  unfold validated.
  destruct (urgency_ladder d f c e k Hs)
    as [(C & ->) | [(C & Hh & ->) | [(C & Hh & M & ->) | (C & Hh & M & ->)]]];
    unfold critical_rung, high_rung, medium_rung in *;
    destruct (Q_ltb_reflect 7 f), (Q_ltb_reflect 8 c), (Q_ltb_reflect e 3);
    cbn [orb];
    try (exfalso; intuition lra);
    try (eexists _, _, _, _; split; [apply lookup_insert_eq|];
         split; [reflexivity|]; split; [reflexivity|];
         split; [reflexivity|]; lia);
    destruct (Q_ltb_reflect 5 f), (Q_ltb_reflect 6 c); cbn [orb];
    try (exfalso; intuition lra);
    eexists _, _, _, _; (split; [apply lookup_insert_eq|]);
    (split; [reflexivity|]); (split; [reflexivity|]);
    (split; [reflexivity|]); lia.
Qed.

Lemma validate_priority_below_urgency_witness :
  exists d' p u m n,
    Detector._validate_and_enhance_emotions example_reading = Ok d'
    /\ d' !! "intervention_priority" = Some (VStr p)
    /\ _calculate_intervention_urgency d' = Ok u
    /\ urgency_rank p = Some m /\ urgency_rank u = Some n /\ (m <= n)%nat.
Proof.
  destruct (validate_result example_reading 8 4 2.5 3 5) as (w & Hv);
    [split; reflexivity
    | repeat constructor; apply Qle_bool_imp_le; vm_compute; reflexivity |].
  destruct (validate_priority_below_urgency example_reading _ Hv)
    as (p & u & m & n & Hp).
  eexists _, p, u, m, n. split; [exact Hv | exact Hp].
Defined.

(** ** Validating twice *)

Lemma validated_required d w f c e s :
  validated d w f c e !! s = None ->
  lookup_item s Detector.required_fields = None.
Proof.
  unfold validated.
  destruct (Q_ltb 7 f || Q_ltb 8 c || Q_ltb e 3)%bool;
    [| destruct (Q_ltb 5 f || Q_ltb 6 c)%bool];
    rewrite !lookup_insert; repeat case_decide; try discriminate;
    rewrite fill_required_lookup; destruct (d !! s); try discriminate;
    trivial.
Qed.

Lemma fill_required_validated d w f c e :
  Detector.fill_required (validated d w f c e) = validated d w f c e.
Proof.
  apply map_eq. intros s. rewrite fill_required_lookup.
  destruct (validated d w f c e !! s) eqn:Hs; [reflexivity|].
  now apply validated_required in Hs.
Qed.

Lemma validated_again d w f c e :
  validated (validated d w f c e) w f c e = validated d w f c e.
Proof.
  unfold validated at 1. rewrite fill_required_validated.
  unfold validated.
  destruct (Q_ltb 7 f || Q_ltb 8 c || Q_ltb e 3)%bool;
    [| destruct (Q_ltb 5 f || Q_ltb 6 c)%bool];
    apply map_eq; intros s; rewrite !lookup_insert;
    repeat case_decide; subst; try reflexivity; congruence.
Qed.

Lemma getitem_validated d w f c e s v :
  In s emotion_fields ->
  getitem (Detector.fill_required d) s = Ok v ->
  getitem (Detector.fill_required (validated d w f c e)) s = Ok v.
Proof.
  intros Hin Hv. rewrite fill_required_validated.
  unfold getitem in *. rewrite validated_lookup_other; [exact Hv|].
  simpl in Hin. simpl.
  destruct Hin as [<- | [<- | [<- | [<- | [<- | []]]]]];
    intros [Hq | [Hq | [Hq | []]]]; discriminate Hq.
Qed.

(** X15. Validation is idempotent: validating the mapping it returned
    returns that mapping again. *)
Theorem validate_idempotent d d' :
  Detector._validate_and_enhance_emotions d = Ok d' ->
  Detector._validate_and_enhance_emotions d' = Ok d'.
Proof.
  intros Hok.
  destruct (validate_ok d d' Hok)
    as (f & c & e & x & k & ve & vk & vx & vf & vc & w & H & Ge & Gk & Gx & Gf
        & Gc & Hw & ->).
  pose proof (fill_required_score d "frustration" f) as (vf' & Gf' & Nf);
    [simpl; tauto | apply H |].
  pose proof (fill_required_score d "confusion" c) as (vc' & Gc' & Nc);
    [simpl; tauto | apply H |].
  pose proof (fill_required_score d "engagement" e) as (ve' & Ge' & Ne);
    [simpl; tauto | apply H |].
  rewrite Gf in Gf'. injection Gf' as <-. rewrite Gc in Gc'.
  injection Gc' as <-. rewrite Ge in Ge'. injection Ge' as <-.
  rewrite (proj2 (validate_by_wellbeing (validated d w f c e) ve vk vx vf vc
                    ltac:(apply getitem_validated; [simpl; tauto | exact Ge])
                    ltac:(apply getitem_validated; [simpl; tauto | exact Gk])
                    ltac:(apply getitem_validated; [simpl; tauto | exact Gx])
                    ltac:(apply getitem_validated; [simpl; tauto | exact Gf])
                    ltac:(apply getitem_validated; [simpl; tauto | exact Gc]))
             w f c e Hw Nf Nc Ne).
  f_equal. apply validated_again.
Qed.

Lemma validate_idempotent_witness :
  exists d',
    Detector._validate_and_enhance_emotions example_reading = Ok d'
    /\ Detector._validate_and_enhance_emotions d' = Ok d'.
Proof.
  destruct (validate_result example_reading 8 4 2.5 3 5) as (w & Hv);
    [split; reflexivity
    | repeat constructor; apply Qle_bool_imp_le; vm_compute; reflexivity |].
  eexists. split; [exact Hv|].
  apply (validate_idempotent example_reading _ Hv).
Defined.

(** * Properties of the visualizer *)

(** ** The session history *)

Lemma last_n_all {A} n (l : list A) : (length l <= n)%nat -> last_n n l = l.
Proof.
  intros Hle. unfold last_n. now replace (length l - n)%nat with 0%nat by lia.
Qed.

Lemma last_n_length {A} n (l : list A) : (length (last_n n l) <= n)%nat.
Proof. unfold last_n. rewrite length_drop. lia. Qed.

Lemma last_n_app {A} n (l l' : list A) :
  last_n n (last_n n l ++ l') = last_n n (l ++ l').
Proof.
  destruct (decide (length l <= n)%nat) as [Hle|Hgt].
  - now rewrite (last_n_all n l Hle).
  - unfold last_n. rewrite !length_app, length_drop.
    replace (length l - (length l - n) + length l' - n)%nat
      with (length l')%nat by lia.
    replace (length l + length l' - n)%nat
      with ((length l - n) + length l')%nat by lia.
    rewrite <- drop_drop. f_equal.
    rewrite drop_app_le by lia. reflexivity.
Qed.

Lemma add_emotion_reading_history now d st h :
  Visualizer.emotion_history st = Some h ->
  Visualizer.add_emotion_reading now d st
  = Some {| Visualizer.emotion_history :=
              Some (last_n 20 (h ++ [stamped (now, d)]));
            Visualizer.session_start_time :=
              Visualizer.session_start_time st |}.
Proof.
  intros Hh. unfold Visualizer.add_emotion_reading. rewrite Hh.
  do 3 f_equal. unfold stamped. cbn [fst snd].
  set (r := <["timestamp" := _]> _).
  destruct (Nat.ltb_spec 20 (length (h ++ [r]))) as [Hlt|Hle].
  - reflexivity.
  - now rewrite last_n_all.
Qed.

(** X16. The history never holds more than 20 readings, whatever it held
    before: a call on a session with a history stores the stamped reading
    last and keeps the 20 most recent entries in their order. *)
Theorem add_emotion_reading_bounded now d st h :
  Visualizer.emotion_history st = Some h ->
  exists st' h',
    Visualizer.add_emotion_reading now d st = Some st'
    /\ Visualizer.emotion_history st' = Some h'
    /\ (length h' <= 20)%nat
    /\ length h' = Nat.min (S (length h)) 20
    /\ last h' = Some (stamped (now, d))
    /\ (exists dropped, (h ++ [stamped (now, d)])%list = (dropped ++ h')%list)
    /\ Visualizer.session_start_time st' = Visualizer.session_start_time st.
Proof.
  intros Hh. rewrite (add_emotion_reading_history now d st h Hh).
  eexists _, _. split; [reflexivity|]. simpl. split; [reflexivity|].
  split; [apply last_n_length|].
  split.
  { unfold last_n. rewrite length_drop, length_app. simpl. lia. }
  split.
  { unfold last_n. rewrite last_lookup, lookup_drop, length_drop.
    set (l := (h ++ [stamped (now, d)])%list).
    assert (length l = S (length h)) as Hl
        by (subst l; rewrite length_app; simpl; lia).
    replace (length l - 20 + Nat.pred (length l - (length l - 20)))%nat
      with (Nat.pred (length l)) by lia.
    rewrite <- last_lookup. apply last_snoc. }
  split; [|reflexivity].
  exists (take (length (h ++ [stamped (now, d)]) - 20) (h ++ [stamped (now, d)])).
  unfold last_n. now rewrite take_drop.
Qed.

Lemma add_emotion_reading_bounded_witness :
  exists st' h',
    Visualizer.add_emotion_reading 7 example_critical
      {| Visualizer.emotion_history := Some (replicate 25 ∅);
         Visualizer.session_start_time := Some 0%Z |} = Some st'
    /\ Visualizer.emotion_history st' = Some h'
    /\ (length h' <= 20)%nat
    /\ length h' = Nat.min (S (length (replicate 25 (∅ : gmap string Visualizer.entry)))) 20
    /\ last h' = Some (stamped (7%Z, example_critical))
    /\ (exists dropped,
          (replicate 25 ∅ ++ [stamped (7%Z, example_critical)])%list
          = (dropped ++ h')%list)
    /\ Visualizer.session_start_time st' = Some 0%Z.
Proof.
  apply (add_emotion_reading_bounded 7 example_critical
           {| Visualizer.emotion_history := Some (replicate 25 ∅);
              Visualizer.session_start_time := Some 0%Z |}
           (replicate 25 ∅)).
  reflexivity.
Defined.

Lemma add_readings_history readings :
  forall st h,
    Visualizer.emotion_history st = Some h -> (length h <= 20)%nat ->
    add_readings readings st
    = Some {| Visualizer.emotion_history :=
                Some (last_n 20 (h ++ map stamped readings));
              Visualizer.session_start_time :=
                Visualizer.session_start_time st |}.
Proof.
  induction readings as [|[now d] readings IH]; intros st h Hh Hlen; simpl.
  - rewrite app_nil_r, last_n_all by exact Hlen.
    destruct st as [hist start]. simpl in *. now subst hist.
  - rewrite (add_emotion_reading_history now d st h Hh).
    rewrite (IH _ (last_n 20 (h ++ [stamped (now, d)])));
      [| reflexivity | apply last_n_length].
    simpl. rewrite last_n_app, <- app_assoc. reflexivity.
Qed.

(** X17. After a session is initialised, any run of readings is accepted and
    the history is then the stamped readings of the run, the last 20 of them
    when there were more; the start time is the time of the initialisation. *)
Theorem session_keeps_last_readings start readings :
  add_readings readings
    (Visualizer.initialize_emotion_session start
       {| Visualizer.emotion_history := None;
          Visualizer.session_start_time := None |})
  = Some {| Visualizer.emotion_history :=
              Some (last_n 20 (map stamped readings));
            Visualizer.session_start_time := Some start |}.
Proof.
  rewrite (add_readings_history readings _ []); [reflexivity | reflexivity |].
  simpl. lia.
Qed.

(** X18. Initialising a session keeps a history and a start time that exist,
    so that a second initialisation changes nothing; a reading added to a
    session that was never initialised fails on the missing history. *)
Theorem initialize_emotion_session_keeps now now' st :
  (forall h, Visualizer.emotion_history st = Some h ->
     Visualizer.emotion_history (Visualizer.initialize_emotion_session now st)
     = Some h)
  /\ (forall t, Visualizer.session_start_time st = Some t ->
        Visualizer.session_start_time
          (Visualizer.initialize_emotion_session now st) = Some t)
  /\ Visualizer.initialize_emotion_session now'
       (Visualizer.initialize_emotion_session now st)
     = Visualizer.initialize_emotion_session now st
  /\ (forall d, Visualizer.emotion_history st = None ->
        Visualizer.add_emotion_reading now d st = None)
  /\ (forall d, exists st',
        Visualizer.add_emotion_reading now' d
          (Visualizer.initialize_emotion_session now st) = Some st').
Proof.
  destruct st as [[h|] [t|]]; unfold Visualizer.initialize_emotion_session;
    simpl; repeat split; intros; try discriminate; try congruence;
    unfold Visualizer.add_emotion_reading; simpl; eauto.
Qed.

(** ** The learning insights *)

Lemma written_app shown shown' :
  written (shown ++ shown') = (written shown ++ written shown')%list.
Proof. apply omap_app. Qed.

Lemma written_bullets recs :
  written (map bullet recs) = map (fun rec => "• " ++ rec) recs.
Proof. induction recs as [|r recs IH]; simpl; [reflexivity | now f_equal]. Qed.

Lemma render_insights_numeric d f c e x k :
  emotions d f c e x k ->
  exists headings,
    Visualizer.render_learning_insights d
    = ((headings
        ++ map bullet
             (take 3 (advice (Q_ltb e 4) (Q_ltb 7 c) (Q_ltb 6 f)
                        (Q_ltb k 4))))%list,
       Ok tt)
    /\ written headings = [] /\ length headings = 4%nat.
Proof.
  intros [Hf Hc He Hx Hk]. unfold Visualizer.render_learning_insights.
  rewrite !(gt_score _ _ _ _ Hf), !(gt_score _ _ _ _ Hc),
    !(gt_score _ _ _ _ He), !(gt_score _ _ _ _ Hx),
    !(lt_score _ _ _ _ He), !(lt_score _ _ _ _ Hk).
  unfold inject_Z. cbn [mbind result_bind Py.bind].
  destruct (Q_ltb 7 c), (Q_ltb 7 e), (Q_ltb 7 x), (Q_ltb 7 f);
    cbn [andb];
    eexists [_; _; _; _];
    (split; [destruct (Q_ltb e 4), (Q_ltb 6 f), (Q_ltb k 4); reflexivity
            | split; reflexivity]).
Qed.

(** X19. The recommendations of the insights panel, for a reading with
    numeric emotions: between one and three are written; those for low
    engagement, high confusion and high frustration appear exactly under their
    conditions; the encouragement for low confidence (< 4) is left out when
    the three other conditions hold; the advice to continue appears exactly
    when no condition holds. *)
Theorem render_learning_insights_recommendations d f c e x k :
  emotions d f c e x k ->
  exists shown,
    Visualizer.render_learning_insights d = (shown, Ok tt)
    /\ (1 <= length (written shown) <= 3)%nat
    /\ (In "• 🎮 Add interactive elements to boost engagement" (written shown)
        <-> (e < 4)%Q)
    /\ (In "• 📚 Provide additional examples or simpler explanations"
           (written shown)
        <-> (7 < c)%Q)
    /\ (In "• ☕ Suggest a short break or change of activity" (written shown)
        <-> (6 < f)%Q)
    /\ (In "• 💪 Offer encouragement and celebrate small wins" (written shown)
        <-> (k < 4 /\ ~ (e < 4 /\ 7 < c /\ 6 < f))%Q)
    /\ (In "• ✅ Continue current approach - student doing well!"
           (written shown)
        <-> (~ e < 4 /\ ~ 7 < c /\ ~ 6 < f /\ ~ k < 4)%Q).
Proof.
  intros H.
  destruct (render_insights_numeric d f c e x k H)
    as (headings & Hrender & Hnone & _).
  eexists. split; [exact Hrender|].
  rewrite written_app, Hnone, written_bullets. cbn [app].
  destruct (Q_ltb_reflect e 4), (Q_ltb_reflect 7 c), (Q_ltb_reflect 6 f),
    (Q_ltb_reflect k 4); simpl;
    (split; [lia|]);
    repeat split; intros; try tauto;
    repeat match goal with
           | Hin : _ \/ _ |- _ => destruct Hin as [Hin | Hin]
           | Hin : @eq string _ _ |- _ => discriminate Hin
           | Hin : False |- _ => destruct Hin
           end;
    try lra; tauto.
Qed.

Lemma render_learning_insights_recommendations_witness :
  exists shown,
    Visualizer.render_learning_insights example_reading = (shown, Ok tt)
    /\ (1 <= length (written shown) <= 3)%nat
    /\ (In "• 🎮 Add interactive elements to boost engagement" (written shown)
        <-> (2.5 < 4)%Q)
    /\ (In "• 📚 Provide additional examples or simpler explanations"
           (written shown)
        <-> (7 < 4)%Q)
    /\ (In "• ☕ Suggest a short break or change of activity" (written shown)
        <-> (6 < 8)%Q)
    /\ (In "• 💪 Offer encouragement and celebrate small wins" (written shown)
        <-> (5 < 4 /\ ~ (2.5 < 4 /\ 7 < 4 /\ 6 < 8))%Q)
    /\ (In "• ✅ Continue current approach - student doing well!"
           (written shown)
        <-> (~ 2.5 < 4 /\ ~ 7 < 4 /\ ~ 6 < 8 /\ ~ 5 < 4)%Q).
Proof.
  apply (render_learning_insights_recommendations example_reading 8 4 2.5 3 5).
  split; reflexivity.
Defined.

Lemma gt_score_none d s n :
  score d s = None ->
  gt (get d s (VInt 5)) (VInt n)
  = Raise (not_supported ">" (get d s (VInt 5)) (VInt n)).
Proof. intros H. now apply gt_not_number, score_none_get. Qed.

Lemma lt_score_none d s n :
  score d s = None ->
  lt (get d s (VInt 5)) (VInt n)
  = Raise (not_supported "<" (get d s (VInt 5)) (VInt n)).
Proof. intros H. now apply lt_not_number, score_none_get. Qed.

Lemma render_insights_raises d :
  (exists s, In s emotion_fields /\ score d s = None) ->
  exists shown msg,
    Visualizer.render_learning_insights d = (shown, Raise (TypeError msg))
    /\ written shown = [] /\ (2 <= length shown <= 4)%nat.
Proof.
  intros (s & Hin & Hs). unfold Visualizer.render_learning_insights.
  destruct (score d "confusion") as [c|] eqn:Hc;
    [rewrite !(gt_score _ _ _ _ Hc)
    | rewrite (gt_score_none _ _ _ Hc); cbn [mbind result_bind Py.bind];
      eexists _, _; split; [reflexivity|]; split; [reflexivity | simpl; lia]].
  cbn [mbind result_bind Py.bind].
  destruct (score d "engagement") as [e|] eqn:He;
    [rewrite !(gt_score _ _ _ _ He), !(lt_score _ _ _ _ He)
    | rewrite (gt_score_none _ _ _ He); cbn [mbind result_bind Py.bind];
      eexists _, _; split; [reflexivity|]; split; [reflexivity | simpl; lia]].
  cbn [mbind result_bind Py.bind].
  destruct (score d "excitement") as [x|] eqn:Hx;
    [rewrite !(gt_score _ _ _ _ Hx)
    | rewrite (gt_score_none _ _ _ Hx); cbn [mbind result_bind Py.bind];
      eexists _, _; split; [reflexivity|]; split; [reflexivity | simpl; lia]].
  cbn [mbind result_bind Py.bind].
  destruct (score d "frustration") as [f|] eqn:Hf;
    [rewrite !(gt_score _ _ _ _ Hf)
    | rewrite (gt_score_none _ _ _ Hf); cbn [mbind result_bind Py.bind];
      eexists _, _; split; [reflexivity|]; split; [reflexivity | simpl; lia]].
  cbn [mbind result_bind Py.bind].
  destruct (score d "confidence") as [k|] eqn:Hk.
  - exfalso. simpl in Hin.
    destruct Hin as [<- | [<- | [<- | [<- | [<- | []]]]]]; congruence.
  - rewrite (lt_score_none _ _ _ Hk). unfold inject_Z.
    destruct (Q_ltb 7 c), (Q_ltb 7 e), (Q_ltb 7 x), (Q_ltb 7 f);
      cbn [andb mbind result_bind Py.bind];
      eexists _, _; (split; [reflexivity|]);
      (split; [reflexivity | simpl; lia]).
Qed.

(** X20. The insights panel raises a TypeError exactly when one of the five
    emotion scores is not a number; the headings shown before the failing
    comparison stay on the page, and no recommendation is written. *)
Theorem render_learning_insights_type_error d :
  ((exists s, In s emotion_fields /\ non_numeric_at d s) ->
   exists shown msg,
     Visualizer.render_learning_insights d = (shown, Raise (TypeError msg))
     /\ written shown = [] /\ (2 <= length shown <= 4)%nat)
  /\ (forall exc, snd (Visualizer.render_learning_insights d) = Raise exc ->
        exists s, In s emotion_fields /\ non_numeric_at d s).
Proof.
  split.
  - intros (s & Hin & Hs). apply render_insights_raises.
    exists s. split; [exact Hin | now apply score_none].
  - intros exc Hexc.
    destruct (emotions_or_not d) as [(f & c & e & x & k & H) | (s & Hin & Hs)].
    + destruct (render_insights_numeric d f c e x k H) as (hd & Hr & _).
      rewrite Hr in Hexc. discriminate Hexc.
    + exists s. split; [exact Hin | now apply score_none].
Qed.

Lemma render_learning_insights_type_error_witness :
  exists shown msg,
    Visualizer.render_learning_insights example_text_excitement
    = (shown, Raise (TypeError msg))
    /\ written shown = [] /\ (2 <= length shown <= 4)%nat.
Proof.
  apply (proj1 (render_learning_insights_type_error example_text_excitement)).
  exists "excitement". split; [simpl; tauto|].
  exists (VStr "high"). split; reflexivity.
Defined.
